(** * easyPlaywright: page objects, helpers and configuration

    A shallow embedding of the TypeScript sources of the repository
    (page objects, components, test helpers, accessibility helpers, the
    smoke tests and [playwright.config.ts]) together with the properties
    stated about them.

    The code under study is glue over the Playwright API.  Every
    asynchronous function is embedded as a program tree ([prog]) whose
    nodes are the calls it awaits; an environment ([handler]) answers the
    calls, so the same program can be run against an arbitrary browser,
    against a fixed DOM snapshot ([StaticPage]) or against a site that
    can be navigated ([Browser]).  Running a program gives its outcome
    together with the trace of the calls it made, which is what the
    statements about invocations, sleeps and swallowed failures read.

    Numbers used as counts, indices, timeouts and statuses are integers;
    the options of [retry] are finite numbers, which need not be
    integers; strings are sequences of UTF-16 code units. *)

From Stdlib Require Import ZArith NArith String Ascii Bool Lia Arith List.
From Stdlib Require Import DecimalString.
From Stdlib Require DecimalZ.
From Stdlib Require Import QArith Qround.
From Equations Require Import Equations.
Import ListNotations.
Close Scope Q_scope.

Set Default Goal Selector "!".

(* ===================================================================== *)
(** ** JavaScript strings *)
(* ===================================================================== *)

(** A JavaScript string is a sequence of UTF-16 code units. *)
Module JsString.

Definition jsstring : Type := list N.

(** An ASCII literal of the source, as code units. *)
Definition lit (s : string) : jsstring :=
  map N_of_ascii (list_ascii_of_string s).

(** The double quote, which the sources use inside selectors and
    template literals. *)
Definition dquote : jsstring := [34%N].

Definition eqb (a b : jsstring) : bool :=
  if list_eq_dec N.eq_dec a b then true else false.

(** ECMAScript [WhiteSpace] and [LineTerminator] code points: the
    characters [String.prototype.trim] removes. *)
Definition isWhiteSpace (c : N) : bool :=
  ((c =? 9) || (c =? 10) || (c =? 11) || (c =? 12) || (c =? 13)
   || (c =? 32) || (c =? 160) || (c =? 5760)
   || ((8192 <=? c) && (c <=? 8202))
   || (c =? 8232) || (c =? 8233) || (c =? 8239) || (c =? 8287)
   || (c =? 12288) || (c =? 65279))%N.

Fixpoint trimStart (s : jsstring) : jsstring :=
  match s with
  | [] => []
  | c :: s' => if isWhiteSpace c then trimStart s' else s
  end.

Definition trimEnd (s : jsstring) : jsstring := rev (trimStart (rev s)).

(** [s.trim()] *)
Definition trim (s : jsstring) : jsstring := trimEnd (trimStart s).

(** [s.startsWith(p)] *)
Fixpoint startsWith (s p : jsstring) : bool :=
  match p, s with
  | [], _ => true
  | _ :: _, [] => false
  | a :: p', b :: s' => (a =? b)%N && startsWith s' p'
  end.

(** [s.includes(p)] *)
Fixpoint includes (s p : jsstring) : bool :=
  startsWith s p ||
  match s with
  | [] => false
  | _ :: s' => includes s' p
  end.

(** A string made of white space only (the empty string included). *)
Definition whitespaceOnly (s : jsstring) : bool := forallb isWhiteSpace s.

(** No white space at either end. *)
Definition trimmed (s : jsstring) : Prop :=
  (forall c s', s = c :: s' -> isWhiteSpace c = false) /\
  (forall c s', s = s' ++ [c] -> isWhiteSpace c = false).

(** JavaScript truthiness of a string: every string but the empty one. *)
Definition truthy (s : jsstring) : bool :=
  match s with [] => false | _ :: _ => true end.

(** [String(n)] for an integral number. *)
Definition ofZ (n : Z) : jsstring := lit (NilZero.string_of_int (Z.to_int n)).

(** [String(n)] for a count. *)
Definition ofNat (n : nat) : jsstring := ofZ (Z.of_nat n).

End JsString.
Import JsString.

(* ===================================================================== *)
(** ** Asynchronous programs *)
(* ===================================================================== *)

(** What a [throw] can carry: an [Error] object (of the framework, of the
    runtime or of the repository's own making) or the value [undefined]. *)
Inductive thrown : Type :=
| Undefined
| ErrorObject (name : string) (message : jsstring).

(** A settled promise. *)
Inductive outcome (A : Type) : Type :=
| Resolved (a : A)
| Rejected (e : thrown).
Arguments Resolved {A} a.
Arguments Rejected {A} e.

Definition outcome_map {A B} (f : A -> B) (r : outcome A) : outcome B :=
  match r with
  | Resolved a => Resolved (f a)
  | Rejected e => Rejected e
  end.

(** A program over the calls [E]: it returns, throws, or awaits a call
    and continues with the way the call settled. *)
Inductive prog (E : Type -> Type) (A : Type) : Type :=
| Ret (a : A)
| Throw (e : thrown)
| Call (X : Type) (c : E X) (k : outcome X -> prog E A).
Arguments Ret {E A} a.
Arguments Throw {E A} e.
Arguments Call {E A X} c k.

Fixpoint bind {E A B} (m : prog E A) (f : A -> prog E B) : prog E B :=
  match m with
  | Ret a => f a
  | Throw e => Throw e
  | Call c k => Call c (fun r => bind (k r) f)
  end.

(** [try { m } catch (e) { h e }]: only what [m] throws is caught. *)
Fixpoint try_catch {E A} (m : prog E A) (h : thrown -> prog E A) : prog E A :=
  match m with
  | Ret a => Ret a
  | Throw e => h e
  | Call c k => Call c (fun r => try_catch (k r) h)
  end.

(** [await c]: a rejection of the awaited call is thrown on. *)
Definition await {E X} (c : E X) : prog E X :=
  Call c (fun r => match r with Resolved x => Ret x | Rejected e => Throw e end).

Declare Scope prog_scope.
Delimit Scope prog_scope with prog.
Notation "x <- m ;; k" := (bind m (fun x => k))
  (at level 61, m at next level, right associativity) : prog_scope.
Notation "m ;;; k" := (bind m (fun _ => k))
  (at level 61, right associativity) : prog_scope.
Open Scope prog_scope.

(** One awaited call and how it settled. *)
Inductive event (E : Type -> Type) : Type :=
| Event (X : Type) (c : E X) (r : outcome X).
Arguments Event {E X} c r.

(** The environment: it settles every call, possibly changing the world. *)
Definition handler (E : Type -> Type) (W : Type) : Type :=
  forall X, E X -> W -> outcome X * W.

(** Running a program: its outcome, the final world and the calls made. *)
Fixpoint run {E W A} (h : handler E W) (p : prog E A) (w : W)
  : outcome A * W * list (event E) :=
  match p with
  | Ret a => (Resolved a, w, [])
  | Throw e => (Rejected e, w, [])
  | Call c k =>
      let (r, w1) := h _ c w in
      let '(res, w2, tr) := run h (k r) w1 in
      (res, w2, Event c r :: tr)
  end.

Definition result {E W A} (h : handler E W) (p : prog E A) (w : W) : outcome A :=
  fst (fst (run h p w)).
Definition world {E W A} (h : handler E W) (p : prog E A) (w : W) : W :=
  snd (fst (run h p w)).
Definition trace {E W A} (h : handler E W) (p : prog E A) (w : W) : list (event E) :=
  snd (run h p w).

(** The errors of the calls that rejected, in order. *)
Definition rejections {E} (tr : list (event E)) : list thrown :=
  flat_map (fun ev => match ev with
                      | Event _ (Rejected e) => [e]
                      | Event _ (Resolved _) => []
                      end) tr.

(** A program is transparent for failures when it neither makes up an
    error nor swallows one: it rejects exactly when one of its calls
    rejects, with the error of that call, and stops there. *)
Definition transparent {E A} (p : prog E A) : Prop :=
  forall W (h : handler E W) (w : W),
    match result h p w with
    | Resolved _ => rejections (trace h p w) = []
    | Rejected e => rejections (trace h p w) = [e]
    end.

(** A program all of whose calls satisfy [Q], in every environment. *)
Definition always {E A} (Q : event E -> Prop) (p : prog E A) : Prop :=
  forall W (h : handler E W) (w : W), Forall Q (trace h p w).

(** [for (let i = start; i < start + n; i++) acc = body i acc] *)
Fixpoint for_range {E St} (n : nat) (i : nat) (body : nat -> St -> prog E St) (acc : St)
  : prog E St :=
  match n with
  | O => Ret acc
  | S n' => acc' <- body i acc ;; for_range n' (S i) body acc'
  end.

Fixpoint intersperse {A} (sep : A) (l : list A) : list A :=
  match l with
  | [] => []
  | [x] => [x]
  | x :: l' => x :: sep :: intersperse sep l'
  end.

(* ===================================================================== *)
(** ** The Playwright API used by the repository *)
(* ===================================================================== *)

Module Playwright.

(** Locators, built the way the sources build them. *)
Inductive locator : Type :=
| Css (selector : jsstring)                    (* page.locator(selector) *)
| First (l : locator)                          (* l.first() *)
| Nth (l : locator) (index : nat)              (* l.nth(index) *)
| Within (l : locator) (selector : jsstring).  (* l.locator(selector) *)

Inductive loadState : Type := DomContentLoaded | NetworkIdle.

(** The regular expressions of the sources: [/word/i] for a word of ASCII
    letters and digits, and alternatives [/a|b/i] of such. *)
Inductive regexp : Type :=
| IgnoreCase (word : jsstring)
| Alt (first second : regexp).

(** What [page.evaluate] brings back for the heading query. *)
Record Heading : Type := { level : nat; headingText : jsstring }.

(** The argument of [toHaveTitle], [toHaveText] and [toHaveAttribute]:
    [string | RegExp]. *)
Definition expected : Type := (jsstring + regexp)%type.

(** The calls the sources await (or make synchronously) on the page, its
    locators, the request context, the URL constructor, the clock and
    [expect]. *)
Inductive pageE : Type -> Type :=
| Count (l : locator) : pageE nat
| TextContent (l : locator) : pageE (option jsstring)
| GetAttribute (l : locator) (name : string) : pageE (option jsstring)
| IsVisible (l : locator) : pageE bool
| WaitForVisible (l : locator) (timeout : option Z) : pageE unit
| Click (l : locator) : pageE unit
| WaitForTimeout (ms : Z) : pageE unit
| WaitForLoadState (s : loadState) : pageE unit
| Goto (url : jsstring) : pageE unit
| PageUrl : pageE jsstring
| NewURL (href base : jsstring) : pageE jsstring
| RequestHead (url : jsstring) : pageE Z
| EvaluateHeadings : pageE (list Heading)
| EvaluateLang : pageE jsstring
| ExpectToHaveURL (re : regexp) : pageE unit
| Title : pageE jsstring
| ScrollIntoViewIfNeeded (l : locator) : pageE unit
| Screenshot (path : jsstring) (fullPage : bool) : pageE (list N)
| Hover (l : locator) : pageE unit
| Focus (l : locator) : pageE unit
| KeyboardPress (key : jsstring) : pageE unit
| ExpectToHaveTitle (title : expected) : pageE unit
| ExpectToBeVisible (l : locator) : pageE unit
| ExpectToHaveText (l : locator) (text : expected) : pageE unit
| ExpectToHaveAttribute (l : locator) (name : string) (value : expected) : pageE unit
| EvaluateScrollFullPage : pageE unit
| EvaluateInnerText : pageE jsstring
| EvaluateInViewport (l : locator) : pageE bool
| EvaluateFocusVisible (l : locator) : pageE bool
| EvaluateTagName (l : locator) : pageE jsstring
| DateNow : pageE Z.

Definition upperAscii (c : N) : N :=
  if ((97 <=? c) && (c <=? 122))%N then (c - 32)%N else c.

Fixpoint startsWithIgnoreCase (s p : jsstring) : bool :=
  match p, s with
  | [], _ => true
  | _ :: _, [] => false
  | a :: p', b :: s' => (upperAscii a =? upperAscii b)%N && startsWithIgnoreCase s' p'
  end.

Fixpoint searchIgnoreCase (s p : jsstring) : bool :=
  startsWithIgnoreCase s p ||
  match s with
  | [] => false
  | _ :: s' => searchIgnoreCase s' p
  end.

(** [re.test(s)] *)
Fixpoint regexpTest (re : regexp) (s : jsstring) : bool :=
  match re with
  | IgnoreCase word => searchIgnoreCase s word
  | Alt first second => regexpTest first s || regexpTest second s
  end.

(** [expect(actual).toBeGreaterThan(expected)] *)
Definition assertionError : thrown :=
  ErrorObject "Error" (lit "expect(received) assertion failed").
Definition expect_toBeGreaterThan {E} (actual expected : nat) : prog E unit :=
  if (expected <? actual)%nat then Ret tt else Throw assertionError.

(** [text?.trim() ?? ''] *)
Definition trimOrEmpty (text : option jsstring) : jsstring :=
  match option_map trim text with
  | Some t => t
  | None => []
  end.

(** [if (text?.trim()) { acc.push(text.trim()); }] *)
Definition pushTrimmed (acc : list jsstring) (text : option jsstring) : list jsstring :=
  match option_map trim text with
  | Some t => if truthy t then acc ++ [t] else acc
  | None => acc
  end.

(** [if (href) { acc.push(href); }] *)
Definition pushTruthy (acc : list jsstring) (v : option jsstring) : list jsstring :=
  match v with
  | Some s => if truthy s then acc ++ [s] else acc
  | None => acc
  end.

(** [s.split(/\s+/)]: the pieces between the runs of white space; [piece]
    is the piece being read and [inSeparator] tells whether the last
    character read was white space. *)
Fixpoint splitWhitespaceFrom (s piece : jsstring) (inSeparator : bool) : list jsstring :=
  match s with
  | [] => [piece]
  | c :: s' =>
      if isWhiteSpace c
      then if inSeparator
           then splitWhitespaceFrom s' [] true
           else piece :: splitWhitespaceFrom s' [] true
      else splitWhitespaceFrom s' (piece ++ [c]) false
  end.
Definition splitWhitespace (s : jsstring) : list jsstring :=
  splitWhitespaceFrom s [] false.

(** [`${v}`] for a string that may be [null]. *)
Definition interpolate (v : option jsstring) : jsstring :=
  match v with Some s => s | None => lit "null" end.

End Playwright.
Import Playwright.

(* ===================================================================== *)
(** ** A page that does not change: the environment of a DOM snapshot *)
(* ===================================================================== *)

Module StaticPage.

Record Element : Type := {
  nodeId : nat;
  attributes : list (string * jsstring);
  text : option jsstring;
  shown : bool
}.

Fixpoint getAttribute (attrs : list (string * jsstring)) (name : string)
  : option jsstring :=
  match attrs with
  | [] => None
  | (n, v) :: attrs' => if String.eqb n name then Some v else getAttribute attrs' name
  end.

(** The page as the browser holds it, with the answers of the network. *)
Record Page : Type := {
  url : jsstring;
  query : jsstring -> list Element;            (* matches, in document order *)
  scoped : Element -> jsstring -> list Element; (* matches inside an element *)
  headings : list Heading;
  lang : jsstring;
  resolveUrl : jsstring -> jsstring -> option jsstring; (* new URL(href, base) *)
  headStatus : jsstring -> outcome Z;                   (* request.head(url) *)
  otherwise : forall X, pageE X -> outcome X            (* every other call *)
}.

(** The elements of [l] without repetition, each at the place of its
    first occurrence; [seen] holds the [nodeId]s met so far.  Two
    elements are the same node exactly when they have the same [nodeId]. *)
Fixpoint distinct (seen : list nat) (l : list Element) : list Element :=
  match l with
  | [] => []
  | e :: l' =>
      if existsb (Nat.eqb (nodeId e)) seen
      then distinct seen l'
      else e :: distinct (nodeId e :: seen) l'
  end.

(** [l.locator(selector)] gives every element that matches inside one of
    the elements of [l], once, in document order.  The containers come
    in document order, and a container that lies inside an earlier one
    only repeats matches of that one, so the first occurrences of the
    matches container by container are in document order. *)
Fixpoint resolve (p : Page) (l : locator) : list Element :=
  match l with
  | Css selector => query p selector
  | First l' => firstn 1 (resolve p l')
  | Nth l' index =>
      match nth_error (resolve p l') index with
      | Some e => [e]
      | None => []
      end
  | Within l' selector =>
      distinct [] (flat_map (fun e => scoped p e selector) (resolve p l'))
  end.

Definition timeoutError : thrown :=
  ErrorObject "TimeoutError" (lit "Timeout exceeded").
Definition strictModeError : thrown :=
  ErrorObject "Error" (lit "strict mode violation").
Definition invalidUrlError : thrown :=
  ErrorObject "TypeError" (lit "Invalid URL").

(** An action on a locator needs exactly one element. *)
Definition single {X} (p : Page) (l : locator) (f : Element -> outcome X) : outcome X :=
  match resolve p l with
  | [] => Rejected timeoutError
  | [e] => f e
  | _ :: _ :: _ => Rejected strictModeError
  end.

Definition answer (p : Page) (X : Type) (c : pageE X) : outcome X :=
  match c in pageE X return outcome X with
  | Count l => Resolved (length (resolve p l))
  | TextContent l => single p l (fun e => Resolved (text e))
  | GetAttribute l name => single p l (fun e => Resolved (getAttribute (attributes e) name))
  | IsVisible l =>
      match resolve p l with
      | [] => Resolved false
      | [e] => Resolved (shown e)
      | _ :: _ :: _ => Rejected strictModeError
      end
  | WaitForVisible l _ =>
      single p l (fun e => if shown e then Resolved tt else Rejected timeoutError)
  | Click l =>
      single p l (fun e => if shown e then Resolved tt else Rejected timeoutError)
  | WaitForTimeout _ => Resolved tt
  | WaitForLoadState _ => Resolved tt
  | Goto _ => Resolved tt
  | PageUrl => Resolved (url p)
  | NewURL href base =>
      match resolveUrl p href base with
      | Some u => Resolved u
      | None => Rejected invalidUrlError
      end
  | RequestHead u => headStatus p u
  | EvaluateHeadings => Resolved (headings p)
  | EvaluateLang => Resolved (lang p)
  | ExpectToHaveURL re =>
      if regexpTest re (url p) then Resolved tt else Rejected assertionError
  | c' => otherwise p _ c'
  end.

(** For pages on which the remaining calls are of no interest. *)
Definition notModelled : forall X, pageE X -> outcome X :=
  fun _ _ => Rejected (ErrorObject "Error" (lit "not modelled")).

(** The snapshot as an environment; its world never changes. *)
Definition static (p : Page) : handler pageE unit :=
  fun X c w => (answer p X c, w).

(** The outcome of a program on the snapshot. *)
Definition eval {A} (p : Page) (m : prog pageE A) : outcome A := result (static p) m tt.

End StaticPage.

(* ===================================================================== *)
(** ** Components *)
(* ===================================================================== *)

(** BlogPostComponent.ts *)
Module BlogPostComponent.

Record BlogPostData : Type := {
  title : jsstring;
  date : jsstring;
  description : jsstring;
  tags : list jsstring;
  url : option jsstring
}.

Definition postsContainer : locator :=
  First (Css (lit "#main, .entries-list, .archive")).
Definition postCards : locator :=
  Css (lit "article.archive__item, .archive__item").
Definition titleLocators : locator :=
  Css (lit ".archive__item-title a, .archive__item h2 a, article.archive__item a[rel="
       ++ dquote ++ lit "permalink" ++ dquote ++ lit "]").

Definition titleSelector : jsstring :=
  lit ".archive__item-title a, h2 a, a[rel=" ++ dquote ++ lit "permalink" ++ dquote ++ lit "]".
Definition dateSelector : jsstring :=
  lit "time, .page__meta-date, .archive__item-excerpt time".
Definition descSelector : jsstring :=
  lit ".archive__item-excerpt p, p.archive__item-excerpt".
Definition tagSelector : jsstring :=
  lit ".page__taxonomy a, .archive__item-tags a".

(** [`.archive__item-title a:has-text("${title}"), a[rel="permalink"]:has-text("${title}")`] *)
Definition postLinkSelector (title : jsstring) : jsstring :=
  lit ".archive__item-title a:has-text(" ++ dquote ++ title ++ dquote
  ++ lit "), a[rel=" ++ dquote ++ lit "permalink" ++ dquote
  ++ lit "]:has-text(" ++ dquote ++ title ++ dquote ++ lit ")".

(** [await this.postsContainer.waitFor(...).catch(() => {})], then the
    count of the post cards. *)
Definition getPostCount : prog pageE nat :=
  try_catch (await (WaitForVisible postsContainer (Some 10000%Z))) (fun _ => Ret tt) ;;;
  await (Count postCards).

Definition getAllPostTitles : prog pageE (list jsstring) :=
  count <- await (Count titleLocators) ;;
  for_range count 0
    (fun i titles =>
       text <- await (TextContent (Nth titleLocators i)) ;;
       Ret (pushTrimmed titles text))
    [].

Definition getPostByIndex (index : nat) : prog pageE BlogPostData :=
  let post := Nth postCards index in
  let titleElement := First (Within post titleSelector) in
  let dateElement := First (Within post dateSelector) in
  let descElement := First (Within post descSelector) in
  let tagElements := Within post tagSelector in
  title <- await (TextContent titleElement) ;;
  date <- await (TextContent dateElement) ;;
  description <- await (TextContent descElement) ;;
  url <- await (GetAttribute titleElement "href") ;;
  tagCount <- await (Count tagElements) ;;
  tags <- for_range tagCount 0
            (fun i tags =>
               tagText <- await (TextContent (Nth tagElements i)) ;;
               Ret (pushTrimmed tags tagText))
            [] ;;
  Ret {| title := trimOrEmpty title;
         date := trimOrEmpty date;
         description := trimOrEmpty description;
         tags := tags;
         url := url |}.

(** [array.findIndex(pred)]: the first index whose element satisfies
    [pred], or -1. *)
Fixpoint findIndexFrom {A} (pred : A -> bool) (l : list A) (i : Z) : Z :=
  match l with
  | [] => (-1)%Z
  | x :: l' => if pred x then i else findIndexFrom pred l' (i + 1)%Z
  end.
Definition findIndex {A} (pred : A -> bool) (l : list A) : Z := findIndexFrom pred l 0.

(** [toLowerCase] is the runtime's [String.prototype.toLowerCase]. *)
Definition findPostContaining (toLowerCase : jsstring -> jsstring) (searchText : jsstring)
  : prog pageE (option BlogPostData) :=
  posts <- getAllPostTitles ;;
  let matchingIndex :=
    findIndex (fun title => includes (toLowerCase title) (toLowerCase searchText)) posts in
  if (0 <=? matchingIndex)%Z
  then data <- getPostByIndex (Z.to_nat matchingIndex) ;; Ret (Some data)
  else Ret None.

Definition clickPostByTitle (title : jsstring) : prog pageE unit :=
  let postLink := First (Css (postLinkSelector title)) in
  await (Click postLink) ;;;
  await (WaitForLoadState NetworkIdle).

Definition clickPostByIndex (index : nat) : prog pageE unit :=
  let posts :=
    Css (lit ".archive__item-title a, article.archive__item a[rel=" ++ dquote
         ++ lit "permalink" ++ dquote ++ lit "]") in
  await (Click (Nth posts index)) ;;;
  await (WaitForLoadState NetworkIdle).

Definition isVisible : prog pageE bool := await (IsVisible postsContainer).

End BlogPostComponent.

(** ProfileComponent.ts *)
Module ProfileComponent.

Definition authorName : locator := First (Css (lit ".author__name, h3.author__name")).
Definition tagline : locator :=
  First (Css (lit ".author__bio, p[itemprop=" ++ dquote ++ lit "description" ++ dquote ++ lit "]")).

Definition profileContainer : locator :=
  First (Css (lit ".sidebar, .author__avatar, [itemtype*=" ++ dquote ++ lit "Person"
              ++ dquote ++ lit "]")).
Definition avatar : locator :=
  First (Css (lit ".author__avatar img, img[alt*=" ++ dquote ++ lit "Alejandro"
              ++ dquote ++ lit "]")).
Definition socialLinksContainer : locator := Css (lit ".author__urls, ul.social-icons").
Definition githubLink : locator :=
  First (Css (lit "a[href*=" ++ dquote ++ lit "github.com/Othrondir" ++ dquote ++ lit "]")).
Definition linkedinLink : locator :=
  First (Css (lit "a[href*=" ++ dquote ++ lit "linkedin.com" ++ dquote ++ lit "]")).

Definition getAuthorName : prog pageE jsstring :=
  text <- await (TextContent authorName) ;;
  Ret (trimOrEmpty text).

Definition getTagline : prog pageE jsstring :=
  text <- await (TextContent tagline) ;;
  Ret (trimOrEmpty text).

Definition isVisible : prog pageE bool := await (IsVisible profileContainer).
Definition isAvatarDisplayed : prog pageE bool := await (IsVisible avatar).
Definition getAvatarSrc : prog pageE (option jsstring) := await (GetAttribute avatar "src").

Definition clickAuthorName : prog pageE unit :=
  await (Click authorName) ;;;
  await (WaitForLoadState NetworkIdle).

Definition clickGithubLink : prog pageE (option jsstring) :=
  href <- await (GetAttribute githubLink "href") ;;
  await (Click githubLink) ;;;
  Ret href.

Definition clickLinkedinLink : prog pageE (option jsstring) :=
  href <- await (GetAttribute linkedinLink "href") ;;
  await (Click linkedinLink) ;;;
  Ret href.

Definition getGithubUrl : prog pageE (option jsstring) :=
  await (GetAttribute githubLink "href").
Definition getLinkedinUrl : prog pageE (option jsstring) :=
  await (GetAttribute linkedinLink "href").

Definition getAllSocialUrls : prog pageE (list jsstring) :=
  let links := Within socialLinksContainer (lit "a") in
  count <- await (Count links) ;;
  for_range count 0
    (fun i urls =>
       href <- await (GetAttribute (Nth links i) "href") ;;
       Ret (pushTruthy urls href))
    [].

End ProfileComponent.

(** NavigationComponent.ts *)
Module NavigationComponent.

Definition mobileMenuToggle : locator := Css (lit ".greedy-nav__toggle, button.navicon").
Definition aboutLink : locator :=
  First (Css (lit ".visible-links a[href*=" ++ dquote ++ lit "about" ++ dquote
              ++ lit "], .masthead__menu-item a:has-text(" ++ dquote ++ lit "About"
              ++ dquote ++ lit ")")).

Definition navContainer : locator := Css (lit "#site-nav").
Definition homeLink : locator :=
  First (Css (lit ".visible-links a[href=" ++ dquote ++ lit "/QAbbalah/" ++ dquote
              ++ lit "], .masthead__menu-item a:has-text(" ++ dquote ++ lit "Home"
              ++ dquote ++ lit ")")).
Definition postsLink : locator :=
  First (Css (lit ".visible-links a[href*=" ++ dquote ++ lit "year-archive" ++ dquote
              ++ lit "], .masthead__menu-item a:has-text(" ++ dquote ++ lit "Posts"
              ++ dquote ++ lit ")")).
Definition categoriesLink : locator :=
  First (Css (lit ".visible-links a[href*=" ++ dquote ++ lit "categories" ++ dquote
              ++ lit "], .masthead__menu-item a:has-text(" ++ dquote ++ lit "Categories"
              ++ dquote ++ lit ")")).
Definition tagsLink : locator :=
  First (Css (lit ".visible-links a[href*=" ++ dquote ++ lit "tags" ++ dquote
              ++ lit "], .masthead__menu-item a:has-text(" ++ dquote ++ lit "Tags"
              ++ dquote ++ lit ")")).
Definition mobileMenu : locator := Css (lit ".hidden-links").

Definition goToAbout : prog pageE unit :=
  toggleVisible <- await (IsVisible mobileMenuToggle) ;;
  (if toggleVisible : bool
   then await (Click mobileMenuToggle) ;;; await (WaitForTimeout 300)
   else Ret tt) ;;;
  await (Click aboutLink) ;;;
  await (WaitForLoadState NetworkIdle).

Definition isVisible : prog pageE bool := await (IsVisible navContainer).

Definition goToHome : prog pageE unit :=
  let logo := First (Css (lit ".site-logo, a.site-logo")) in
  logoVisible <- await (IsVisible logo) ;;
  (if logoVisible : bool
   then await (Click logo)
   else
     toggleVisible <- await (IsVisible mobileMenuToggle) ;;
     if toggleVisible : bool
     then await (Click mobileMenuToggle) ;;;
          await (WaitForTimeout 300) ;;;
          await (Click homeLink)
     else await (Click homeLink)) ;;;
  await (WaitForLoadState NetworkIdle).

Definition goToPosts : prog pageE unit :=
  await (Click postsLink) ;;;
  await (WaitForLoadState NetworkIdle).

Definition goToCategories : prog pageE unit :=
  await (Click categoriesLink) ;;;
  await (WaitForLoadState NetworkIdle).

Definition goToTags : prog pageE unit :=
  await (Click tagsLink) ;;;
  await (WaitForLoadState NetworkIdle).

Definition getNavLinkTexts : prog pageE (list jsstring) :=
  let links := Css (lit "#topbar-wrapper a, .nav-item a") in
  count <- await (Count links) ;;
  for_range count 0
    (fun i texts =>
       text <- await (TextContent (Nth links i)) ;;
       Ret (pushTrimmed texts text))
    [].

Definition toggleMobileMenu : prog pageE unit :=
  toggleVisible <- await (IsVisible mobileMenuToggle) ;;
  if toggleVisible : bool then await (Click mobileMenuToggle) else Ret tt.

Definition isMobileMenuExpanded : prog pageE bool := await (IsVisible mobileMenu).

End NavigationComponent.

(** FooterComponent.ts *)
Module FooterComponent.

Definition copyrightText : locator :=
  First (Css (lit "footer .page__footer-copyright, footer p, .page__footer-follow")).

Definition footerContainer : locator := Css (lit "footer").
Definition rssLink : locator :=
  Css (lit "a[href*=" ++ dquote ++ lit "feed.xml" ++ dquote
       ++ lit "], a.fa-rss-square, a[href*=" ++ dquote ++ lit "feed" ++ dquote ++ lit "]").
Definition footerLinks : locator := Css (lit "footer a, .page__footer a").

Definition getCopyrightText : prog pageE jsstring :=
  text <- await (TextContent copyrightText) ;;
  Ret (trimOrEmpty text).

Definition isVisible : prog pageE bool := await (IsVisible footerContainer).

Definition containsYear (year : jsstring) : prog pageE bool :=
  text <- getCopyrightText ;;
  Ret (includes text year).

Definition hasRssLink : prog pageE bool := await (IsVisible rssLink).

Definition getRssFeedUrl : prog pageE (option jsstring) :=
  rssVisible <- await (IsVisible rssLink) ;;
  if rssVisible : bool then await (GetAttribute rssLink "href") else Ret None.

Definition clickRssLink : prog pageE unit := await (Click rssLink).

Definition getAllFooterLinks : prog pageE (list jsstring) :=
  count <- await (Count footerLinks) ;;
  for_range count 0
    (fun i urls =>
       href <- await (GetAttribute (Nth footerLinks i) "href") ;;
       Ret (pushTruthy urls href))
    [].

Definition scrollIntoView : prog pageE unit :=
  await (ScrollIntoViewIfNeeded footerContainer).

End FooterComponent.

(* ===================================================================== *)
(** ** Pages *)
(* ===================================================================== *)

(** BasePage.ts *)
Module BasePage.

Definition waitForPageLoad : prog pageE unit :=
  await (WaitForLoadState DomContentLoaded) ;;;
  await (WaitForLoadState NetworkIdle).

Definition navigate (pageUrl : jsstring) : prog pageE unit :=
  await (Goto pageUrl) ;;;
  waitForPageLoad.

(** [(await locator.textContent()) ?? ''] *)
Definition getElementText (l : locator) : prog pageE jsstring :=
  text <- await (TextContent l) ;;
  Ret (match text with Some t => t | None => [] end).


Definition getCurrentUrl : prog pageE jsstring := await PageUrl.
Definition getPageTitle : prog pageE jsstring := await Title.

Definition verifyPageTitle (pageTitle : expected) : prog pageE unit :=
  await (ExpectToHaveTitle pageTitle).

(** [waitForElement(locator, timeout = 10000)] *)
Definition waitForElement (l : locator) (timeout : option Z) : prog pageE unit :=
  let timeout := match timeout with Some t => t | None => 10000%Z end in
  await (WaitForVisible l (Some timeout)).

Definition isElementVisible (l : locator) : prog pageE bool := await (IsVisible l).

Definition clickElement (l : locator) : prog pageE unit :=
  await (WaitForVisible l None) ;;;
  await (Click l).

Definition scrollToElement (l : locator) : prog pageE unit :=
  await (ScrollIntoViewIfNeeded l).

Definition takeScreenshot (name : jsstring) : prog pageE (list N) :=
  await (Screenshot (lit "test-results/screenshots/" ++ name ++ lit ".png") true).

Definition getAttribute (l : locator) (attribute : string) : prog pageE (option jsstring) :=
  await (GetAttribute l attribute).

Definition verifyElementText (l : locator) (expectedText : expected) : prog pageE unit :=
  await (ExpectToHaveText l expectedText).

Definition verifyElementVisible (l : locator) : prog pageE unit :=
  await (ExpectToBeVisible l).

Definition verifyElementAttribute (l : locator) (attribute : string) (value : expected)
  : prog pageE unit :=
  await (ExpectToHaveAttribute l attribute value).

Definition getElementCount (l : locator) : prog pageE nat := await (Count l).
Definition hoverElement (l : locator) : prog pageE unit := await (Hover l).
Definition pressKey (key : jsstring) : prog pageE unit := await (KeyboardPress key).
Definition waitForNavigation : prog pageE unit := await (WaitForLoadState NetworkIdle).

End BasePage.

(** HomePage.ts *)
Module HomePage.

Definition pageUrl : jsstring := [].
Definition mainContent : locator := Css (lit "#main").

(** [/QAbbalah|Alejandro/i] *)
Definition pageTitle : expected :=
  inr (Alt (IgnoreCase (lit "QAbbalah")) (IgnoreCase (lit "Alejandro"))).
Definition recentPostsSection : locator := First (Css (lit ".archive__item")).

Definition waitForHomePageContent : prog pageE unit :=
  await (WaitForVisible mainContent (Some 15000%Z)).

Definition navigate : prog pageE unit :=
  BasePage.navigate pageUrl ;;;
  waitForHomePageContent.

Definition getMainHeading : prog pageE jsstring :=
  let heading := First (Css (lit "h1, .site-title")) in
  text <- await (TextContent heading) ;;
  Ret (trimOrEmpty text).

Definition getRecentPostsCount : prog pageE nat := BlogPostComponent.getPostCount.

Definition verifyAllSectionsVisible : prog pageE unit :=
  await (ExpectToBeVisible mainContent).

Definition hasRecentPostsSection : prog pageE bool := await (IsVisible recentPostsSection).

Definition verifyPageLoaded : prog pageE unit :=
  BasePage.verifyPageTitle pageTitle ;;;
  verifyAllSectionsVisible.

Definition navigateToPost (postTitle : jsstring) : prog pageE unit :=
  BlogPostComponent.clickPostByTitle postTitle.

Definition getVisibleSections : prog pageE (list jsstring) :=
  let sections := [] in
  navigation <- NavigationComponent.isVisible ;;
  let sections := if navigation : bool then sections ++ [lit "navigation"] else sections in
  profile <- ProfileComponent.isVisible ;;
  let sections := if profile : bool then sections ++ [lit "profile"] else sections in
  blogPosts <- BlogPostComponent.isVisible ;;
  let sections := if blogPosts : bool then sections ++ [lit "blog-posts"] else sections in
  footer <- FooterComponent.isVisible ;;
  let sections := if footer : bool then sections ++ [lit "footer"] else sections in
  Ret sections.

End HomePage.

(** AboutPage.ts *)
Module AboutPage.

Definition aboutHeading : locator := First (Css (lit "h1, .post-title, article h1")).
Definition bioText : locator := First (Css (lit ".post-content p, article p, .content p")).

Definition pageUrl : jsstring := lit "about/".
(** [/About|QAbbalah/i] *)
Definition pageTitle : expected :=
  inr (Alt (IgnoreCase (lit "About")) (IgnoreCase (lit "QAbbalah"))).
Definition aboutContent : locator := Css (lit "main, .post-content, article, .content").

Definition getHeadingText : prog pageE jsstring :=
  text <- await (TextContent aboutHeading) ;;
  Ret (trimOrEmpty text).

Definition getBioText : prog pageE jsstring :=
  text <- await (TextContent bioText) ;;
  Ret (trimOrEmpty text).

Definition waitForAboutContent : prog pageE unit :=
  await (WaitForVisible aboutContent (Some 15000%Z)).

Definition navigate : prog pageE unit :=
  BasePage.navigate pageUrl ;;;
  waitForAboutContent.

Definition isContentVisible : prog pageE bool := await (IsVisible aboutContent).
Definition verifyPageLoaded : prog pageE unit := await (ExpectToBeVisible aboutContent).

End AboutPage.

(** PostPage.ts *)
Module PostPage.

Definition postTitle : locator := First (Css (lit "h1.post-title, article h1, .post-title")).

Definition postContent : locator := Css (lit "main article, .post, .post-content, article").
Definition postDate : locator :=
  First (Css (lit ".post-meta time, time.dt-published, .post-date")).
Definition postBody : locator := Css (lit ".post-content, article .content, .e-content").
Definition postTags : locator :=
  Css (lit ".post-tag, .tag, a[href*=" ++ dquote ++ lit "/tags/" ++ dquote ++ lit "]").

Definition getPostTitle : prog pageE jsstring :=
  text <- await (TextContent postTitle) ;;
  Ret (trimOrEmpty text).

Definition waitForPostContent : prog pageE unit :=
  await (WaitForVisible postContent (Some 15000%Z)).

Definition navigateToPost (slug : jsstring) : prog pageE unit :=
  await (Goto (lit "/posts/" ++ slug ++ lit "/")) ;;;
  waitForPostContent.

Definition getPostDate : prog pageE jsstring :=
  text <- await (TextContent postDate) ;;
  Ret (trimOrEmpty text).

Definition getPostBody : prog pageE jsstring :=
  text <- await (TextContent postBody) ;;
  Ret (trimOrEmpty text).

Definition getPostTags : prog pageE (list jsstring) :=
  count <- await (Count postTags) ;;
  for_range count 0
    (fun i tags =>
       text <- await (TextContent (Nth postTags i)) ;;
       Ret (pushTrimmed tags text))
    [].

Definition hasTag (toLowerCase : jsstring -> jsstring) (tagName : jsstring)
  : prog pageE bool :=
  tags <- getPostTags ;;
  Ret (existsb (fun tag => includes (toLowerCase tag) (toLowerCase tagName)) tags).

Definition clickTag (tagName : jsstring) : prog pageE unit :=
  await (Click (First (Css (lit "a[href*=" ++ dquote ++ lit "/tags/" ++ dquote
                            ++ lit "]:has-text(" ++ dquote ++ tagName ++ dquote
                            ++ lit ")")))) ;;;
  await (WaitForLoadState NetworkIdle).

Definition verifyPageLoaded : prog pageE unit :=
  await (ExpectToBeVisible postContent) ;;;
  await (ExpectToBeVisible postTitle).

Definition getWordCount : prog pageE nat :=
  bodyText <- getPostBody ;;
  Ret (length (filter (fun word => (0 <? length word)%nat) (splitWhitespace bodyText))).

Definition contentContains (toLowerCase : jsstring -> jsstring) (text : jsstring)
  : prog pageE bool :=
  bodyText <- getPostBody ;;
  Ret (includes (toLowerCase bodyText) (toLowerCase text)).

End PostPage.

(* ===================================================================== *)
(** ** smoke.spec.ts *)
(* ===================================================================== *)

Module Smoke.

(** [/about/i] *)
Definition aboutPattern : regexp := IgnoreCase (lit "about").

(** test('should navigate to About page') *)
Definition should_navigate_to_About_page : prog pageE unit :=
  HomePage.navigate ;;;
  NavigationComponent.goToAbout ;;;
  await (ExpectToHaveURL aboutPattern).

(** test('should display at least one blog post') *)
Definition should_display_at_least_one_blog_post : prog pageE unit :=
  HomePage.navigate ;;;
  postCount <- HomePage.getRecentPostsCount ;;
  expect_toBeGreaterThan postCount 0.

End Smoke.

(* ===================================================================== *)
(** ** accessibilityHelpers.ts *)
(* ===================================================================== *)

Module AccessibilityHelpers.

Inductive Severity : Type := critical | serious | moderate | minor.

Definition Severity_eqb (a b : Severity) : bool :=
  match a, b with
  | critical, critical | serious, serious | moderate, moderate | minor, minor => true
  | _, _ => false
  end.

Record A11yViolation : Type := {
  element : jsstring;
  issue : jsstring;
  severity : Severity
}.

Definition images : locator := Css (lit "img").

(** [`img[src="${src}"]`] *)
Definition imgElement (src : option jsstring) : jsstring :=
  lit "img[src=" ++ dquote ++ interpolate src ++ dquote ++ lit "]".

Definition checkImagesHaveAlt : prog pageE (list A11yViolation) :=
  count <- await (Count images) ;;
  for_range count 0
    (fun i violations =>
       let img := Nth images i in
       alt <- await (GetAttribute img "alt") ;;
       src <- await (GetAttribute img "src") ;;
       Ret (match alt with
            | None =>
                violations ++ [{| element := imgElement src;
                                  issue := lit "Image missing alt attribute";
                                  severity := critical |}]
            | Some a =>
                if JsString.eqb (trim a) []
                then violations ++ [{| element := imgElement src;
                                       issue := lit "Image has empty alt (verify if decorative)";
                                       severity := minor |}]
                else violations
            end))
    [].

Definition anchors : locator := Css (lit "a").

(** [`a[href="${href}"]`] *)
Definition linkElement (href : option jsstring) : jsstring :=
  lit "a[href=" ++ dquote ++ interpolate href ++ dquote ++ lit "]".

Definition falsy (v : option jsstring) : bool :=
  match v with Some s => negb (truthy s) | None => true end.

Definition checkLinksAccessible : prog pageE (list A11yViolation) :=
  count <- await (Count anchors) ;;
  for_range count 0
    (fun i violations =>
       let link := Nth anchors i in
       text <- await (TextContent link) ;;
       ariaLabel <- await (GetAttribute link "aria-label") ;;
       href <- await (GetAttribute link "href") ;;
       Ret (if falsy (option_map trim text) && falsy ariaLabel
            then violations ++ [{| element := linkElement href;
                                   issue := lit "Link has no accessible name";
                                   severity := critical |}]
            else violations))
    [].

(** The [for (const heading of headings)] loop, threading [lastLevel]. *)
Fixpoint skippedLevels (hs : list Heading) (lastLevel : nat)
  (violations : list A11yViolation) : list A11yViolation :=
  match hs with
  | [] => violations
  | heading :: hs' =>
      let violations' :=
        if (lastLevel + 1 <? level heading)%nat && negb (lastLevel =? 0)%nat
        then violations ++
             [{| element := lit "h" ++ ofNat (level heading);
                 issue := lit "Heading level skipped from h" ++ ofNat lastLevel
                          ++ lit " to h" ++ ofNat (level heading);
                 severity := moderate |}]
        else violations in
      skippedLevels hs' (level heading) violations'
  end.

Definition checkHeadingHierarchy : prog pageE (list A11yViolation) :=
  headings <- await EvaluateHeadings ;;
  let violations := skippedLevels headings 0 [] in
  let h1Count := length (filter (fun h => (level h =? 1)%nat) headings) in
  let violations :=
    if (1 <? h1Count)%nat
    then violations ++ [{| element := lit "h1";
                           issue := lit "Multiple h1 elements found (" ++ ofNat h1Count
                                    ++ lit ")";
                           severity := moderate |}]
    else violations in
  let violations :=
    if (h1Count =? 0)%nat
    then violations ++ [{| element := lit "h1";
                           issue := lit "No h1 element found on page";
                           severity := serious |}]
    else violations in
  Ret violations.

Definition checkPageLanguage : prog pageE (list A11yViolation) :=
  lang <- await EvaluateLang ;;
  Ret (if negb (truthy lang)
       then [{| element := lit "html";
                issue := lit "Page language not specified";
                severity := serious |}]
       else []).

Definition runAccessibilityChecks : prog pageE (list A11yViolation) :=
  imgs <- checkImagesHaveAlt ;;
  links <- checkLinksAccessible ;;
  hs <- checkHeadingHierarchy ;;
  langs <- checkPageLanguage ;;
  Ret ((((([] ++ imgs) ++ links) ++ hs) ++ langs)).

(** [array.join(sep)] *)
Definition join (sep : jsstring) (parts : list jsstring) : jsstring :=
  concat (intersperse sep parts).

Definition newline : jsstring := [10%N].

Definition criticalMessage (criticalViolations : list A11yViolation) : jsstring :=
  lit "Critical accessibility violations found:" ++ newline ++
  join newline (map (fun v => element v ++ lit ": " ++ issue v) criticalViolations).

Definition assertNoCriticalViolations : prog pageE unit :=
  violations <- runAccessibilityChecks ;;
  let criticalViolations :=
    filter (fun v => Severity_eqb (severity v) critical) violations in
  if (0 <? length criticalViolations)%nat
  then Throw (ErrorObject "Error" (criticalMessage criticalViolations))
  else Ret tt.

(** [checkImagesHaveAlt] as specified, image by image: what an [img]
    with the given [alt] and [src] attributes contributes. *)
Definition altViolations (alt src : option jsstring) : list A11yViolation :=
  match alt with
  | None => [{| element := imgElement src;
                issue := lit "Image missing alt attribute";
                severity := critical |}]
  | Some a =>
      if whitespaceOnly a
      then [{| element := imgElement src;
               issue := lit "Image has empty alt (verify if decorative)";
               severity := minor |}]
      else []
  end.


Definition interactiveElements : locator :=
  Css (lit "a, button, input, select, textarea, [tabindex]").

Definition checkFocusVisible : prog pageE (list A11yViolation) :=
  count <- await (Count interactiveElements) ;;
  for_range (Nat.min count 10) 0
    (fun i violations =>
       let element := Nth interactiveElements i in
       await (Focus element) ;;;
       hasVisibleFocus <- await (EvaluateFocusVisible element) ;;
       if hasVisibleFocus : bool
       then Ret violations
       else
         tagName <- await (EvaluateTagName element) ;;
         Ret (violations ++ [{| element := tagName;
                                issue := lit "Element may not have visible focus indicator";
                                severity := serious |}]))
    [].

End AccessibilityHelpers.

(* ===================================================================== *)
(** ** playwright.config.ts *)
(* ===================================================================== *)

Module Config.

Local Open Scope string_scope.

Record Reporter : Type := {
  reporterName : string;
  reporterOptions : list (string * string)
}.

Record Viewport : Type := { width : Z; height : Z }.

Record UseOptions : Type := {
  baseURL : string;
  traceMode : string;
  screenshot : string;
  video : string;
  viewport : Viewport;
  actionTimeout : Z;
  navigationTimeout : Z
}.

Record Project : Type := {
  projectName : string;
  device : string;
  launchArgs : list string
}.

Record PlaywrightConfig : Type := {
  testDir : string;
  fullyParallel : bool;
  forbidOnly : bool;
  retries : Z;
  workers : option Z;
  reporter : list Reporter;
  timeout : Z;
  expectTimeout : Z;
  maxDiffPixels : Z;
  use : UseOptions;
  projects : list Project;
  outputDir : string
}.

(** Truthiness of [process.env.CI]: [undefined] when the variable is not
    set, a string otherwise. *)
Definition envTruthy (v : option jsstring) : bool :=
  match v with Some s => truthy s | None => false end.

(** The default export, as a function of [process.env.CI]. *)
Definition config (CI : option jsstring) : PlaywrightConfig :=
  {| testDir := "./src/tests";
     fullyParallel := true;
     forbidOnly := negb (negb (envTruthy CI));
     retries := if envTruthy CI then 2 else 0;
     workers := if envTruthy CI then Some 1%Z else None;
     reporter :=
       [ {| reporterName := "html"; reporterOptions := [("open", "never")] |};
         {| reporterName := "list"; reporterOptions := [] |};
         {| reporterName := "allure-playwright"; reporterOptions := [] |};
         {| reporterName := "json";
            reporterOptions := [("outputFile", "test-results/results.json")] |} ];
     timeout := 30000;
     expectTimeout := 10000;
     maxDiffPixels := 100;
     use :=
       {| baseURL := "https://othrondir.github.io/QAbbalah/";
          traceMode := "on-first-retry";
          screenshot := "only-on-failure";
          video := "on-first-retry";
          viewport := {| width := 1280; height := 720 |};
          actionTimeout := 15000;
          navigationTimeout := 30000 |};
     projects :=
       [ {| projectName := "chromium"; device := "Desktop Chrome";
            launchArgs := ["--disable-web-security"] |};
         {| projectName := "firefox"; device := "Desktop Firefox"; launchArgs := [] |};
         {| projectName := "webkit"; device := "Desktop Safari"; launchArgs := [] |};
         {| projectName := "Mobile Chrome"; device := "Pixel 5"; launchArgs := [] |};
         {| projectName := "Mobile Safari"; device := "iPhone 12"; launchArgs := [] |};
         {| projectName := "Tablet"; device := "iPad (gen 7)"; launchArgs := [] |} ];
     outputDir := "test-results/" |}.

End Config.

(* ===================================================================== *)
(** ** testHelpers.ts: [wait] and [retry] *)
(* ===================================================================== *)

Module TestHelpers.

(** A JavaScript number that is finite, as a rational: every finite
    double is one.  [NaN] and the infinities are not represented; with
    [maxAttempts = Infinity] the loop of [retry] has no bound. *)
Definition number : Type := Q.

(** An integer as a number. *)
Definition int (n : Z) : number := inject_Z n.

(** [a <= b] and [a < b] on numbers. *)
Definition leb (a b : number) : bool := Qle_bool a b.
Definition ltb (a b : number) : bool := negb (Qle_bool b a).

(** What [retry] awaits: the caller's function [fn] and a timer. *)
Inductive retryE (T : Type) : Type -> Type :=
| Invoke : retryE T T
| SetTimeout (ms : number) : retryE T unit.
Arguments Invoke {T}.
Arguments SetTimeout {T} ms.

(** [options: { maxAttempts?: number; delay?: number }] *)
Record RetryOptions : Type := {
  maxAttempts : option number;
  delay : option number
}.

(** [wait(ms)]: a promise resolved by a timer. *)
Definition wait {T} (ms : number) : prog (retryE T) unit := await (SetTimeout ms).

(** The body of the attempt loop: [inl v] for [return v], [inr e] for
    the value left in [lastError].  The counter [attempt] starts at 1 and
    is incremented, so it is an integer; [maxAttempts] need not be. *)
Definition attempt_body {T} (maxAttempts delay : number) (attempt : Z)
  : prog (retryE T) (T + thrown) :=
  try_catch
    (v <- await Invoke ;; Ret (inl v))
    (fun error =>
       (if ltb (int attempt) maxAttempts then wait delay else Ret tt) ;;;
       Ret (inr error)).

Equations? retry_loop {T} (maxAttempts delay : number) (attempt : Z) (lastError : thrown)
  : prog (retryE T) T by wf (Z.to_nat (Qfloor maxAttempts + 1 - attempt)) lt :=
  retry_loop maxAttempts delay attempt lastError
    with Qlt_le_dec maxAttempts (int attempt) := {
    | right _ =>
        r <- attempt_body maxAttempts delay attempt ;;
        match r with
        | inl v => Ret v
        | inr error => retry_loop maxAttempts delay (attempt + 1) error
        end
    | left _ => Throw lastError }.
Proof.
  match goal with
  | H : (int ?a <= ?m)%Q |- _ =>
      assert (a <= Qfloor m)%Z
        by (rewrite <- (Qfloor_Z a); apply Qfloor_resp_le; exact H)
  end.
  lia.
Qed.

(** [const { maxAttempts = 3, delay = 1000 } = options] *)
Definition maxAttemptsOf (options : RetryOptions) : number :=
  match maxAttempts options with Some n => n | None => int 3 end.
Definition delayOf (options : RetryOptions) : number :=
  match delay options with Some n => n | None => int 1000 end.

Definition retry {T} (options : RetryOptions) : prog (retryE T) T :=
  retry_loop (maxAttemptsOf options) (delayOf options) 1 Undefined.

(** Reading a trace of [retry]. *)
Definition invocation {T} (r : outcome T) : event (retryE T) := Event Invoke r.
Definition sleep {T} (ms : number) : event (retryE T) := Event (SetTimeout ms) (Resolved tt).

Definition isInvocation {T} (ev : event (retryE T)) : bool :=
  match ev with
  | Event c _ => match c with Invoke => true | SetTimeout _ => false end
  end.
Definition invocationCount {T} (tr : list (event (retryE T))) : nat :=
  length (filter isInvocation tr).

(** Timers always fire: [setTimeout] calls back, so [wait] resolves. *)
Definition timers_fire {T W} (h : handler (retryE T) W) : Prop :=
  forall ms w, fst (h unit (SetTimeout ms) w) = Resolved tt.

(** An environment for examples: [fn] fails with [flakyError] on its
    first [w] calls counted by the world, then resolves with 7. *)
Definition flakyError : thrown := ErrorObject "Error" (lit "not ready").
Definition flaky (failing : nat) : handler (retryE nat) nat :=
  fun X c =>
    match c in retryE _ X return nat -> outcome X * nat with
    | Invoke => fun w =>
        if (w <? failing)%nat then (Rejected flakyError, S w) else (Resolved 7%nat, S w)
    | SetTimeout _ => fun w => (Resolved tt, w)
    end.


Definition links : locator := Css (lit "a[href]").

(** [`${href} (${response.status()})`] *)
Definition brokenEntry (href : jsstring) (status : Z) : jsstring :=
  href ++ lit " (" ++ ofZ status ++ lit ")".

Definition verifyLinksNotBroken : prog pageE (list jsstring) :=
  count <- await (Count links) ;;
  for_range count 0
    (fun i brokenLinks =>
       href <- await (GetAttribute (Nth links i) "href") ;;
       match href with
       | Some href =>
           if truthy href && negb (startsWith href (lit "#"))
              && negb (startsWith href (lit "javascript:"))
           then
             try_catch
               (base <- await PageUrl ;;
                absoluteUrl <- await (NewURL href base) ;;
                status <- await (RequestHead absoluteUrl) ;;
                if (400 <=? status)%Z
                then Ret (brokenLinks ++ [brokenEntry href status])
                else Ret brokenLinks)
               (fun _ => Ret brokenLinks)
           else Ret brokenLinks
       | None => Ret brokenLinks
       end)
    [].


(** [urlMatches(url, pattern)] *)
Definition urlMatches (url : jsstring) (pattern : expected) : bool :=
  match pattern with
  | inl text => includes url text
  | inr re => regexpTest re url
  end.

Definition scrollFullPage : prog pageE unit := await EvaluateScrollFullPage.
Definition getAllPageText : prog pageE jsstring := await EvaluateInnerText.
Definition isElementInViewport (l : locator) : prog pageE bool :=
  await (EvaluateInViewport l).

Definition takeTimestampedScreenshot (name : jsstring) : prog pageE jsstring :=
  timestamp <- await DateNow ;;
  let filename := name ++ lit "-" ++ ofZ timestamp ++ lit ".png" in
  await (Screenshot (lit "test-results/screenshots/" ++ filename) true) ;;;
  Ret filename.

End TestHelpers.

(* ===================================================================== *)
(** ** Example environments *)
(* ===================================================================== *)

Module Fixtures.
Import StaticPage.

Definition node (id : nat) (attrs : list (string * jsstring)) (content : option jsstring)
  : Element :=
  {| nodeId := id; attributes := attrs; text := content; shown := true |}.

(** A query answered from a table of selectors. *)
Fixpoint select (table : list (jsstring * list Element)) (selector : jsstring)
  : list Element :=
  match table with
  | [] => []
  | (s, els) :: table' => if JsString.eqb s selector then els else select table' selector
  end.

Definition siteUrl : jsstring := lit "https://othrondir.github.io/QAbbalah/".

(** A page with the given top-level matches and nothing else; relative
    references resolve by appending to the base, and every HEAD request
    answers 200. *)
Definition pageOf (table : list (jsstring * list Element)) : Page :=
  {| url := siteUrl;
     query := select table;
     scoped := fun _ _ => [];
     headings := [ {| level := 1; headingText := lit "QAbbalah" |} ];
     lang := lit "en";
     resolveUrl := fun href base => Some (base ++ href);
     headStatus := fun _ => Resolved 200%Z;
     otherwise := notModelled |}.

(** Three images: no [alt], a blank [alt], a described one. *)
Definition gallery : Page :=
  pageOf [ (lit "img",
            [ node 1 [("src"%string, lit "/a.png")] None;
              node 2 [("src"%string, lit "/b.png"); ("alt"%string, lit "  ")] None;
              node 3 [("src"%string, lit "/c.png"); ("alt"%string, lit "Logo")] None ]) ].

End Fixtures.

(* ===================================================================== *)
(** ** The text-reading operations of the page objects *)
(* ===================================================================== *)

Module Readers.

(** Each operation with the locator whose text it reads. *)
Definition textReaders : list (locator * prog pageE jsstring) :=
  [ (ProfileComponent.authorName, ProfileComponent.getAuthorName);
    (ProfileComponent.tagline, ProfileComponent.getTagline);
    (PostPage.postTitle, PostPage.getPostTitle);
    (AboutPage.aboutHeading, AboutPage.getHeadingText);
    (AboutPage.bioText, AboutPage.getBioText);
    (First (Css (lit "h1, .site-title")), HomePage.getMainHeading);
    (PostPage.postDate, PostPage.getPostDate);
    (PostPage.postBody, PostPage.getPostBody);
    (FooterComponent.copyrightText, FooterComponent.getCopyrightText) ].

(** [text ?? ''] *)
Definition textOrEmpty (text : option jsstring) : jsstring :=
  match text with
  | Some t => t
  | None => []
  end.

(** A page whose author name is padded with white space and whose
    tagline has no text at all. *)
Definition profilePage : StaticPage.Page :=
  Fixtures.pageOf
    [ (lit ".author__name, h3.author__name",
       [ Fixtures.node 1 [] (Some ([32; 10]%N ++ lit "Alejandro" ++ [9; 160]%N)) ]);
      (lit ".author__bio, p[itemprop=" ++ dquote ++ lit "description" ++ dquote ++ lit "]",
       [ Fixtures.node 2 [] None ]) ].

End Readers.

(* ===================================================================== *)
(** ** An example blog page *)
(* ===================================================================== *)

Module Blog.
Import StaticPage.

(** [toLowerCase] on the ASCII letters, enough for the examples. *)
Definition asciiLower (s : jsstring) : jsstring :=
  map (fun c => if ((65 <=? c) && (c <=? 90))%N then (c + 32)%N else c) s.

Definition cardSelector : jsstring := lit "article.archive__item, .archive__item".
Definition titlesSelector : jsstring :=
  lit ".archive__item-title a, .archive__item h2 a, article.archive__item a[rel="
  ++ dquote ++ lit "permalink" ++ dquote ++ lit "]".

(** Two post cards.  The title link of the first holds only a teaser
    image, so its text is blank; the second is titled 'Hello World'.
<<
    <div class="archive" hidden></div>
    <div id="main">
      <article class="archive__item">
        <h2 class="archive__item-title"><a rel="permalink" href="/one/"> <img src="t.png"> </a></h2>
        <time>2024-01-01</time> <p class="archive__item-excerpt">First</p>
      </article>
      <article class="archive__item">
        <h2 class="archive__item-title"><a rel="permalink" href="/two/">Hello World</a></h2>
        <time>2024-02-02</time> <p class="archive__item-excerpt">Second</p>
      </article>
    </div>
>> *)
Definition hiddenArchive : Element :=
  {| nodeId := 1; attributes := []; text := Some []; shown := false |}.
Definition main : Element := Fixtures.node 2 [("id"%string, lit "main")] None.
Definition card1 : Element := Fixtures.node 10 [] None.
Definition link1 : Element :=
  Fixtures.node 11 [("rel"%string, lit "permalink"); ("href"%string, lit "/one/")]
    (Some (lit "  ")).
Definition time1 : Element := Fixtures.node 12 [] (Some (lit "2024-01-01")).
Definition excerpt1 : Element := Fixtures.node 13 [] (Some (lit "First")).
Definition card2 : Element := Fixtures.node 20 [] None.
Definition link2 : Element :=
  Fixtures.node 21 [("rel"%string, lit "permalink"); ("href"%string, lit "/two/")]
    (Some (lit "Hello World")).
Definition time2 : Element := Fixtures.node 22 [] (Some (lit "2024-02-02")).
Definition excerpt2 : Element := Fixtures.node 23 [] (Some (lit "Second")).

Definition inside (card : Element) (selector : jsstring) : list Element :=
  if (nodeId card =? 10)%nat
  then Fixtures.select [ (BlogPostComponent.titleSelector, [link1]);
                         (BlogPostComponent.dateSelector, [time1]);
                         (BlogPostComponent.descSelector, [excerpt1]) ] selector
  else if (nodeId card =? 20)%nat
  then Fixtures.select [ (BlogPostComponent.titleSelector, [link2]);
                         (BlogPostComponent.dateSelector, [time2]);
                         (BlogPostComponent.descSelector, [excerpt2]) ] selector
  else [].

Definition teaserPage : Page :=
  {| url := Fixtures.siteUrl;
     query := Fixtures.select
                [ (lit "#main", [main]);
                  (lit "#main, .entries-list, .archive", [hiddenArchive; main]);
                  (cardSelector, [card1; card2]);
                  (titlesSelector, [link1; link2]) ];
     scoped := inside;
     headings := [ {| level := 1; headingText := lit "QAbbalah" |} ];
     lang := lit "en";
     resolveUrl := fun href base => Some (base ++ href);
     headStatus := fun _ => Resolved 200%Z;
     otherwise := notModelled |}.

End Blog.

(* ===================================================================== *)
(** ** Link health on a snapshot *)
(* ===================================================================== *)

Module LinkHealth.
Import StaticPage.

(** What the HEAD request for [href] reports on page [p]: the entry for a
    status of 400 or more, nothing for a lower status, for a reference
    that does not parse or for a request that fails. *)
Definition headEntry (p : Page) (href : jsstring) : list jsstring :=
  match resolveUrl p href (url p) with
  | Some absoluteUrl =>
      match headStatus p absoluteUrl with
      | Resolved status =>
          if (400 <=? status)%Z then [TestHelpers.brokenEntry href status] else []
      | Rejected _ => []
      end
  | None => []
  end.

(** The entry of one anchor as the code computes it: the reference must
    be a non-empty string. *)
Definition brokenLink (p : Page) (a : Element) : list jsstring :=
  match getAttribute (attributes a) "href" with
  | Some href =>
      if truthy href && negb (startsWith href (lit "#"))
         && negb (startsWith href (lit "javascript:"))
      then headEntry p href
      else []
  | None => []
  end.

(** The entry of one anchor as the specification words it: every reference that
    starts neither with '#' nor with 'javascript:'. *)
Definition claimedBrokenLink (p : Page) (a : Element) : list jsstring :=
  match getAttribute (attributes a) "href" with
  | Some href =>
      if negb (startsWith href (lit "#")) && negb (startsWith href (lit "javascript:"))
      then headEntry p href
      else []
  | None => []
  end.

(** A 'not found' page that links to itself with an empty reference:
    [<a href="">reload</a>]; the server answers 404 for its URL. *)
Definition notFoundPage : Page :=
  {| url := lit "https://othrondir.github.io/QAbbalah/missing";
     query := Fixtures.select
                [ (lit "a[href]",
                   [ Fixtures.node 1 [("href"%string, [])] (Some (lit "reload")) ]) ];
     scoped := fun _ _ => [];
     headings := [];
     lang := lit "en";
     resolveUrl := fun href base => match href with [] => Some base | _ => Some href end;
     headStatus := fun _ => Resolved 404%Z;
     otherwise := notModelled |}.

(** A page with a fragment link, a script link, a dead link, a live
    link, a reference that does not parse and one whose request fails. *)
Definition linksPage : Page :=
  {| url := Fixtures.siteUrl;
     query := Fixtures.select
                [ (lit "a[href]",
                   [ Fixtures.node 1 [("href"%string, lit "#top")] None;
                     Fixtures.node 2 [("href"%string, lit "javascript:void(0)")] None;
                     Fixtures.node 3 [("href"%string, lit "/gone")] None;
                     Fixtures.node 4 [("href"%string, lit "/about/")] None;
                     Fixtures.node 5 [("href"%string, lit "http://[")] None;
                     Fixtures.node 6 [("href"%string, lit "/slow")] None ]) ];
     scoped := fun _ _ => [];
     headings := [];
     lang := lit "en";
     resolveUrl := fun href base =>
                     if JsString.eqb href (lit "http://[") then None else Some href;
     headStatus := fun u =>
                     if JsString.eqb u (lit "/gone") then Resolved 410%Z
                     else if JsString.eqb u (lit "/slow")
                          then Rejected (ErrorObject "Error" (lit "socket hang up"))
                          else Resolved 200%Z;
     otherwise := notModelled |}.

End LinkHealth.

(* ===================================================================== *)
(** ** A site that can be navigated *)
(* ===================================================================== *)

Module Browser.

(** A site serves a page at every URL and says where a click leads. *)
Record Site : Type := {
  pageAt : jsstring -> StaticPage.Page;
  gotoTarget : jsstring -> jsstring;              (* page.goto(url), against baseURL *)
  clickTarget : jsstring -> locator -> option jsstring
}.

(** The browser on a site; its world is the current URL. *)
Definition browse (site : Site) : handler pageE jsstring :=
  fun X c current =>
    match c in pageE X return outcome X * jsstring with
    | Goto target => (Resolved tt, gotoTarget site target)
    | Click l =>
        match StaticPage.answer (pageAt site current) unit (Click l) with
        | Resolved _ =>
            (Resolved tt,
             match clickTarget site current l with
             | Some target => target
             | None => current
             end)
        | Rejected e => (Rejected e, current)
        end
    | PageUrl => (Resolved current, current)
    | ExpectToHaveURL re =>
        (if regexpTest re current then Resolved tt else Rejected assertionError, current)
    | c' => (StaticPage.answer (pageAt site current) _ c', current)
    end.

(** The environment reports the URL [urlOf w] of its world [w] to
    [expect(page).toHaveURL]. *)
Definition reportsUrl {W} (h : handler pageE W) (urlOf : W -> jsstring) : Prop :=
  forall re w,
    fst (h unit (ExpectToHaveURL re) w) = Resolved tt <-> regexpTest re (urlOf w) = true.

(** A site whose menu item 'About' points to [info/]: the link matches
    the second alternative of the About selector, by its text.
<<
    <li class="masthead__menu-item"><a href="/QAbbalah/info/">About</a></li>
>> *)
Definition infoUrl : jsstring := lit "https://othrondir.github.io/QAbbalah/info/".

Definition menuPage : StaticPage.Page :=
  {| StaticPage.url := Fixtures.siteUrl;
     StaticPage.query :=
       Fixtures.select
         [ (lit "#main", [Fixtures.node 1 [] None]);
           (lit ".visible-links a[href*=" ++ dquote ++ lit "about" ++ dquote
            ++ lit "], .masthead__menu-item a:has-text(" ++ dquote ++ lit "About"
            ++ dquote ++ lit ")",
            [Fixtures.node 2 [("href"%string, lit "/QAbbalah/info/")]
               (Some (lit "About"))]) ];
     StaticPage.scoped := fun _ _ => [];
     StaticPage.headings := [];
     StaticPage.lang := lit "en";
     StaticPage.resolveUrl := fun href base => Some href;
     StaticPage.headStatus := fun _ => Resolved 200%Z;
     StaticPage.otherwise := StaticPage.notModelled |}.

Definition infoSite : Site :=
  {| pageAt := fun _ => menuPage;
     gotoTarget := fun target => Fixtures.siteUrl ++ target;
     clickTarget := fun current l =>
       match l with
       | First (Css _) => Some infoUrl
       | _ => None
       end |}.

(** The same site with the menu item pointing to [about/]. *)
Definition aboutUrl : jsstring := lit "https://othrondir.github.io/QAbbalah/about/".

Definition aboutSite : Site :=
  {| pageAt := fun _ => menuPage;
     gotoTarget := fun target => Fixtures.siteUrl ++ target;
     clickTarget := fun current l =>
       match l with
       | First (Css _) => Some aboutUrl
       | _ => None
       end |}.

(** The calls of [goToAbout] when the menu toggle is visible, and when
    it is not. *)
Definition aboutCallsWithMenu : list (event pageE) :=
  [ Event (IsVisible NavigationComponent.mobileMenuToggle) (Resolved true);
    Event (Click NavigationComponent.mobileMenuToggle) (Resolved tt);
    Event (WaitForTimeout 300) (Resolved tt);
    Event (Click NavigationComponent.aboutLink) (Resolved tt);
    Event (WaitForLoadState NetworkIdle) (Resolved tt) ].

Definition aboutCallsWithoutMenu : list (event pageE) :=
  [ Event (IsVisible NavigationComponent.mobileMenuToggle) (Resolved false);
    Event (Click NavigationComponent.aboutLink) (Resolved tt);
    Event (WaitForLoadState NetworkIdle) (Resolved tt) ].

End Browser.

(* ===================================================================== *)
(** ** The operations of the page objects, as a family *)
(* ===================================================================== *)

Module Repo.

(** The asynchronous operations of the page objects and components,
    other than [getPostCount] (and [getRecentPostsCount], which calls it). *)
Inductive pageObjectOperation : forall A : Type, prog pageE A -> Prop :=
(* BasePage *)
| op_navigate (pageUrl : jsstring) : pageObjectOperation unit (BasePage.navigate pageUrl)
| op_waitForPageLoad : pageObjectOperation unit BasePage.waitForPageLoad
| op_getCurrentUrl : pageObjectOperation jsstring BasePage.getCurrentUrl
| op_getPageTitle : pageObjectOperation jsstring BasePage.getPageTitle
| op_verifyPageTitle (pageTitle : expected) :
    pageObjectOperation unit (BasePage.verifyPageTitle pageTitle)
| op_waitForElement (l : locator) (timeout : option Z) :
    pageObjectOperation unit (BasePage.waitForElement l timeout)
| op_isElementVisible (l : locator) : pageObjectOperation bool (BasePage.isElementVisible l)
| op_getElementText (l : locator) : pageObjectOperation jsstring (BasePage.getElementText l)
| op_clickElement (l : locator) : pageObjectOperation unit (BasePage.clickElement l)
| op_scrollToElement (l : locator) : pageObjectOperation unit (BasePage.scrollToElement l)
| op_takeScreenshot (name : jsstring) :
    pageObjectOperation (list N) (BasePage.takeScreenshot name)
| op_getAttribute (l : locator) (attribute : string) :
    pageObjectOperation (option jsstring) (BasePage.getAttribute l attribute)
| op_verifyElementText (l : locator) (expectedText : expected) :
    pageObjectOperation unit (BasePage.verifyElementText l expectedText)
| op_verifyElementVisible (l : locator) :
    pageObjectOperation unit (BasePage.verifyElementVisible l)
| op_verifyElementAttribute (l : locator) (attribute : string) (value : expected) :
    pageObjectOperation unit (BasePage.verifyElementAttribute l attribute value)
| op_getElementCount (l : locator) : pageObjectOperation nat (BasePage.getElementCount l)
| op_hoverElement (l : locator) : pageObjectOperation unit (BasePage.hoverElement l)
| op_pressKey (key : jsstring) : pageObjectOperation unit (BasePage.pressKey key)
| op_waitForNavigation : pageObjectOperation unit BasePage.waitForNavigation
(* HomePage *)
| op_home_navigate : pageObjectOperation unit HomePage.navigate
| op_waitForHomePageContent : pageObjectOperation unit HomePage.waitForHomePageContent
| op_verifyAllSectionsVisible : pageObjectOperation unit HomePage.verifyAllSectionsVisible
| op_getMainHeading : pageObjectOperation jsstring HomePage.getMainHeading
| op_hasRecentPostsSection : pageObjectOperation bool HomePage.hasRecentPostsSection
| op_home_verifyPageLoaded : pageObjectOperation unit HomePage.verifyPageLoaded
| op_home_navigateToPost (postTitle : jsstring) :
    pageObjectOperation unit (HomePage.navigateToPost postTitle)
| op_getVisibleSections : pageObjectOperation (list jsstring) HomePage.getVisibleSections
(* AboutPage *)
| op_about_navigate : pageObjectOperation unit AboutPage.navigate
| op_waitForAboutContent : pageObjectOperation unit AboutPage.waitForAboutContent
| op_getHeadingText : pageObjectOperation jsstring AboutPage.getHeadingText
| op_getBioText : pageObjectOperation jsstring AboutPage.getBioText
| op_isContentVisible : pageObjectOperation bool AboutPage.isContentVisible
| op_about_verifyPageLoaded : pageObjectOperation unit AboutPage.verifyPageLoaded
(* PostPage *)
| op_post_navigateToPost (slug : jsstring) :
    pageObjectOperation unit (PostPage.navigateToPost slug)
| op_waitForPostContent : pageObjectOperation unit PostPage.waitForPostContent
| op_getPostTitle : pageObjectOperation jsstring PostPage.getPostTitle
| op_getPostDate : pageObjectOperation jsstring PostPage.getPostDate
| op_getPostBody : pageObjectOperation jsstring PostPage.getPostBody
| op_getPostTags : pageObjectOperation (list jsstring) PostPage.getPostTags
| op_hasTag (toLowerCase : jsstring -> jsstring) (tagName : jsstring) :
    pageObjectOperation bool (PostPage.hasTag toLowerCase tagName)
| op_clickTag (tagName : jsstring) : pageObjectOperation unit (PostPage.clickTag tagName)
| op_post_verifyPageLoaded : pageObjectOperation unit PostPage.verifyPageLoaded
| op_getWordCount : pageObjectOperation nat PostPage.getWordCount
| op_contentContains (toLowerCase : jsstring -> jsstring) (text : jsstring) :
    pageObjectOperation bool (PostPage.contentContains toLowerCase text)
(* NavigationComponent *)
| op_nav_isVisible : pageObjectOperation bool NavigationComponent.isVisible
| op_goToHome : pageObjectOperation unit NavigationComponent.goToHome
| op_goToPosts : pageObjectOperation unit NavigationComponent.goToPosts
| op_goToCategories : pageObjectOperation unit NavigationComponent.goToCategories
| op_goToTags : pageObjectOperation unit NavigationComponent.goToTags
| op_goToAbout : pageObjectOperation unit NavigationComponent.goToAbout
| op_getNavLinkTexts : pageObjectOperation (list jsstring) NavigationComponent.getNavLinkTexts
| op_toggleMobileMenu : pageObjectOperation unit NavigationComponent.toggleMobileMenu
| op_isMobileMenuExpanded : pageObjectOperation bool NavigationComponent.isMobileMenuExpanded
(* ProfileComponent *)
| op_profile_isVisible : pageObjectOperation bool ProfileComponent.isVisible
| op_getAuthorName : pageObjectOperation jsstring ProfileComponent.getAuthorName
| op_getTagline : pageObjectOperation jsstring ProfileComponent.getTagline
| op_isAvatarDisplayed : pageObjectOperation bool ProfileComponent.isAvatarDisplayed
| op_getAvatarSrc : pageObjectOperation (option jsstring) ProfileComponent.getAvatarSrc
| op_clickAuthorName : pageObjectOperation unit ProfileComponent.clickAuthorName
| op_clickGithubLink : pageObjectOperation (option jsstring) ProfileComponent.clickGithubLink
| op_clickLinkedinLink :
    pageObjectOperation (option jsstring) ProfileComponent.clickLinkedinLink
| op_getGithubUrl : pageObjectOperation (option jsstring) ProfileComponent.getGithubUrl
| op_getLinkedinUrl : pageObjectOperation (option jsstring) ProfileComponent.getLinkedinUrl
| op_getAllSocialUrls : pageObjectOperation (list jsstring) ProfileComponent.getAllSocialUrls
(* BlogPostComponent *)
| op_getAllPostTitles :
    pageObjectOperation (list jsstring) BlogPostComponent.getAllPostTitles
| op_getPostByIndex (index : nat) :
    pageObjectOperation BlogPostComponent.BlogPostData
      (BlogPostComponent.getPostByIndex index)
| op_clickPostByTitle (title : jsstring) :
    pageObjectOperation unit (BlogPostComponent.clickPostByTitle title)
| op_clickPostByIndex (index : nat) :
    pageObjectOperation unit (BlogPostComponent.clickPostByIndex index)
| op_blog_isVisible : pageObjectOperation bool BlogPostComponent.isVisible
| op_findPostContaining (toLowerCase : jsstring -> jsstring) (searchText : jsstring) :
    pageObjectOperation (option BlogPostComponent.BlogPostData)
      (BlogPostComponent.findPostContaining toLowerCase searchText)
(* FooterComponent *)
| op_footer_isVisible : pageObjectOperation bool FooterComponent.isVisible
| op_getCopyrightText : pageObjectOperation jsstring FooterComponent.getCopyrightText
| op_containsYear (year : jsstring) :
    pageObjectOperation bool (FooterComponent.containsYear year)
| op_hasRssLink : pageObjectOperation bool FooterComponent.hasRssLink
| op_getRssFeedUrl : pageObjectOperation (option jsstring) FooterComponent.getRssFeedUrl
| op_clickRssLink : pageObjectOperation unit FooterComponent.clickRssLink
| op_getAllFooterLinks : pageObjectOperation (list jsstring) FooterComponent.getAllFooterLinks
| op_scrollIntoView : pageObjectOperation unit FooterComponent.scrollIntoView
(* testHelpers.ts, the helpers that drive the page *)
| op_scrollFullPage : pageObjectOperation unit TestHelpers.scrollFullPage
| op_getAllPageText : pageObjectOperation jsstring TestHelpers.getAllPageText
| op_isElementInViewport (l : locator) :
    pageObjectOperation bool (TestHelpers.isElementInViewport l)
| op_takeTimestampedScreenshot (name : jsstring) :
    pageObjectOperation jsstring (TestHelpers.takeTimestampedScreenshot name).

(** The checks of accessibilityHelpers.ts that report violations. *)
Inductive accessibilityCheck : prog pageE (list AccessibilityHelpers.A11yViolation) -> Prop :=
| check_images : accessibilityCheck AccessibilityHelpers.checkImagesHaveAlt
| check_links : accessibilityCheck AccessibilityHelpers.checkLinksAccessible
| check_headings : accessibilityCheck AccessibilityHelpers.checkHeadingHierarchy
| check_language : accessibilityCheck AccessibilityHelpers.checkPageLanguage
| check_focus : accessibilityCheck AccessibilityHelpers.checkFocusVisible
| check_all : accessibilityCheck AccessibilityHelpers.runAccessibilityChecks.

(** Every function other than [retry] and [verifyLinksNotBroken]. *)
Inductive otherOperation : forall A : Type, prog pageE A -> Prop :=
| other_pageObject A (op : prog pageE A) :
    pageObjectOperation A op -> otherOperation A op
| other_check (op : prog pageE (list AccessibilityHelpers.A11yViolation)) :
    accessibilityCheck op -> otherOperation _ op
| other_assert : otherOperation unit AccessibilityHelpers.assertNoCriticalViolations
| other_getPostCount : otherOperation nat BlogPostComponent.getPostCount.

(** The statement that none of them makes up an error or swallows one. *)
Definition onlyHelpersHandleErrors : Prop :=
  forall (A : Type) (op : prog pageE A), otherOperation A op -> transparent op.

Definition hasCritical (violations : list AccessibilityHelpers.A11yViolation) : bool :=
  existsb (fun v => AccessibilityHelpers.Severity_eqb (AccessibilityHelpers.severity v)
                      AccessibilityHelpers.critical) violations.

End Repo.

(* ===================================================================== *)
(** ** Assertions and test bodies of the specification files *)
(* ===================================================================== *)

Module Expect.

(** [expect(actual).toBeLessThanOrEqual(expected)] *)
Definition toBeLessThanOrEqual {E} (actual expected : nat) : prog E unit :=
  if (actual <=? expected)%nat then Ret tt else Throw assertionError.

(** [expect(value).toBeTruthy()] for a string *)
Definition toBeTruthy {E} (value : jsstring) : prog E unit :=
  if truthy value then Ret tt else Throw assertionError.

(** [expect(value).toBe(expected)] for a boolean *)
Definition toBe {E} (value expected : bool) : prog E unit :=
  if Bool.eqb value expected then Ret tt else Throw assertionError.

(** [expect(array).toHaveLength(expected)] *)
Definition toHaveLength {E A} (array : list A) (expected : nat) : prog E unit :=
  if (length array =? expected)%nat then Ret tt else Throw assertionError.

(** [array.forEach(callback)] *)
Fixpoint forEach {E A} (array : list A) (callback : A -> prog E unit) : prog E unit :=
  match array with
  | [] => Ret tt
  | x :: rest => callback x ;;; forEach rest callback
  end.

End Expect.

(** smoke.spec.ts, the remaining bodies *)
Module SmokeTests.

(** test('should display main content sections') *)
Definition should_display_main_content_sections : prog pageE unit :=
  HomePage.navigate ;;;
  sections <- HomePage.getVisibleSections ;;
  expect_toBeGreaterThan (length sections) 0.

(** test('should display author information') *)
Definition should_display_author_information : prog pageE unit :=
  HomePage.navigate ;;;
  authorName <- ProfileComponent.getAuthorName ;;
  Expect.toBeTruthy authorName.

(** test('should have clickable post titles') *)
Definition should_have_clickable_post_titles : prog pageE unit :=
  HomePage.navigate ;;;
  titles <- BlogPostComponent.getAllPostTitles ;;
  expect_toBeGreaterThan (length titles) 0 ;;;
  Expect.forEach titles (fun title => expect_toBeGreaterThan (length title) 0).

End SmokeTests.

(** homepage.spec.ts.  The describe block has a [beforeEach] hook,
    [homePage.navigate()]: a test is the hook followed by its callback,
    and fails as the hook did when the hook fails. *)
Module HomepageTests.

Definition beforeEach : prog pageE unit := HomePage.navigate.

(** test('should display post titles') *)
Definition should_display_post_titles : prog pageE unit :=
  beforeEach ;;;
  titles <- BlogPostComponent.getAllPostTitles ;;
  Expect.forEach titles (fun title => expect_toBeGreaterThan (length (trim title)) 0).

(** test('should display author tagline') *)
Definition should_display_author_tagline : prog pageE unit :=
  beforeEach ;;;
  tagline <- ProfileComponent.getTagline ;;
  expect_toBeGreaterThan (length tagline) 0.

End HomepageTests.

(** accessibility.spec.ts, the tests of 'Homepage Accessibility' that
    call the helpers.  The describe block has a [beforeEach] hook,
    [homePage.navigate()], which runs before every callback.  Writing to
    the console is left out: it cannot fail. *)
Module AccessibilityTests.
Import AccessibilityHelpers.

Definition beforeEach : prog pageE unit := HomePage.navigate.

Definition isSeverity (s : Severity) (v : A11yViolation) : bool :=
  Severity_eqb (severity v) s.

(** test('should have page language defined') *)
Definition should_have_page_language_defined : prog pageE unit :=
  beforeEach ;;;
  violations <- checkPageLanguage ;;
  let criticalViolations := filter (isSeverity serious) violations in
  Expect.toHaveLength criticalViolations 0.

(** test('images should have alt attributes') *)
Definition images_should_have_alt_attributes : prog pageE unit :=
  beforeEach ;;;
  violations <- checkImagesHaveAlt ;;
  let criticalViolations := filter (isSeverity critical) violations in
  Expect.toBeLessThanOrEqual (length criticalViolations) 2.

(** test('links should have accessible names') *)
Definition links_should_have_accessible_names : prog pageE unit :=
  beforeEach ;;;
  violations <- checkLinksAccessible ;;
  Expect.toBeLessThanOrEqual (length violations) 3.

(** test('heading hierarchy should be logical') *)
Definition heading_hierarchy_should_be_logical : prog pageE unit :=
  beforeEach ;;;
  violations <- checkHeadingHierarchy ;;
  let seriousViolations :=
    filter (fun v => isSeverity critical v || isSeverity serious v) violations in
  Expect.toBeLessThanOrEqual (length seriousViolations) 1.

End AccessibilityTests.

(* ===================================================================== *)
(** ** Reading lists of texts and of links *)
(* ===================================================================== *)

Module Lists.

(** The operations that collect the trimmed, non-empty texts of the
    elements of a locator. *)
Definition textLists : list (locator * prog pageE (list jsstring)) :=
  [ (BlogPostComponent.titleLocators, BlogPostComponent.getAllPostTitles);
    (Css (lit "#topbar-wrapper a, .nav-item a"), NavigationComponent.getNavLinkTexts);
    (PostPage.postTags, PostPage.getPostTags) ].

(** The operations that collect the non-empty [href]s of the elements of
    a locator. *)
Definition linkLists : list (locator * prog pageE (list jsstring)) :=
  [ (Within ProfileComponent.socialLinksContainer (lit "a"),
     ProfileComponent.getAllSocialUrls);
    (FooterComponent.footerLinks, FooterComponent.getAllFooterLinks) ].

(** No white space anywhere at the ends, and at least one character. *)
Definition cleanText (s : jsstring) : Prop := s <> [] /\ trimmed s.

(** The [href] of an element when it is a non-empty string. *)
Definition truthyHref (a : StaticPage.Element) : list jsstring :=
  match StaticPage.getAttribute (StaticPage.attributes a) "href" with
  | Some href => if truthy href then [href] else []
  | None => []
  end.

(** The trimmed text of an element when it is not blank. *)
Definition cleanTextOf (a : StaticPage.Element) : list jsstring :=
  match StaticPage.text a with
  | Some t => if whitespaceOnly t then [] else [trim t]
  | None => []
  end.

End Lists.

(* ===================================================================== *)
(** ** An example footer *)
(* ===================================================================== *)

Module FooterExample.

(** A footer with a feed link, an anchor without target and a link to
    the repository.
<<
    <footer><a href="/feed.xml">Feed</a> <a href="">top</a>
            <a href="https://github.com/Othrondir">GitHub</a> <a>plain</a></footer>
>> *)
Definition footerPage : StaticPage.Page :=
  Fixtures.pageOf
    [ (lit "footer a, .page__footer a",
       [ Fixtures.node 1 [("href"%string, lit "/feed.xml")] (Some (lit "Feed"));
         Fixtures.node 2 [("href"%string, [])] (Some (lit "top"));
         Fixtures.node 3 [("href"%string, lit "https://github.com/Othrondir")]
           (Some (lit "GitHub"));
         Fixtures.node 4 [] (Some (lit "plain")) ]) ].

(** Social links inside two containers that both match, one inside the
    other.
<<
    <div class="author__urls">
      <ul class="social-icons">
        <li><a href="https://github.com/Othrondir">GitHub</a></li>
        <li><a>Follow</a></li>
      </ul>
    </div>
>> *)
Definition github : StaticPage.Element :=
  Fixtures.node 3 [("href"%string, lit "https://github.com/Othrondir")]
    (Some (lit "GitHub")).
Definition follow : StaticPage.Element := Fixtures.node 4 [] (Some (lit "Follow")).

Definition nestedProfile : StaticPage.Page :=
  {| StaticPage.url := Fixtures.siteUrl;
     StaticPage.query :=
       Fixtures.select
         [ (lit ".author__urls, ul.social-icons",
            [ Fixtures.node 1 [("class"%string, lit "author__urls")] None;
              Fixtures.node 2 [("class"%string, lit "social-icons")] None ]) ];
     StaticPage.scoped := fun container selector =>
       if JsString.eqb selector (lit "a") then [github; follow] else [];
     StaticPage.headings := [];
     StaticPage.lang := lit "en";
     StaticPage.resolveUrl := fun href base => Some href;
     StaticPage.headStatus := fun _ => Resolved 200%Z;
     StaticPage.otherwise := StaticPage.notModelled |}.

End FooterExample.

(* ===================================================================== *)
(** ** The accessibility checks, element by element *)
(* ===================================================================== *)

Module A11ySpec.
Import AccessibilityHelpers.

(** An anchor without accessible name: its text is missing or blank, and
    its [aria-label] is missing or empty. *)
Definition nameless (a : StaticPage.Element) : bool :=
  match StaticPage.text a with
  | Some t => whitespaceOnly t
  | None => true
  end &&
  match StaticPage.getAttribute (StaticPage.attributes a) "aria-label" with
  | Some label => match label with [] => true | _ :: _ => false end
  | None => true
  end.

Definition linkViolations (a : StaticPage.Element) : list A11yViolation :=
  if nameless a
  then [{| element := linkElement (StaticPage.getAttribute (StaticPage.attributes a) "href");
           issue := lit "Link has no accessible name";
           severity := critical |}]
  else [].

(** An image without [alt] attribute. *)
Definition missingAlt (img : StaticPage.Element) : bool :=
  match StaticPage.getAttribute (StaticPage.attributes img) "alt" with
  | Some _ => false
  | None => true
  end.

(** Two consecutive headings of which the second skips a level. *)
Definition isSkip (pair : Heading * Heading) : bool :=
  (level (fst pair) + 1 <? level (snd pair))%nat && negb (level (fst pair) =? 0)%nat.

(** The pairs of consecutive headings. *)
Definition consecutive (hs : list Heading) : list (Heading * Heading) :=
  combine hs (tl hs).

(** What is reported for a pair whose second heading skips a level. *)
Definition skipViolation (pair : Heading * Heading) : A11yViolation :=
  {| element := lit "h" ++ ofNat (level (snd pair));
     issue := lit "Heading level skipped from h" ++ ofNat (level (fst pair))
              ++ lit " to h" ++ ofNat (level (snd pair));
     severity := moderate |}.

Definition h1Count (hs : list Heading) : nat :=
  length (filter (fun h => (level h =? 1)%nat) hs).

(** A page with a nameless icon link, a labelled one, no heading of level
    1 and no language.
<<
    <html><body><h2>News</h2><h4>Today</h4>
      <a href="/rss"><i class="icon"></i></a>
      <a href="/gh" aria-label="GitHub"><i class="icon"></i></a>
      <img src="/logo.png" alt="">
    </body></html>
>> *)
Definition iconPage : StaticPage.Page :=
  {| StaticPage.url := Fixtures.siteUrl;
     StaticPage.query :=
       Fixtures.select
         [ (lit "a",
            [ Fixtures.node 1 [("href"%string, lit "/rss")] (Some (lit " "));
              Fixtures.node 2 [("href"%string, lit "/gh");
                               ("aria-label"%string, lit "GitHub")] (Some []) ]);
           (lit "img",
            [ Fixtures.node 3 [("src"%string, lit "/logo.png"); ("alt"%string, [])] None ]) ];
     StaticPage.scoped := fun _ _ => [];
     StaticPage.headings := [ {| level := 2; headingText := lit "News" |};
                              {| level := 4; headingText := lit "Today" |} ];
     StaticPage.lang := [];
     StaticPage.resolveUrl := fun href base => Some href;
     StaticPage.headStatus := fun _ => Resolved 200%Z;
     StaticPage.otherwise := StaticPage.notModelled |}.

(** The same page with a name given to the first link. *)
Definition namedPage : StaticPage.Page :=
  {| StaticPage.url := Fixtures.siteUrl;
     StaticPage.query :=
       Fixtures.select
         [ (lit "a",
            [ Fixtures.node 1 [("href"%string, lit "/rss")] (Some (lit "Feed"));
              Fixtures.node 2 [("href"%string, lit "/gh");
                               ("aria-label"%string, lit "GitHub")] (Some []) ]);
           (lit "img",
            [ Fixtures.node 3 [("src"%string, lit "/logo.png"); ("alt"%string, [])] None ]) ];
     StaticPage.scoped := fun _ _ => [];
     StaticPage.headings := [ {| level := 2; headingText := lit "News" |};
                              {| level := 4; headingText := lit "Today" |} ];
     StaticPage.lang := [];
     StaticPage.resolveUrl := fun href base => Some href;
     StaticPage.headStatus := fun _ => Resolved 200%Z;
     StaticPage.otherwise := StaticPage.notModelled |}.

End A11ySpec.

(* ===================================================================== *)
(** ** Reading traces of page programs *)
(* ===================================================================== *)

Module Calls.

Definition isFocus (ev : event pageE) : bool :=
  match ev with
  | Event c _ => match c with Focus _ => true | _ => false end
  end.

(** The calls that count the elements of a locator or read an attribute. *)
Definition isLocatorRead (ev : event pageE) : bool :=
  match ev with
  | Event c _ => match c with Count _ | GetAttribute _ _ => true | _ => false end
  end.

(** A reference that [verifyLinksNotBroken] follows. *)
Definition followed (href : jsstring) : Prop :=
  href <> [] /\ startsWith href (lit "#") = false /\
  startsWith href (lit "javascript:") = false.

(** The URL constructor is given followed references only. *)
Definition resolvesFollowedOnly (ev : event pageE) : Prop :=
  match ev with
  | Event c _ => match c with NewURL href _ => followed href | _ => True end
  end.

(** [u] is what the URL constructor returned for a followed reference. *)
Definition urlOfFollowed (u : jsstring) (ev : event pageE) : Prop :=
  match ev with
  | Event c r =>
      match c in pageE X return outcome X -> Prop with
      | NewURL href _ => fun r => followed href /\ r = Resolved u
      | _ => fun _ => False
      end r
  end.

(** Every HEAD request in the trace comes right after the URL
    constructor returned its address for a followed reference;
    [previous] is the call made just before the trace. *)
Fixpoint headsFollowUrls (previous : option (event pageE)) (tr : list (event pageE)) : Prop :=
  match tr with
  | [] => True
  | ev :: rest =>
      match ev with
      | Event c _ =>
          match c with
          | RequestHead u =>
              match previous with
              | Some before => urlOfFollowed u before
              | None => False
              end
          | _ => True
          end
      end /\ headsFollowUrls (Some ev) rest
  end.

Definition isRequestHead (ev : event pageE) : bool :=
  match ev with
  | Event c _ => match c with RequestHead _ => true | _ => false end
  end.

End Calls.

(* ===================================================================== *)
(** ** A page for the focus check *)
(* ===================================================================== *)

Module FocusExample.

(** Every element takes the focus and shows no focus indicator. *)
Definition unstyled : forall X, pageE X -> outcome X :=
  fun X c =>
    match c in pageE X return outcome X with
    | Focus _ => Resolved tt
    | EvaluateFocusVisible _ => Resolved false
    | EvaluateTagName _ => Resolved (lit "a")
    | c' => StaticPage.notModelled _ c'
    end.

(** Twelve unstyled links. *)
Definition plainLinks : StaticPage.Page :=
  {| StaticPage.url := Fixtures.siteUrl;
     StaticPage.query :=
       Fixtures.select
         [ (lit "a, button, input, select, textarea, [tabindex]",
            map (fun id => Fixtures.node id [("href"%string, lit "/")] None) (seq 1 12)) ];
     StaticPage.scoped := fun _ _ => [];
     StaticPage.headings := [];
     StaticPage.lang := lit "en";
     StaticPage.resolveUrl := fun href base => Some href;
     StaticPage.headStatus := fun _ => Resolved 200%Z;
     StaticPage.otherwise := unstyled |}.

End FocusExample.

(* ===================================================================== *)
(** ** Failures that a program lets through *)
(* ===================================================================== *)

Module Failures.

(** The program rejects exactly when one of its calls of kind [f]
    rejects, with the error of that call, and stops there; what other
    calls throw is not passed on. *)
Definition failsOnlyBy {E A} (f : event E -> bool) (p : prog E A) : Prop :=
  forall W (h : handler E W) (w : W),
    match result h p w with
    | Resolved _ => rejections (filter f (trace h p w)) = []
    | Rejected e => rejections (filter f (trace h p w)) = [e]
    end.

(** An entry of the list of broken links, as the code builds it. *)
Definition brokenEntryOfFollowed (entry : jsstring) : Prop :=
  exists href status,
    entry = TestHelpers.brokenEntry href status /\ Calls.followed href /\ (400 <= status)%Z.

End Failures.

(* ===================================================================== *)
(** ** Counting words *)
(* ===================================================================== *)

Module Words.

(** The number of places in [s] where a word begins: a character that is
    not white space and follows white space, or the start when
    [afterSpace] holds. *)
Fixpoint wordStarts (s : jsstring) (afterSpace : bool) : nat :=
  match s with
  | [] => 0
  | c :: s' =>
      if isWhiteSpace c
      then wordStarts s' true
      else (if afterSpace then 1 else 0) + wordStarts s' false
  end.

(** The words of a text: its maximal runs without white space. *)
Definition countWords (s : jsstring) : nat := wordStarts s true.

(** What the body of a post counts for. *)
Definition wordsOf (text : option jsstring) : nat :=
  match text with
  | Some t => countWords t
  | None => 0
  end.

(** A post whose body has three words and white space around them. *)
Definition articlePage : StaticPage.Page :=
  Fixtures.pageOf
    [ (lit ".post-content, article .content, .e-content",
       [ Fixtures.node 1 []
           (Some ([32; 10]%N ++ lit "Hello" ++ [9; 32]%N ++ lit "big world" ++ [10]%N)) ]) ].

End Words.

(* ===================================================================== *)
(** ** A home page with a profile *)
(* ===================================================================== *)

Module ProfileExample.

(** The main content, the author's name padded with white space, a
    tagline and a footer.
<<
    <div id="main">
      <h3 class="author__name"> Alejandro </h3>
      <p class="author__bio">QA Engineer</p>
    </div>
    <footer></footer>
>> *)
Definition homeWithProfile : StaticPage.Page :=
  Fixtures.pageOf
    [ (lit "#main", [ Fixtures.node 1 [("id"%string, lit "main")] None ]);
      (lit "#main, .entries-list, .archive",
       [ Fixtures.node 1 [("id"%string, lit "main")] None ]);
      (lit ".author__name, h3.author__name",
       [ Fixtures.node 2 [] (Some ([32; 10]%N ++ lit "Alejandro" ++ [9; 160]%N)) ]);
      (lit ".author__bio, p[itemprop=" ++ dquote ++ lit "description" ++ dquote ++ lit "]",
       [ Fixtures.node 3 [] (Some (lit "QA Engineer")) ]);
      (lit "footer", [ Fixtures.node 4 [] None ]) ].

End ProfileExample.

(* ===================================================================== *)
(** ** The sections of the home page *)
(* ===================================================================== *)

Module Sections.

(** The containers [getVisibleSections] asks for, with their names. *)
Definition containers : list (locator * jsstring) :=
  [ (NavigationComponent.navContainer, lit "navigation");
    (ProfileComponent.profileContainer, lit "profile");
    (BlogPostComponent.postsContainer, lit "blog-posts");
    (FooterComponent.footerContainer, lit "footer") ].

(** The page answers the question whether [l] is visible. *)
Definition answered (p : StaticPage.Page) (l : locator) : bool :=
  match StaticPage.answer p bool (IsVisible l) with
  | Resolved _ => true
  | Rejected _ => false
  end.

(** The page answers that [l] is visible. *)
Definition visibleOn (p : StaticPage.Page) (l : locator) : bool :=
  match StaticPage.answer p bool (IsVisible l) with
  | Resolved visible => visible
  | Rejected _ => false
  end.

End Sections.

(* ===================================================================== *)
(** ** A browser with a clock *)
(* ===================================================================== *)

Module Screens.

(** The world is the time in milliseconds; reading the clock takes one
    millisecond and screenshots always succeed. *)
Definition clock : handler pageE Z :=
  fun X c =>
    match c in pageE X return Z -> outcome X * Z with
    | DateNow => fun now => (Resolved now, (now + 1)%Z)
    | Screenshot _ _ => fun now => (Resolved [], now)
    | c' => fun now => (StaticPage.notModelled _ c', now)
    end.

Definition screenshotsDirectory : jsstring := lit "test-results/screenshots/".

End Screens.

(* ===================================================================== *)
(** ** The navigation operations and the mobile menu *)
(* ===================================================================== *)

Module Navigation.

(** The operations that go to a page of the site. *)
Definition destinations : list (prog pageE unit) :=
  [ NavigationComponent.goToHome;
    NavigationComponent.goToAbout;
    NavigationComponent.goToPosts;
    NavigationComponent.goToCategories;
    NavigationComponent.goToTags ].

(** A click on the toggle of the mobile menu. *)
Definition clicksToggle (ev : event pageE) : Prop :=
  match ev with
  | Event c _ =>
      match c with
      | Click l => l = NavigationComponent.mobileMenuToggle
      | _ => False
      end
  end.

(** The toggle of the mobile menu was asked for and reported visible. *)
Definition reportsToggleVisible (ev : event pageE) : Prop :=
  match ev with
  | Event c r =>
      match c in pageE X return outcome X -> Prop with
      | IsVisible l => fun r => l = NavigationComponent.mobileMenuToggle /\ r = Resolved true
      | _ => fun _ => False
      end r
  end.

(** Every click on the toggle comes right after the toggle was reported
    visible; [previous] is the call made just before the trace. *)
Fixpoint togglesGuarded (previous : option (event pageE)) (tr : list (event pageE)) : Prop :=
  match tr with
  | [] => True
  | ev :: rest =>
      (clicksToggle ev ->
       match previous with
       | Some before => reportsToggleVisible before
       | None => False
       end) /\
      togglesGuarded (Some ev) rest
  end.

End Navigation.

(* ===================================================================== *)
(** * Properties *)
(* ===================================================================== *)

(** ** Running composed programs *)

Lemma run_bind {E W A B} (h : handler E W) (m : prog E A) (f : A -> prog E B) (w : W) :
  run h (bind m f) w =
  match run h m w with
  | (Resolved a, w1, tr1) =>
      let '(r, w2, tr2) := run h (f a) w1 in (r, w2, tr1 ++ tr2)
  | (Rejected e, w1, tr1) => (Rejected e, w1, tr1)
  end.
Proof.
  revert w. induction m as [a | e | X c k IH]; intros w; simpl.
  - destruct (run h (f a) w) as [[r w2] tr2]. reflexivity.
  - reflexivity.
  - destruct (h X c w) as [r w1]. rewrite IH.
    destruct (run h (k r) w1) as [[[a | e] w2] tr1]; [| reflexivity].
    destruct (run h (f a) w2) as [[r' w3] tr2]. reflexivity.
Qed.

Lemma run_try_catch {E W A} (h : handler E W) (m : prog E A) (c : thrown -> prog E A) (w : W) :
  run h (try_catch m c) w =
  match run h m w with
  | (Resolved a, w1, tr1) => (Resolved a, w1, tr1)
  | (Rejected e, w1, tr1) =>
      let '(r, w2, tr2) := run h (c e) w1 in (r, w2, tr1 ++ tr2)
  end.
Proof.
  revert w. induction m as [a | e | X c0 k IH]; intros w; simpl.
  - reflexivity.
  - destruct (run h (c e) w) as [[r w2] tr2]. reflexivity.
  - destruct (h X c0 w) as [r w1]. rewrite IH.
    destruct (run h (k r) w1) as [[[a | e] w2] tr1]; [reflexivity |].
    destruct (run h (c e) w2) as [[r' w3] tr2]. reflexivity.
Qed.

Lemma run_await {E W X} (h : handler E W) (c : E X) (w : W) :
  run h (await c) w = (fst (h X c w), snd (h X c w), [Event c (fst (h X c w))]).
Proof.
  simpl. destruct (h X c w) as [[x | e] w1]; reflexivity.
Qed.


(** ** [retry] *)

Section Retry.
Import TestHelpers.
Context {T W : Type}.
Variable h : handler (retryE T) W.

(** An integer is at most a number exactly when it is at most its floor. *)
Lemma leb_int (a : Z) (m : number) : leb (int a) m = (a <=? Qfloor m)%Z.
Proof.
  unfold leb, int.
  destruct (Z.leb_spec a (Qfloor m)) as [Hle | Hgt].
  - apply Qle_bool_iff.
    apply Qle_trans with (inject_Z (Qfloor m)); [| apply Qfloor_le].
    rewrite <- Zle_Qle. exact Hle.
  - destruct (Qle_bool (inject_Z a) m) eqn:Hb; [| reflexivity].
    apply Qle_bool_iff in Hb. apply Qfloor_resp_le in Hb.
    rewrite Qfloor_Z in Hb. lia.
Qed.

Lemma ltb_int_below (a : Z) (m : number) : (a < Qfloor m)%Z -> ltb (int a) m = true.
Proof.
  intros Hlt. unfold ltb, int.
  destruct (Qle_bool m (inject_Z a)) eqn:Hb; [| reflexivity].
  apply Qle_bool_iff in Hb. apply Qfloor_resp_le in Hb.
  rewrite Qfloor_Z in Hb. lia.
Qed.

(** No number lies strictly between an integer and itself. *)
Lemma ltb_integral (n : Z) (m : number) : (m == int n)%Q -> ltb (int n) m = false.
Proof.
  intros Hm. unfold ltb.
  assert (Hle : Qle_bool m (int n) = true)
    by (apply Qle_bool_iff; rewrite Hm; apply Qle_refl).
  rewrite Hle. reflexivity.
Qed.

Lemma retry_loop_unfold (m d : number) (a : Z) (e : thrown) :
  retry_loop (T:=T) m d a e =
  if leb (int a) m
  then r <- attempt_body m d a ;;
       match r with
       | inl v => Ret v
       | inr error => retry_loop m d (a + 1) error
       end
  else Throw e.
Proof.
  simp retry_loop. unfold leb.
  destruct (Qlt_le_dec m (int a)) as [Hlt | Hle]; simpl.
  - destruct (Qle_bool (int a) m) eqn:Hb; [| reflexivity].
    apply Qle_bool_iff in Hb. exfalso. exact (Qlt_not_le _ _ Hlt Hb).
  - rewrite (proj2 (Qle_bool_iff _ _) Hle). reflexivity.
Qed.

Lemma run_attempt_body (m d : number) (a : Z) (w : W) :
  run h (attempt_body m d a) w =
  match h T Invoke w with
  | (Resolved v, w1) => (Resolved (inl v), w1, [invocation (Resolved v)])
  | (Rejected e, w1) =>
      if ltb (int a) m
      then match h unit (SetTimeout d) w1 with
           | (Resolved u, w2) =>
               (Resolved (inr e), w2,
                [invocation (Rejected e); Event (SetTimeout d) (Resolved u)])
           | (Rejected e', w2) =>
               (Rejected e', w2,
                [invocation (Rejected e); Event (SetTimeout d) (Rejected e')])
           end
      else (Resolved (inr e), w1, [invocation (Rejected e)])
  end.
Proof.
  unfold attempt_body, invocation. simpl.
  destruct (h T Invoke w) as [[v | e] w1]; simpl; [reflexivity |].
  destruct (ltb (int a) m); simpl; [| reflexivity].
  destruct (h unit (SetTimeout d) w1) as [[u | e'] w2]; reflexivity.
Qed.

Lemma invocationCount_intersperse (d : number) (rs : list (outcome T)) :
  invocationCount (intersperse (sleep d) (map invocation rs)) = length rs.
Proof.
  unfold invocationCount.
  induction rs as [| r [| r' rs] IH]; simpl in *; auto.
Qed.

(** The run of the loop from attempt [a] on: the invocations separated
    by sleeps, and one more sleep after a last attempt that failed when
    its number is still below [m], which happens only when [m] is not an
    integer. *)
Lemma retry_loop_runs (m d : number) (Htimers : timers_fire h) :
  forall (n : nat) (a : Z) (e0 : thrown) (w : W),
    Z.to_nat (Qfloor m + 1 - a) = n -> (a <= Qfloor m)%Z ->
    exists (failures : list thrown) (final : outcome T),
      trace h (retry_loop m d a e0) w =
        intersperse (sleep d) (map invocation (map Rejected failures ++ [final])) ++
        match final with
        | Resolved _ => []
        | Rejected _ => if ltb (int (Qfloor m)) m then [sleep d] else []
        end /\
      result h (retry_loop m d a e0) w = final /\
      (Z.of_nat (length failures) + 1 <= Qfloor m + 1 - a)%Z /\
      (forall e, final = Rejected e ->
                 (Z.of_nat (length failures) + 1 = Qfloor m + 1 - a)%Z).
Proof.
  induction n as [| n IH]; intros a e0 w Hn Ha; [lia |].
  unfold trace, result.
  rewrite retry_loop_unfold, leb_int.
  destruct (Z.leb_spec a (Qfloor m)) as [_ | Hlt]; [| lia].
  rewrite run_bind, run_attempt_body.
  destruct (h T Invoke w) as [[v | e] w1].
  - (* the invocation resolves: [return await fn()] *)
    exists [], (Resolved v). simpl. repeat split; try lia. discriminate.
  - destruct (Z.ltb_spec a (Qfloor m)) as [Hlt | Hge].
    + (* a failed attempt that is not the last: sleep, go round again *)
      rewrite (ltb_int_below a m Hlt).
      pose proof (Htimers d w1) as Hfire.
      destruct (h unit (SetTimeout d) w1) as [[u | e'] w2]; simpl in Hfire;
        [| discriminate].
      destruct u.
      destruct (IH (a + 1)%Z e w2) as (failures & final & Htr & Hres & Hlen & Hall);
        [lia | lia |].
      unfold trace, result in Htr, Hres.
      destruct (run h (retry_loop m d (a + 1) e) w2) as [[res w3] tr].
      simpl in Htr, Hres. subst res tr.
      exists (e :: failures), final. simpl.
      repeat split.
      * change (Event (SetTimeout d) (Resolved tt)) with (sleep (T:=T) d).
        change (Event Invoke (Rejected e)) with (invocation (T:=T) (Rejected e)).
        destruct failures; reflexivity.
      * lia.
      * intros e1 He1. specialize (Hall e1 He1). lia.
    + (* the last attempt failed: a sleep when [a < m] still holds, then
         the loop ends, [throw lastError] *)
      assert (Ha' : a = Qfloor m) by lia. subst a.
      assert (Hend : retry_loop (T:=T) m d (Qfloor m + 1) e = Throw e).
      { rewrite retry_loop_unfold, leb_int.
        destruct (Z.leb_spec (Qfloor m + 1) (Qfloor m)); [lia | reflexivity]. }
      exists [], (Rejected e).
      destruct (ltb (int (Qfloor m)) m).
      * pose proof (Htimers d w1) as Hfire.
        destruct (h unit (SetTimeout d) w1) as [[u | e'] w2]; simpl in Hfire;
          [| discriminate].
        destruct u. rewrite Hend. simpl. repeat split; try lia.
      * rewrite Hend. simpl. repeat split; try lia.
Qed.

End Retry.

(** C1. For every function [fn] (answered by the environment [h], whose
    timers fire) and every options record whose [maxAttempts] (a finite
    number, 3 when omitted) is at least 1, with [delay] (1000 when
    omitted): the calls made by [retry] are the invocations of [fn]
    separated by one sleep of [delay] milliseconds each; every invocation
    but the last one rejected; the number of invocations is at most
    [maxAttempts]; [retry] settles as the last invocation did, so it
    returns the value of the first invocation that resolves, and when it
    throws, [maxAttempts] is less than one more than the number of
    invocations, all of which rejected, and the error is that of the last
    one.  After the last invocation there is no sleep when it resolved or
    when [maxAttempts] is an integer; when it rejected and its number is
    still below [maxAttempts], which is then not an integer, [retry]
    sleeps once more before it throws. *)
Theorem retry_attempts_and_result :
  forall (T W : Type) (h : handler (TestHelpers.retryE T) W)
         (options : TestHelpers.RetryOptions) (m d : TestHelpers.number) (w : W),
    m = match TestHelpers.maxAttempts options with
        | Some n => n
        | None => TestHelpers.int 3
        end ->
    d = match TestHelpers.delay options with
        | Some n => n
        | None => TestHelpers.int 1000
        end ->
    TestHelpers.timers_fire h ->
    (1 <= m)%Q ->
    exists (failures : list thrown) (final : outcome T),
      trace h (TestHelpers.retry options) w =
        intersperse (TestHelpers.sleep d)
          (map TestHelpers.invocation (map Rejected failures ++ [final])) ++
        match final with
        | Resolved _ => []
        | Rejected _ =>
            if TestHelpers.ltb (TestHelpers.int (Z.of_nat (S (length failures)))) m
            then [TestHelpers.sleep d]
            else []
        end /\
      result h (TestHelpers.retry options) w = final /\
      TestHelpers.invocationCount (trace h (TestHelpers.retry options) w)
        = S (length failures) /\
      (TestHelpers.int (Z.of_nat (S (length failures))) <= m)%Q /\
      (forall e, final = Rejected e ->
                 (m < TestHelpers.int (Z.of_nat (S (length failures)) + 1))%Q) /\
      (forall n : Z,
          (m == TestHelpers.int n)%Q ->
          trace h (TestHelpers.retry options) w =
          intersperse (TestHelpers.sleep d)
            (map TestHelpers.invocation (map Rejected failures ++ [final]))).
Proof.
  intros T W h options m d w Hm Hd Htimers Hmax.
  assert (Hfloor : (1 <= Qfloor m)%Z).
  { change 1%Z with (Qfloor (inject_Z 1)) at 1. rewrite Qfloor_Z.
    rewrite <- (Qfloor_Z 1). apply Qfloor_resp_le. exact Hmax. }
  destruct (retry_loop_runs h m d Htimers (Z.to_nat (Qfloor m + 1 - 1)) 1
              Undefined w eq_refl Hfloor)
    as (failures & final & Htr & Hres & Hlen & Hall).
  assert (Hretry : TestHelpers.retry (T:=T) options =
                   TestHelpers.retry_loop m d 1 Undefined).
  { unfold TestHelpers.retry, TestHelpers.maxAttemptsOf, TestHelpers.delayOf.
    rewrite <- Hm, <- Hd. reflexivity. }
  rewrite Hretry.
  assert (Htrailing :
            match final with
            | Resolved _ => []
            | Rejected _ =>
                if TestHelpers.ltb (TestHelpers.int (Qfloor m)) m
                then [TestHelpers.sleep (T:=T) d]
                else []
            end =
            match final with
            | Resolved _ => []
            | Rejected _ =>
                if TestHelpers.ltb (TestHelpers.int (Z.of_nat (S (length failures)))) m
                then [TestHelpers.sleep d]
                else []
            end).
  { destruct final as [v | e]; [reflexivity |].
    specialize (Hall e eq_refl).
    replace (Z.of_nat (S (length failures))) with (Qfloor m) by lia. reflexivity. }
  rewrite Htrailing in Htr.
  exists failures, final. rewrite Htr.
  split; [reflexivity |]. split; [exact Hres |].
  split; [| split; [| split]].
  - unfold TestHelpers.invocationCount. rewrite filter_app, length_app.
    fold (TestHelpers.invocationCount
            (intersperse (TestHelpers.sleep d)
               (map TestHelpers.invocation (map Rejected failures ++ [final])))).
    rewrite invocationCount_intersperse, length_app, length_map. simpl.
    destruct final as [v | e]; simpl; [lia |].
    destruct (TestHelpers.ltb _ m); simpl; lia.
  - apply Qle_trans with (inject_Z (Qfloor m)); [| apply Qfloor_le].
    unfold TestHelpers.int. rewrite <- Zle_Qle. lia.
  - intros e He. specialize (Hall e He).
    replace (Z.of_nat (S (length failures)) + 1)%Z with (Qfloor m + 1)%Z by lia.
    apply Qlt_floor.
  - intros n Hn.
    destruct final as [v | e]; [rewrite app_nil_r; reflexivity |].
    specialize (Hall e eq_refl).
    assert (Hcount : Z.of_nat (S (length failures)) = n).
    { replace (Z.of_nat (S (length failures))) with (Qfloor m) by lia.
      rewrite Hn. apply Qfloor_Z. }
    rewrite Hcount, (ltb_integral n m Hn), app_nil_r. reflexivity.
Qed.

Lemma retry_attempts_and_result_witness :
  exists (failures : list thrown) (final : outcome nat),
    trace (TestHelpers.flaky 2)
      (TestHelpers.retry {| TestHelpers.maxAttempts := Some (TestHelpers.int 3);
                            TestHelpers.delay := Some (TestHelpers.int 50) |}) 0%nat =
      intersperse (TestHelpers.sleep (TestHelpers.int 50))
        (map TestHelpers.invocation (map Rejected failures ++ [final])) /\
    result (TestHelpers.flaky 2)
      (TestHelpers.retry {| TestHelpers.maxAttempts := Some (TestHelpers.int 3);
                            TestHelpers.delay := Some (TestHelpers.int 50) |}) 0%nat = final /\
    TestHelpers.invocationCount
      (trace (TestHelpers.flaky 2)
         (TestHelpers.retry {| TestHelpers.maxAttempts := Some (TestHelpers.int 3);
                               TestHelpers.delay := Some (TestHelpers.int 50) |}) 0%nat)
      = S (length failures) /\
    (TestHelpers.int (Z.of_nat (S (length failures))) <= TestHelpers.int 3)%Q.
Proof.
  destruct (retry_attempts_and_result nat nat (TestHelpers.flaky 2)
              {| TestHelpers.maxAttempts := Some (TestHelpers.int 3);
                 TestHelpers.delay := Some (TestHelpers.int 50) |}
              (TestHelpers.int 3) (TestHelpers.int 50) 0%nat eq_refl eq_refl)
    as (failures & final & _ & Hres & Hcount & Hle & _ & Hintegral).
  - intros ms w. reflexivity.
  - unfold TestHelpers.int, Qle. simpl. lia.
  - exists failures, final.
    split; [apply (Hintegral 3%Z); apply Qeq_refl |].
    split; [exact Hres |]. split; [exact Hcount | exact Hle].
Defined.

(** With [maxAttempts = 2.5] and a function that always fails, [retry]
    invokes it twice and sleeps after each attempt, also after the last
    one: at the second attempt [attempt < maxAttempts] still holds. *)
Lemma retry_sleeps_after_last_attempt :
  run (TestHelpers.flaky 5)
    (TestHelpers.retry {| TestHelpers.maxAttempts := Some (5 # 2)%Q;
                          TestHelpers.delay := Some (TestHelpers.int 50) |}) 0%nat
  = (Rejected TestHelpers.flakyError, 2%nat,
     [TestHelpers.invocation (Rejected TestHelpers.flakyError);
      TestHelpers.sleep (TestHelpers.int 50);
      TestHelpers.invocation (Rejected TestHelpers.flakyError);
      TestHelpers.sleep (TestHelpers.int 50)]).
Proof.
  unfold TestHelpers.retry, TestHelpers.maxAttemptsOf, TestHelpers.delayOf. simpl.
  rewrite retry_loop_unfold. simpl.
  rewrite retry_loop_unfold. simpl.
  rewrite retry_loop_unfold. reflexivity.
Qed.

(** C9. When [maxAttempts] is 0 or negative the loop body never runs:
    [retry] makes no call at all (no invocation of [fn], no sleep) and
    throws the initial value of [lastError], which is [undefined] and not
    an [Error] object. *)
Theorem retry_without_attempts :
  forall (T W : Type) (h : handler (TestHelpers.retryE T) W)
         (options : TestHelpers.RetryOptions) (w : W),
    (TestHelpers.maxAttemptsOf options <= 0)%Q ->
    run h (TestHelpers.retry options) w = (Rejected Undefined, w, []) /\
    (forall name message, Undefined <> ErrorObject name message).
Proof.
  intros T W h options w Hmax. split; [| discriminate].
  unfold TestHelpers.retry. rewrite retry_loop_unfold, leb_int.
  assert (Hfloor : (Qfloor (TestHelpers.maxAttemptsOf options) <= 0)%Z).
  { rewrite <- (Qfloor_Z 0). apply Qfloor_resp_le. exact Hmax. }
  destruct (Z.leb_spec 1 (Qfloor (TestHelpers.maxAttemptsOf options))); [lia | reflexivity].
Qed.

Lemma retry_without_attempts_witness :
  run (TestHelpers.flaky 0)
    (TestHelpers.retry {| TestHelpers.maxAttempts := Some (TestHelpers.int 0);
                          TestHelpers.delay := None |}) 0%nat
  = (Rejected Undefined, 0%nat, []) /\
  (forall name message, Undefined <> ErrorObject name message).
Proof.
  apply (retry_without_attempts nat nat (TestHelpers.flaky 0)
           {| TestHelpers.maxAttempts := Some (TestHelpers.int 0);
              TestHelpers.delay := None |} 0%nat).
  unfold TestHelpers.maxAttemptsOf, TestHelpers.int, Qle. simpl. lia.
Defined.

Example retry_flaky_run :
  run (TestHelpers.flaky 2)
    (TestHelpers.retry {| TestHelpers.maxAttempts := Some (TestHelpers.int 3);
                          TestHelpers.delay := Some (TestHelpers.int 50) |}) 0%nat
  = (Resolved 7%nat, 3%nat,
     [TestHelpers.invocation (Rejected TestHelpers.flakyError);
      TestHelpers.sleep (TestHelpers.int 50);
      TestHelpers.invocation (Rejected TestHelpers.flakyError);
      TestHelpers.sleep (TestHelpers.int 50);
      TestHelpers.invocation (Resolved 7%nat)]).
Proof.
  unfold TestHelpers.retry, TestHelpers.maxAttemptsOf, TestHelpers.delayOf. simpl.
  rewrite retry_loop_unfold. simpl.
  rewrite retry_loop_unfold. simpl.
  rewrite retry_loop_unfold. reflexivity.
Qed.

(** ** Strings *)

Lemma eqb_eq (a b : jsstring) : JsString.eqb a b = true <-> a = b.
Proof.
  unfold JsString.eqb. destruct (list_eq_dec N.eq_dec a b); split; congruence.
Qed.

Lemma trimStart_nil_iff (s : jsstring) : trimStart s = [] <-> whitespaceOnly s = true.
Proof.
  induction s as [| c s IH]; simpl.
  - tauto.
  - destruct (isWhiteSpace c); simpl; [exact IH |].
    split; discriminate.
Qed.

Lemma trimStart_suffix (s : jsstring) : exists ws, s = ws ++ trimStart s /\ whitespaceOnly ws = true.
Proof.
  induction s as [| c s (ws & Hs & Hws)]; simpl.
  - exists []. split; reflexivity.
  - destruct (isWhiteSpace c) eqn:Hc.
    + exists (c :: ws). simpl. rewrite Hc, Hws. split; [congruence | reflexivity].
    + exists []. split; reflexivity.
Qed.

Lemma whitespaceOnly_app (a b : jsstring) :
  whitespaceOnly (a ++ b) = whitespaceOnly a && whitespaceOnly b.
Proof. apply forallb_app. Qed.

Lemma whitespaceOnly_rev (s : jsstring) : whitespaceOnly (rev s) = whitespaceOnly s.
Proof.
  induction s as [| c s IH]; simpl; [reflexivity |].
  rewrite whitespaceOnly_app, IH. simpl. rewrite andb_true_r. apply andb_comm.
Qed.

(** [s.trim() === ''] exactly for the strings made of white space only. *)
Lemma trim_nil_iff (s : jsstring) : trim s = [] <-> whitespaceOnly s = true.
Proof.
  unfold trim, trimEnd. split.
  - intros H.
    assert (Hr : trimStart (rev (trimStart s)) = []).
    { apply (f_equal (@rev N)) in H. rewrite rev_involutive in H. exact H. }
    apply trimStart_nil_iff in Hr. rewrite whitespaceOnly_rev in Hr.
    destruct (trimStart_suffix s) as (ws & Hs & Hws).
    rewrite Hs, whitespaceOnly_app, Hws, Hr. reflexivity.
  - intros H. apply trimStart_nil_iff in H. rewrite H. reflexivity.
Qed.

Lemma trimStart_head (s : jsstring) (c : N) (s' : jsstring) :
  trimStart s = c :: s' -> isWhiteSpace c = false.
Proof.
  induction s as [| x s IH]; simpl; [discriminate |].
  destruct (isWhiteSpace x) eqn:Hx; [exact IH |].
  intros H. injection H as -> _. exact Hx.
Qed.

(** The result of [trim] has no white space at either end. *)
Lemma trim_trimmed (s : jsstring) : trimmed (trim s).
Proof.
  unfold trimmed, trim, trimEnd. split.
  - (* first character: it is the first of [trimStart s] *)
    intros c s' H.
    destruct (trimStart_suffix (rev (trimStart s))) as (ws & Hrev & Hws).
    apply (f_equal (@rev N)) in Hrev.
    rewrite rev_involutive, rev_app_distr, H in Hrev.
    destruct (trimStart s) as [| x t] eqn:Ht.
    + simpl in H. discriminate.
    + simpl in Hrev. injection Hrev as -> _.
      exact (trimStart_head s c t Ht).
  - (* last character: it is the first of [trimStart (rev _)] *)
    intros c s' H.
    apply (f_equal (@rev N)) in H.
    rewrite rev_involutive, rev_app_distr in H. simpl in H.
    exact (trimStart_head _ _ _ H).
Qed.

Example trim_example :
  trim ([32; 10]%N ++ lit "Hello World" ++ [9; 160]%N) = lit "Hello World".
Proof. reflexivity. Qed.

Example splitWhitespace_example :
  splitWhitespace (lit " a  b ") = [[]; lit "a"; lit "b"; []].
Proof. reflexivity. Qed.

Example ofZ_example : ofZ 404 = lit "404".
Proof. reflexivity. Qed.

Example aboutPattern_example :
  regexpTest Smoke.aboutPattern (lit "https://othrondir.github.io/QAbbalah/About/") = true /\
  regexpTest Smoke.aboutPattern (lit "https://othrondir.github.io/QAbbalah/") = false.
Proof. split; reflexivity. Qed.

(** ** Programs on a snapshot *)

Section Snapshot.
Import StaticPage.
Variable p : Page.

Lemma result_bind {E W A B} (h : handler E W) (m : prog E A) (f : A -> prog E B) (w : W) :
  result h (bind m f) w =
  match result h m w with
  | Resolved a => result h (f a) (world h m w)
  | Rejected e => Rejected e
  end.
Proof.
  unfold result, world. rewrite run_bind.
  destruct (run h m w) as [[[a | e] w1] tr1]; simpl; [| reflexivity].
  destruct (run h (f a) w1) as [[r w2] tr2]. reflexivity.
Qed.

Lemma result_try_catch {E W A} (h : handler E W) (m : prog E A) (c : thrown -> prog E A)
  (w : W) :
  result h (try_catch m c) w =
  match result h m w with
  | Resolved a => Resolved a
  | Rejected e => result h (c e) (world h m w)
  end.
Proof.
  unfold result, world. rewrite run_try_catch.
  destruct (run h m w) as [[[a | e] w1] tr1]; simpl; [reflexivity |].
  destruct (run h (c e) w1) as [[r w2] tr2]. reflexivity.
Qed.

Lemma eval_bind {A B} (m : prog pageE A) (f : A -> prog pageE B) :
  eval p (bind m f) =
  match eval p m with
  | Resolved a => eval p (f a)
  | Rejected e => Rejected e
  end.
Proof.
  unfold eval. rewrite result_bind.
  destruct (world (static p) m tt). reflexivity.
Qed.

Lemma eval_try_catch {A} (m : prog pageE A) (c : thrown -> prog pageE A) :
  eval p (try_catch m c) =
  match eval p m with
  | Resolved a => Resolved a
  | Rejected e => eval p (c e)
  end.
Proof.
  unfold eval. rewrite result_try_catch.
  destruct (world (static p) m tt). reflexivity.
Qed.

Lemma eval_await {X} (c : pageE X) : eval p (await c) = answer p X c.
Proof.
  unfold eval, result. rewrite run_await. reflexivity.
Qed.

Lemma eval_ret {A} (a : A) : eval p (Ret a) = Resolved a.
Proof. reflexivity. Qed.

Lemma resolve_nth (l : locator) (i : nat) (e : Element) :
  nth_error (resolve p l) i = Some e -> resolve p (Nth l i) = [e].
Proof. intros H. simpl. rewrite H. reflexivity. Qed.

(** A loop over [l.nth(i)] for [i] below [l.count()], when every round
    resolves, is a fold over the elements of [l] in document order. *)
Lemma eval_for_range_nth {St} (l : locator) (body : nat -> St -> prog pageE St)
  (g : St -> Element -> outcome St) :
  (forall i e acc, nth_error (resolve p l) i = Some e -> eval p (body i acc) = g acc e) ->
  forall (n start : nat) (acc : St),
    start + n = length (resolve p l) ->
    eval p (for_range n start body acc) =
    fold_left (fun r e => match r with
                          | Resolved a => g a e
                          | Rejected err => Rejected err
                          end)
              (skipn start (resolve p l)) (Resolved acc).
Proof.
  intros Hbody n. induction n as [| n IH]; intros start acc Hlen; simpl.
  - rewrite skipn_all2 by lia. reflexivity.
  - destruct (nth_error (resolve p l) start) as [e |] eqn:He.
    2:{ apply nth_error_None in He. lia. }
    assert (Hskip : skipn start (resolve p l) = e :: skipn (S start) (resolve p l)).
    { clear - He. revert start He.
      induction (resolve p l) as [| x xs IHxs]; intros [| start] He; simpl in *;
        try discriminate.
      - injection He as ->. reflexivity.
      - apply IHxs. exact He. }
    rewrite Hskip. cbn [fold_left]. rewrite eval_bind, (Hbody start e acc He).
    destruct (g acc e) as [acc' | err].
    + apply IH. lia.
    + generalize (skipn (S start) (resolve p l)). clear.
      intros rest. induction rest; simpl; auto.
Qed.

Lemma fold_left_resolved_app {A B} (f : B -> list A) (l : list B) (acc : list A) :
  fold_left (fun (r : outcome (list A)) e =>
               match r with
               | Resolved a => Resolved (a ++ f e)
               | Rejected err => Rejected err
               end) l (Resolved acc)
  = Resolved (acc ++ flat_map f l).
Proof.
  revert acc. induction l as [| x l IH]; intros acc; simpl.
  - rewrite app_nil_r. reflexivity.
  - rewrite IH, app_assoc. reflexivity.
Qed.

End Snapshot.

(** ** accessibilityHelpers.ts: [checkImagesHaveAlt] *)

Lemma altViolations_trim (alt src : option jsstring) (violations : list AccessibilityHelpers.A11yViolation) :
  match alt with
  | None =>
      violations ++ [{| AccessibilityHelpers.element := AccessibilityHelpers.imgElement src;
                        AccessibilityHelpers.issue := lit "Image missing alt attribute";
                        AccessibilityHelpers.severity := AccessibilityHelpers.critical |}]
  | Some a =>
      if JsString.eqb (trim a) []
      then violations ++ [{| AccessibilityHelpers.element := AccessibilityHelpers.imgElement src;
                             AccessibilityHelpers.issue :=
                               lit "Image has empty alt (verify if decorative)";
                             AccessibilityHelpers.severity := AccessibilityHelpers.minor |}]
      else violations
  end = violations ++ AccessibilityHelpers.altViolations alt src.
Proof.
  unfold AccessibilityHelpers.altViolations.
  destruct alt as [a |]; [| reflexivity].
  destruct (JsString.eqb (trim a) []) eqn:Heq.
  - apply eqb_eq, trim_nil_iff in Heq. rewrite Heq. reflexivity.
  - destruct (whitespaceOnly a) eqn:Hws.
    + apply trim_nil_iff, eqb_eq in Hws. congruence.
    + rewrite app_nil_r. reflexivity.
Qed.

(** C3. On every page, [checkImagesHaveAlt] returns, image by image in
    document order, what [altViolations] gives for the image's [alt] and
    [src] attributes: exactly one violation of severity [critical] with
    issue 'Image missing alt attribute' when [alt] is absent, exactly one
    of severity [minor] when [alt] is present and made of white space
    only, and none when [alt] trims to a non-empty string. *)
Theorem checkImagesHaveAlt_violations :
  forall p : StaticPage.Page,
    result (StaticPage.static p) AccessibilityHelpers.checkImagesHaveAlt tt =
      Resolved
        (flat_map
           (fun img =>
              AccessibilityHelpers.altViolations
                (StaticPage.getAttribute (StaticPage.attributes img) "alt")
                (StaticPage.getAttribute (StaticPage.attributes img) "src"))
           (StaticPage.query p (lit "img"))) /\
    (forall src, exists v,
        AccessibilityHelpers.altViolations None src = [v] /\
        AccessibilityHelpers.severity v = AccessibilityHelpers.critical /\
        AccessibilityHelpers.issue v = lit "Image missing alt attribute") /\
    (forall a src, whitespaceOnly a = true ->
        exists v,
          AccessibilityHelpers.altViolations (Some a) src = [v] /\
          AccessibilityHelpers.severity v = AccessibilityHelpers.minor) /\
    (forall a src, trim a <> [] ->
        AccessibilityHelpers.altViolations (Some a) src = []).
Proof.
  intros p. split; [| split; [| split]].
  - change (result (StaticPage.static p) AccessibilityHelpers.checkImagesHaveAlt tt)
      with (StaticPage.eval p AccessibilityHelpers.checkImagesHaveAlt).
    unfold AccessibilityHelpers.checkImagesHaveAlt.
    rewrite eval_bind, eval_await. cbn [StaticPage.answer].
    rewrite (eval_for_range_nth p AccessibilityHelpers.images _
               (fun acc img =>
                  Resolved (acc ++ AccessibilityHelpers.altViolations
                                     (StaticPage.getAttribute (StaticPage.attributes img) "alt")
                                     (StaticPage.getAttribute (StaticPage.attributes img) "src")))).
    + cbn [skipn]. rewrite fold_left_resolved_app. reflexivity.
    + intros i img acc Hnth.
      rewrite eval_bind, eval_await. cbn [StaticPage.answer]. unfold StaticPage.single.
      rewrite (resolve_nth p _ _ _ Hnth).
      rewrite eval_bind, eval_await. cbn [StaticPage.answer]. unfold StaticPage.single.
      rewrite (resolve_nth p _ _ _ Hnth).
      rewrite eval_ret, altViolations_trim. reflexivity.
    + reflexivity.
  - intros src. eexists. repeat split.
  - intros a src Hws. unfold AccessibilityHelpers.altViolations. rewrite Hws.
    eexists. repeat split.
  - intros a src Htrim. unfold AccessibilityHelpers.altViolations.
    destruct (whitespaceOnly a) eqn:Hws; [| reflexivity].
    apply trim_nil_iff in Hws. contradiction.
Qed.

Lemma checkImagesHaveAlt_violations_witness :
  result (StaticPage.static Fixtures.gallery) AccessibilityHelpers.checkImagesHaveAlt tt =
    Resolved
      [ {| AccessibilityHelpers.element :=
             lit "img[src=" ++ dquote ++ lit "/a.png" ++ dquote ++ lit "]";
           AccessibilityHelpers.issue := lit "Image missing alt attribute";
           AccessibilityHelpers.severity := AccessibilityHelpers.critical |};
        {| AccessibilityHelpers.element :=
             lit "img[src=" ++ dquote ++ lit "/b.png" ++ dquote ++ lit "]";
           AccessibilityHelpers.issue := lit "Image has empty alt (verify if decorative)";
           AccessibilityHelpers.severity := AccessibilityHelpers.minor |} ] /\
  (exists v,
      AccessibilityHelpers.altViolations (Some (lit "  ")) None = [v] /\
      AccessibilityHelpers.severity v = AccessibilityHelpers.minor) /\
  AccessibilityHelpers.altViolations (Some (lit "Logo")) None = [].
Proof.
  destruct (checkImagesHaveAlt_violations Fixtures.gallery) as (Hrun & _ & Hblank & Htext).
  split; [exact Hrun |].
  split; [apply Hblank; reflexivity | apply Htext; discriminate].
Defined.

(** ** Text readers *)

Lemma trimOrEmpty_trimmed (t : option jsstring) : trimmed (trimOrEmpty t).
Proof.
  destruct t as [s |]; unfold trimOrEmpty; simpl.
  - apply trim_trimmed.
  - split; intros c s' H; [discriminate |].
    destruct s'; discriminate.
Qed.

Lemma trimOrEmpty_blank (t : option jsstring) :
  (t = None \/ exists s, t = Some s /\ whitespaceOnly s = true) -> trimOrEmpty t = [].
Proof.
  intros [-> | (s & -> & Hws)]; unfold trimOrEmpty; simpl; [reflexivity |].
  apply trim_nil_iff. exact Hws.
Qed.

Section Reader.
Variable l : locator.

(** The shape shared by the text readers. *)
Let reader : prog pageE jsstring :=
  text <- await (TextContent l) ;; Ret (trimOrEmpty text).

Lemma reader_result {W} (h : handler pageE W) (w : W) :
  result h reader w =
  match fst (h _ (TextContent l) w) with
  | Resolved t => Resolved (trimOrEmpty t)
  | Rejected e => Rejected e
  end.
Proof.
  unfold result, reader. simpl.
  destruct (h _ (TextContent l) w) as [[t | e] w1]; reflexivity.
Qed.

End Reader.

Lemma textReaders_shape (l : locator) (op : prog pageE jsstring) :
  In (l, op) Readers.textReaders ->
  op = (text <- await (TextContent l) ;; Ret (trimOrEmpty text)).
Proof.
  unfold Readers.textReaders. simpl.
  intros [H | [H | [H | [H | [H | [H | [H | [H | [H | []]]]]]]]]];
    injection H as <- <-; reflexivity.
Qed.

(** C10. Each of the text-reading operations [getAuthorName],
    [getTagline], [getPostTitle], [getPostDate], [getPostBody],
    [getHeadingText], [getBioText], [getMainHeading] and
    [getCopyrightText], in every environment: a value it returns is a
    string without leading or trailing white space; it returns the
    trimmed text content of the located element, which is the empty
    string when that element has no text content ([null] or white space
    only); and on a page where the located element exists it does return.
    [BasePage.getElementText] is the one reader that does not trim: it
    settles as the reading of the text content does and returns that
    text as it is, and the empty string for [null]. *)
Theorem text_readers_return_trimmed :
  (forall (l : locator) (op : prog pageE jsstring),
      In (l, op) Readers.textReaders ->
      (forall W (h : handler pageE W) (w : W) (s : jsstring),
          result h op w = Resolved s -> trimmed s) /\
      (forall W (h : handler pageE W) (w : W) (t : option jsstring),
          fst (h _ (TextContent l) w) = Resolved t ->
          result h op w = Resolved (trimOrEmpty t) /\
          ((t = None \/ exists s, t = Some s /\ whitespaceOnly s = true) ->
           result h op w = Resolved [])) /\
      (forall (p : StaticPage.Page) (e : StaticPage.Element),
          StaticPage.resolve p l = [e] ->
          result (StaticPage.static p) op tt = Resolved (trimOrEmpty (StaticPage.text e)))) /\
  (forall (l : locator) W (h : handler pageE W) (w : W),
      result h (BasePage.getElementText l) w =
      outcome_map Readers.textOrEmpty (fst (h _ (TextContent l) w))).
Proof.
  split.
  - intros l op Hin. rewrite (textReaders_shape l op Hin).
    split; [| split].
    + intros W h w s Hres. rewrite reader_result in Hres.
      destruct (fst (h _ (TextContent l) w)) as [t | e]; [| discriminate].
      injection Hres as <-. apply trimOrEmpty_trimmed.
    + intros W h w t Hcall. rewrite reader_result, Hcall.
      split; [reflexivity |].
      intros Hblank. rewrite (trimOrEmpty_blank t Hblank). reflexivity.
    + intros p e Hres. rewrite reader_result. simpl.
      unfold StaticPage.single. rewrite Hres. reflexivity.
  - intros l W h w. unfold BasePage.getElementText.
    unfold result, jsstring. simpl.
    destruct (h (option (list N)) (TextContent l) w) as [[[t |] | e] w1]; reflexivity.
Qed.

Lemma text_readers_return_trimmed_witness :
  result (StaticPage.static Readers.profilePage) ProfileComponent.getAuthorName tt
    = Resolved (lit "Alejandro") /\
  trimmed (lit "Alejandro") /\
  result (StaticPage.static Readers.profilePage) ProfileComponent.getTagline tt
    = Resolved [].
Proof.
  destruct (proj1 text_readers_return_trimmed ProfileComponent.authorName
              ProfileComponent.getAuthorName (or_introl eq_refl))
    as (Htrim & _ & Hpage).
  destruct (proj1 text_readers_return_trimmed ProfileComponent.tagline
              ProfileComponent.getTagline (or_intror (or_introl eq_refl)))
    as (_ & Hcall & _).
  split; [| split].
  - exact (Hpage Readers.profilePage _ eq_refl).
  - exact (Htrim unit (StaticPage.static Readers.profilePage) tt (lit "Alejandro")
             (Hpage Readers.profilePage _ eq_refl)).
  - exact (proj2 (Hcall unit (StaticPage.static Readers.profilePage) tt None eq_refl)
             (or_introl eq_refl)).
Defined.

(** On a page whose author name is padded with white space,
    [getElementText] returns the padding too. *)
Lemma getElementText_keeps_white_space :
  result (StaticPage.static Readers.profilePage)
    (BasePage.getElementText ProfileComponent.authorName) tt
  = Resolved ([32; 10]%N ++ lit "Alejandro" ++ [9; 160]%N) /\
  ~ trimmed ([32; 10]%N ++ lit "Alejandro" ++ [9; 160]%N).
Proof.
  split; [reflexivity |].
  intros [Hfirst _]. specialize (Hfirst 32%N _ eq_refl). discriminate Hfirst.
Qed.

(** ** BlogPostComponent.ts: [getPostCount] and the smoke test *)

Lemma getPostCount_result {W} (h : handler pageE W) (w : W) :
  result h BlogPostComponent.getPostCount w =
  fst (h nat (Count BlogPostComponent.postCards)
         (snd (h unit (WaitForVisible BlogPostComponent.postsContainer (Some 10000%Z)) w))).
Proof.
  unfold result, BlogPostComponent.getPostCount. simpl.
  destruct (h unit (WaitForVisible BlogPostComponent.postsContainer (Some 10000%Z)) w)
    as [[[] | e] w1]; simpl;
    destruct (h nat (Count BlogPostComponent.postCards) w1) as [[n | e'] w2];
    reflexivity.
Qed.

Lemma expect_toBeGreaterThan_result {E W} (h : handler E W) (w : W) (actual expected : nat) :
  result h (expect_toBeGreaterThan actual expected) w = Resolved tt <-> expected < actual.
Proof.
  unfold expect_toBeGreaterThan, result.
  destruct (Nat.ltb_spec expected actual); simpl; split; try lia; try reflexivity.
  discriminate.
Qed.

(** C5. [getPostCount] returns what the post-card locator counts,
    whether or not the wait for the posts container succeeded: in any
    environment its outcome is that of the [count] call made after the
    wait, and on a page it is the number of elements the post-card
    locator matches.  The smoke test 'should display at least one blog
    post', once the home page has been reached, passes if and only if
    that count is greater than 0. *)
Theorem post_count_smoke_check :
  (forall W (h : handler pageE W) (w : W),
      result h BlogPostComponent.getPostCount w =
      fst (h nat (Count BlogPostComponent.postCards)
             (snd (h unit (WaitForVisible BlogPostComponent.postsContainer (Some 10000%Z)) w)))) /\
  (forall p : StaticPage.Page,
      result (StaticPage.static p) HomePage.getRecentPostsCount tt =
      Resolved (length (StaticPage.query p (lit "article.archive__item, .archive__item")))) /\
  (forall W (h : handler pageE W) (w : W) (postCount : nat),
      result h HomePage.navigate w = Resolved tt ->
      result h HomePage.getRecentPostsCount (world h HomePage.navigate w)
        = Resolved postCount ->
      (result h Smoke.should_display_at_least_one_blog_post w = Resolved tt
       <-> 0 < postCount)).
Proof.
  split; [| split].
  - intros W h w. apply getPostCount_result.
  - intros p. unfold HomePage.getRecentPostsCount. rewrite getPostCount_result. reflexivity.
  - intros W h w postCount Hnav Hcount.
    unfold Smoke.should_display_at_least_one_blog_post.
    rewrite result_bind, Hnav, result_bind, Hcount.
    apply expect_toBeGreaterThan_result.
Qed.

Lemma post_count_smoke_check_witness :
  result (StaticPage.static Blog.teaserPage) Smoke.should_display_at_least_one_blog_post tt
    = Resolved tt <-> 0 < 2.
Proof.
  exact (proj2 (proj2 post_count_smoke_check) unit (StaticPage.static Blog.teaserPage) tt 2
           eq_refl eq_refl).
Defined.

Example getPostCount_swallows_wait :
  run (StaticPage.static Blog.teaserPage) BlogPostComponent.getPostCount tt =
  (Resolved 2, tt,
   [ Event (WaitForVisible BlogPostComponent.postsContainer (Some 10000%Z))
       (Rejected StaticPage.timeoutError);
     Event (Count BlogPostComponent.postCards) (Resolved 2) ]).
Proof. reflexivity. Qed.

(** ** BlogPostComponent.ts: [findPostContaining] *)

(** [findIndex] gives -1 exactly when no element satisfies the test. *)
Lemma findIndexFrom_none {A} (pred : A -> bool) (l : list A) (i : Z) :
  (0 <= i)%Z ->
  (BlogPostComponent.findIndexFrom pred l i = (-1)%Z <->
   forallb (fun x => negb (pred x)) l = true).
Proof.
  revert i. induction l as [| x l IH]; intros i Hi; simpl.
  - tauto.
  - destruct (pred x); simpl.
    + split; [lia | discriminate].
    + apply IH. lia.
Qed.

(** Otherwise it gives the least index of an element that satisfies it. *)
Lemma findIndexFrom_least {A} (pred : A -> bool) (l : list A) (i : Z) (k : nat) (x : A) :
  nth_error l k = Some x -> pred x = true ->
  (forall j y, j < k -> nth_error l j = Some y -> pred y = false) ->
  BlogPostComponent.findIndexFrom pred l i = (i + Z.of_nat k)%Z.
Proof.
  revert i k. induction l as [| a l IH]; intros i k Hnth Hx Hleast.
  - destruct k; discriminate.
  - destruct k as [| k]; simpl in *.
    + injection Hnth as ->. rewrite Hx. lia.
    + rewrite (Hleast 0 a) by (try lia; reflexivity).
      rewrite (IH (i + 1)%Z k Hnth Hx).
      * lia.
      * intros j y Hj Hy. apply (Hleast (S j) y); [lia | exact Hy].
Qed.

(** What [findPostContaining] does with the list of titles: [null] when
    no title of the list contains the text, and otherwise the outcome of
    [getPostByIndex] at the least index of the list of titles whose title
    contains it. *)
Lemma findPostContaining_by_title_index {W} (h : handler pageE W) (w : W)
  (toLowerCase : jsstring -> jsstring) (searchText : jsstring) (posts : list jsstring) :
  result h BlogPostComponent.getAllPostTitles w = Resolved posts ->
  (forallb (fun t => negb (includes (toLowerCase t) (toLowerCase searchText))) posts = true ->
   result h (BlogPostComponent.findPostContaining toLowerCase searchText) w = Resolved None) /\
  (forall k t,
      nth_error posts k = Some t ->
      includes (toLowerCase t) (toLowerCase searchText) = true ->
      (forall j y, j < k -> nth_error posts j = Some y ->
                   includes (toLowerCase y) (toLowerCase searchText) = false) ->
      result h (BlogPostComponent.findPostContaining toLowerCase searchText) w =
      outcome_map Some
        (result h (BlogPostComponent.getPostByIndex k)
           (world h BlogPostComponent.getAllPostTitles w))).
Proof.
  intros Hposts. unfold BlogPostComponent.findPostContaining. split.
  - intros Hnone. rewrite result_bind, Hposts.
    unfold BlogPostComponent.findIndex.
    apply (findIndexFrom_none _ posts 0%Z) in Hnone; [| lia].
    rewrite Hnone. reflexivity.
  - intros k t Hnth Ht Hleast. rewrite result_bind, Hposts.
    unfold BlogPostComponent.findIndex.
    rewrite (findIndexFrom_least _ posts 0%Z k t Hnth Ht Hleast).
    destruct (Z.leb_spec 0 (0 + Z.of_nat k)); [| lia].
    replace (Z.to_nat (0 + Z.of_nat k)) with k by lia.
    rewrite result_bind.
    destruct (result h (BlogPostComponent.getPostByIndex k)
                (world h BlogPostComponent.getAllPostTitles w)); reflexivity.
Qed.

Lemma findIndexFrom_cases {A} (pred : A -> bool) (l : list A) (i : Z) :
  (BlogPostComponent.findIndexFrom pred l i = (-1)%Z /\
   forallb (fun x => negb (pred x)) l = true) \/
  (exists k x,
      BlogPostComponent.findIndexFrom pred l i = (i + Z.of_nat k)%Z /\
      nth_error l k = Some x /\ pred x = true /\
      forall j y, j < k -> nth_error l j = Some y -> pred y = false).
Proof.
  revert i. induction l as [| a l IH]; intros i; simpl.
  - left. split; reflexivity.
  - destruct (pred a) eqn:Ha; simpl.
    + right. exists 0, a.
      split; [lia |]. split; [reflexivity |]. split; [exact Ha |].
      intros j y Hj. lia.
    + destruct (IH (i + 1)%Z) as [(Hnone & Hall) | (k & x & Hk & Hnth & Hx & Hleast)].
      * left. split; assumption.
      * right. exists (S k), x.
        split; [lia |]. split; [exact Hnth |]. split; [exact Hx |].
        intros [| j] y Hj Hy; simpl in Hy.
        -- injection Hy as <-. exact Ha.
        -- apply (Hleast j y); [lia | exact Hy].
Qed.

(** *** Pages on which titles and cards line up *)

Section Aligned.
Variable p : StaticPage.Page.
Variable toLowerCase : jsstring -> jsstring.
Variable searchText : jsstring.

Let links : list StaticPage.Element := StaticPage.resolve p BlogPostComponent.titleLocators.
Let titleOf (a : StaticPage.Element) : jsstring := trimOrEmpty (StaticPage.text a).
Let matches (t : jsstring) : bool := includes (toLowerCase t) (toLowerCase searchText).

(** No title link is blank. *)
Hypothesis titles_not_blank :
  forall a, In a links -> exists t, StaticPage.text a = Some t /\ trim t <> [].

(** The k-th title link of the page is the title element of the k-th card. *)
Hypothesis titles_in_cards :
  forall k a,
    nth_error links k = Some a ->
    StaticPage.resolve p
      (First (Within (Nth BlogPostComponent.postCards k) BlogPostComponent.titleSelector))
    = [a].

Lemma pushTrimmed_not_blank (acc : list jsstring) (a : StaticPage.Element) :
  In a links -> pushTrimmed acc (StaticPage.text a) = acc ++ [titleOf a].
Proof.
  intros Hin. destruct (titles_not_blank a Hin) as (t & Ht & Hne).
  unfold pushTrimmed, titleOf, trimOrEmpty. rewrite Ht. simpl.
  destruct (trim t); [congruence | reflexivity].
Qed.

Lemma getAllPostTitles_aligned :
  StaticPage.eval p BlogPostComponent.getAllPostTitles = Resolved (map titleOf links).
Proof.
  unfold BlogPostComponent.getAllPostTitles.
  rewrite eval_bind, eval_await. cbn [StaticPage.answer].
  rewrite (eval_for_range_nth p BlogPostComponent.titleLocators _
             (fun acc a => Resolved (pushTrimmed acc (StaticPage.text a)))).
  - cbn [skipn]. fold links.
    assert (Hfold : forall (rest : list StaticPage.Element) (acc : list jsstring),
               (forall a, In a rest -> In a links) ->
               fold_left
                 (fun (r : outcome (list jsstring)) (e : StaticPage.Element) =>
                    match r with
                    | Resolved a => Resolved (pushTrimmed a (StaticPage.text e))
                    | Rejected err => Rejected err
                    end) rest (Resolved acc)
               = Resolved (acc ++ map titleOf rest)).
    { induction rest as [| a rest IH]; intros acc Hsub; simpl.
      - rewrite app_nil_r. reflexivity.
      - rewrite pushTrimmed_not_blank by (apply Hsub; left; reflexivity).
        rewrite IH by (intros b Hb; apply Hsub; right; exact Hb).
        rewrite <- app_assoc. reflexivity. }
    apply (Hfold links []). auto.
  - intros i a acc Hnth.
    rewrite eval_bind, eval_await. cbn [StaticPage.answer]. unfold StaticPage.single.
    rewrite (resolve_nth p _ _ _ Hnth). reflexivity.
  - reflexivity.
Qed.

Lemma getPostByIndex_title (k : nat) (a : StaticPage.Element)
  (data : BlogPostComponent.BlogPostData) :
  nth_error links k = Some a ->
  StaticPage.eval p (BlogPostComponent.getPostByIndex k) = Resolved data ->
  BlogPostComponent.title data = titleOf a.
Proof.
  intros Hnth. unfold BlogPostComponent.getPostByIndex. cbv zeta.
  rewrite eval_bind, eval_await. cbn [StaticPage.answer]. unfold StaticPage.single at 1.
  rewrite (titles_in_cards k a Hnth).
  repeat (rewrite eval_bind;
          match goal with
          | |- context [StaticPage.eval p ?m] =>
              destruct (StaticPage.eval p m); [| discriminate]
          end).
  rewrite eval_ret. intros H. injection H as <-. reflexivity.
Qed.

(** On such a page [findPostContaining] does what its comment says: it
    returns [null] exactly when no title contains the text, and the data
    it returns are those of the first card whose title contains it. *)
Lemma findPostContaining_aligned :
  (StaticPage.eval p (BlogPostComponent.findPostContaining toLowerCase searchText)
   = Resolved None
   <-> forall a, In a links -> matches (titleOf a) = false) /\
  (forall data,
      StaticPage.eval p (BlogPostComponent.findPostContaining toLowerCase searchText)
      = Resolved (Some data) ->
      exists k a,
        nth_error links k = Some a /\
        BlogPostComponent.title data = titleOf a /\
        matches (BlogPostComponent.title data) = true /\
        StaticPage.eval p (BlogPostComponent.getPostByIndex k) = Resolved data /\
        forall j b, j < k -> nth_error links j = Some b -> matches (titleOf b) = false).
Proof.
  unfold BlogPostComponent.findPostContaining.
  rewrite eval_bind, getAllPostTitles_aligned.
  unfold BlogPostComponent.findIndex. fold matches.
  destruct (findIndexFrom_cases matches (map titleOf links) 0%Z)
    as [(Hnone & Hall) | (k & t & Hk & Hnth & Ht & Hleast)].
  - rewrite Hnone. simpl. split.
    + split; [| reflexivity]. intros _ a Hin.
      rewrite forallb_forall in Hall.
      specialize (Hall (titleOf a) (in_map titleOf links a Hin)).
      destruct (matches (titleOf a)); [discriminate | reflexivity].
    + intros data H. discriminate.
  - rewrite Hk. destruct (Z.leb_spec 0 (0 + Z.of_nat k)); [| lia].
    replace (Z.to_nat (0 + Z.of_nat k)) with k by lia.
    rewrite nth_error_map in Hnth.
    destruct (nth_error links k) as [a |] eqn:Ha; [| discriminate].
    simpl in Hnth. injection Hnth as <-.
    rewrite eval_bind. split.
    + split.
      * destruct (StaticPage.eval p (BlogPostComponent.getPostByIndex k)); discriminate.
      * intros Hno. apply nth_error_In in Ha. rewrite (Hno a Ha) in Ht. discriminate.
    + intros data Hdata.
      destruct (StaticPage.eval p (BlogPostComponent.getPostByIndex k)) as [d | e] eqn:Hd;
        [| discriminate].
      rewrite eval_ret in Hdata. injection Hdata as <-.
      exists k, a. rewrite (getPostByIndex_title k a d Ha Hd).
      repeat split; auto.
      intros j b Hj Hb. apply (Hleast j (titleOf b)); [exact Hj |].
      rewrite nth_error_map, Hb. reflexivity.
Qed.

End Aligned.

(** C8. On the page [Blog.teaserPage] the first card's title link has
    blank text and the second card is titled 'Hello World'.  The list of
    titles skips the blank one, so the index found in it (0) is not the
    index of the matching card (1): searching for 'hello',
    [findPostContaining] returns the data of the first card, whose
    title does not contain the text, instead of those of the second. *)
Theorem findPostContaining_returns_another_post :
  result (StaticPage.static Blog.teaserPage) BlogPostComponent.getAllPostTitles tt
    = Resolved [lit "Hello World"] /\
  result (StaticPage.static Blog.teaserPage)
    (BlogPostComponent.findPostContaining Blog.asciiLower (lit "hello")) tt
    = Resolved (Some {| BlogPostComponent.title := [];
                        BlogPostComponent.date := lit "2024-01-01";
                        BlogPostComponent.description := lit "First";
                        BlogPostComponent.tags := [];
                        BlogPostComponent.url := Some (lit "/one/") |}) /\
  includes (Blog.asciiLower []) (Blog.asciiLower (lit "hello")) = false /\
  result (StaticPage.static Blog.teaserPage) (BlogPostComponent.getPostByIndex 1) tt
    = Resolved {| BlogPostComponent.title := lit "Hello World";
                  BlogPostComponent.date := lit "2024-02-02";
                  BlogPostComponent.description := lit "Second";
                  BlogPostComponent.tags := [];
                  BlogPostComponent.url := Some (lit "/two/") |}.
Proof. repeat split. Qed.

(** ** testHelpers.ts: [verifyLinksNotBroken] *)

Lemma eval_link_round (p : StaticPage.Page) (i : nat) (a : StaticPage.Element)
  (brokenLinks : list jsstring) :
  nth_error (StaticPage.resolve p TestHelpers.links) i = Some a ->
  StaticPage.eval p
    (href <- await (GetAttribute (Nth TestHelpers.links i) "href") ;;
     match href with
     | Some href =>
         if truthy href && negb (startsWith href (lit "#"))
            && negb (startsWith href (lit "javascript:"))
         then
           try_catch
             (base <- await PageUrl ;;
              absoluteUrl <- await (NewURL href base) ;;
              status <- await (RequestHead absoluteUrl) ;;
              if (400 <=? status)%Z
              then Ret (brokenLinks ++ [TestHelpers.brokenEntry href status])
              else Ret brokenLinks)
             (fun _ => Ret brokenLinks)
         else Ret brokenLinks
     | None => Ret brokenLinks
     end)
  = Resolved (brokenLinks ++ LinkHealth.brokenLink p a).
Proof.
  intros Hnth.
  rewrite eval_bind, eval_await. cbn [StaticPage.answer]. unfold StaticPage.single.
  rewrite (resolve_nth p _ _ _ Hnth).
  unfold LinkHealth.brokenLink.
  destruct (StaticPage.getAttribute (StaticPage.attributes a) "href") as [href |];
    [| rewrite app_nil_r; reflexivity].
  destruct (truthy href && negb (startsWith href (lit "#"))
            && negb (startsWith href (lit "javascript:")));
    [| rewrite app_nil_r; reflexivity].
  unfold LinkHealth.headEntry.
  rewrite eval_try_catch, eval_bind, eval_await. cbn [StaticPage.answer].
  rewrite eval_bind, eval_await. cbn [StaticPage.answer].
  destruct (StaticPage.resolveUrl p href (StaticPage.url p)) as [absoluteUrl |];
    [| rewrite app_nil_r; reflexivity].
  rewrite eval_bind, eval_await. cbn [StaticPage.answer].
  destruct (StaticPage.headStatus p absoluteUrl) as [status | e];
    [| rewrite app_nil_r; reflexivity].
  destruct (400 <=? status)%Z; [reflexivity | rewrite app_nil_r; reflexivity].
Qed.

(** C4, as amended.  On every page [verifyLinksNotBroken] returns (it
    does not throw, whatever the URL constructor and the requests do)
    the entries, in document order, of the anchors whose [href] is a
    non-empty string that starts neither with '#' nor with 'javascript:'
    and whose HEAD request resolves with a status of 400 or more, each
    entry being the [href] followed by the status in parentheses; an
    anchor whose reference does not parse or whose request fails gives
    no entry. *)
Theorem verifyLinksNotBroken_entries :
  forall p : StaticPage.Page,
    result (StaticPage.static p) TestHelpers.verifyLinksNotBroken tt =
      Resolved (flat_map (LinkHealth.brokenLink p) (StaticPage.query p (lit "a[href]"))) /\
    (forall (a : StaticPage.Element) (entry : jsstring),
        In entry (LinkHealth.brokenLink p a) <->
        exists href absoluteUrl status,
          StaticPage.getAttribute (StaticPage.attributes a) "href" = Some href /\
          href <> [] /\
          startsWith href (lit "#") = false /\
          startsWith href (lit "javascript:") = false /\
          StaticPage.resolveUrl p href (StaticPage.url p) = Some absoluteUrl /\
          StaticPage.headStatus p absoluteUrl = Resolved status /\
          (400 <= status)%Z /\
          entry = href ++ lit " (" ++ ofZ status ++ lit ")").
Proof.
  intros p. split.
  - change (result (StaticPage.static p) TestHelpers.verifyLinksNotBroken tt)
      with (StaticPage.eval p TestHelpers.verifyLinksNotBroken).
    unfold TestHelpers.verifyLinksNotBroken.
    rewrite eval_bind, eval_await. cbn [StaticPage.answer].
    rewrite (eval_for_range_nth p TestHelpers.links _
               (fun acc a => Resolved (acc ++ LinkHealth.brokenLink p a))).
    + cbn [skipn]. rewrite fold_left_resolved_app. reflexivity.
    + intros i a acc Hnth. apply eval_link_round. exact Hnth.
    + reflexivity.
  - intros a entry. unfold LinkHealth.brokenLink, LinkHealth.headEntry. split.
    + destruct (StaticPage.getAttribute (StaticPage.attributes a) "href") as [href |];
        [| intros []].
      destruct (truthy href) eqn:Htruthy; simpl; [| intros []].
      destruct (startsWith href (lit "#")) eqn:Hhash; simpl; [intros [] |].
      destruct (startsWith href (lit "javascript:")) eqn:Hjs; simpl; [intros [] |].
      destruct (StaticPage.resolveUrl p href (StaticPage.url p)) as [absoluteUrl |] eqn:Hurl;
        [| intros []].
      destruct (StaticPage.headStatus p absoluteUrl) as [status | e] eqn:Hhead;
        [| intros []].
      destruct (Z.leb_spec 400 status) as [Hge | Hlt]; [| intros []].
      intros [<- | []].
      exists href, absoluteUrl, status. repeat split; auto.
      intros ->. discriminate.
    + intros (href & absoluteUrl & status & Hattr & Hne & Hhash & Hjs & Hurl & Hhead & Hge & ->).
      rewrite Hattr, Hhash, Hjs. destruct href as [| c href]; [congruence |].
      cbn [truthy andb negb]. rewrite Hurl, Hhead.
      destruct (Z.leb_spec 400 status); [left; reflexivity | lia].
Qed.

Lemma verifyLinksNotBroken_entries_witness :
  result (StaticPage.static LinkHealth.linksPage) TestHelpers.verifyLinksNotBroken tt =
    Resolved [lit "/gone (410)"] /\
  In (lit "/gone (410)")
     (LinkHealth.brokenLink LinkHealth.linksPage
        (Fixtures.node 3 [("href"%string, lit "/gone")] None)).
Proof.
  destruct (verifyLinksNotBroken_entries LinkHealth.linksPage) as (Hrun & Hentry).
  split; [exact Hrun |].
  apply Hentry. exists (lit "/gone"), (lit "/gone"), 410%Z.
  repeat split; try reflexivity; [discriminate | lia].
Defined.

(** C4 as stated does not hold: the anchor of [LinkHealth.notFoundPage]
    has an empty [href], which starts neither with '#' nor with
    'javascript:', and its HEAD request resolves with 404; the statement lists
    it, the code skips it. *)
Lemma verifyLinksNotBroken_skips_empty_href :
  flat_map (LinkHealth.claimedBrokenLink LinkHealth.notFoundPage)
    (StaticPage.query LinkHealth.notFoundPage (lit "a[href]")) = [lit " (404)"] /\
  result (StaticPage.static LinkHealth.notFoundPage) TestHelpers.verifyLinksNotBroken tt
    = Resolved [] /\
  result (StaticPage.static LinkHealth.notFoundPage) TestHelpers.verifyLinksNotBroken tt
    <> Resolved (flat_map (LinkHealth.claimedBrokenLink LinkHealth.notFoundPage)
                   (StaticPage.query LinkHealth.notFoundPage (lit "a[href]"))).
Proof.
  split; [reflexivity |]. split; [reflexivity |]. discriminate.
Qed.

(** ** playwright.config.ts *)

(** C7, as amended.  The configuration names the base URL
    'https://othrondir.github.io/QAbbalah/', exactly four reporters
    (html, list, allure-playwright and json, the last one writing to
    'test-results/results.json'), a test timeout of 30000 ms and an
    expect timeout of 10000 ms; its retry count is 2 when the CI
    variable is set to a non-empty value and 0 otherwise. *)
Theorem config_values :
  forall CI : option jsstring,
    Config.baseURL (Config.use (Config.config CI))
      = "https://othrondir.github.io/QAbbalah/"%string /\
    map Config.reporterName (Config.reporter (Config.config CI))
      = ["html"; "list"; "allure-playwright"; "json"]%string /\
    (forall r, In r (Config.reporter (Config.config CI)) ->
               Config.reporterName r = "json"%string ->
               Config.reporterOptions r
                 = [("outputFile", "test-results/results.json")]%string) /\
    Config.timeout (Config.config CI) = 30000%Z /\
    Config.expectTimeout (Config.config CI) = 10000%Z /\
    Config.retries (Config.config CI)
      = match CI with
        | Some (_ :: _) => 2%Z
        | Some [] | None => 0%Z
        end.
Proof.
  intros CI. repeat split.
  - intros r Hin Hname. simpl in Hin.
    destruct Hin as [<- | [<- | [<- | [<- | []]]]]; try discriminate Hname.
    reflexivity.
  - destruct CI as [[| c s] |]; reflexivity.
Qed.

Lemma config_values_witness :
  Config.reporterOptions
    {| Config.reporterName := "json";
       Config.reporterOptions := [("outputFile", "test-results/results.json")]%string |}
  = [("outputFile", "test-results/results.json")]%string.
Proof.
  apply (proj1 (proj2 (proj2 (config_values None)))).
  - simpl. right. right. right. left. reflexivity.
  - reflexivity.
Defined.

(** C7 as stated does not hold: with the CI variable set to the empty
    string the retry count is 0, not 2. *)
Lemma config_retries_with_empty_CI :
  Config.retries (Config.config (Some [])) = 0%Z /\
  Config.retries (Config.config (Some [])) <> 2%Z.
Proof. split; [reflexivity | discriminate]. Qed.

(** ** NavigationComponent.ts: [goToAbout] and the smoke test *)

Lemma result_await {E W X} (h : handler E W) (c : E X) (w : W) :
  result h (await c) w = fst (h X c w).
Proof. unfold result. rewrite run_await. reflexivity. Qed.

(** Case analysis on the next call answered by the environment. *)
Ltac next_call h :=
  match goal with
  | |- context [h ?X ?c ?w] =>
      let r := fresh "r" in
      let e := fresh "e" in
      let w' := fresh "w" in
      destruct (h X c w) as [[r | e] w']; simpl
  end.

Lemma goToAbout_calls {W} (h : handler pageE W) (w : W) :
  result h NavigationComponent.goToAbout w = Resolved tt ->
  (fst (h bool (IsVisible NavigationComponent.mobileMenuToggle) w) = Resolved true /\
   trace h NavigationComponent.goToAbout w = Browser.aboutCallsWithMenu) \/
  (fst (h bool (IsVisible NavigationComponent.mobileMenuToggle) w) = Resolved false /\
   trace h NavigationComponent.goToAbout w = Browser.aboutCallsWithoutMenu).
Proof.
  unfold result, trace, NavigationComponent.goToAbout,
    Browser.aboutCallsWithMenu, Browser.aboutCallsWithoutMenu.
  simpl. next_call h; [| discriminate].
  destruct r; simpl.
  - next_call h; [| discriminate]. next_call h; [| discriminate].
    next_call h; [| discriminate]. next_call h; [| discriminate].
    intros _. left. repeat match goal with u : unit |- _ => destruct u end.
    split; reflexivity.
  - next_call h; [| discriminate]. next_call h; [| discriminate].
    intros _. right. repeat match goal with u : unit |- _ => destruct u end.
    split; reflexivity.
Qed.

(** C6, as amended.  When [goToAbout] completes it has made, in this
    order, the visibility check of the menu toggle, then (only if the
    toggle is visible) the click on the toggle and the wait of 300 ms,
    then the click on the About link and the wait for network idle.  It
    does not by itself make the URL match [/about/i]: in an environment
    that reports the page URL to [toHaveURL], once the home page has been
    reached and [goToAbout] has completed, the smoke test 'should navigate
    to About page' passes if and only if the URL then matches
    [/about/i]. *)
Theorem goToAbout_then_url_check :
  forall (W : Type) (h : handler pageE W) (urlOf : W -> jsstring) (w : W),
    Browser.reportsUrl h urlOf ->
    result h HomePage.navigate w = Resolved tt ->
    result h NavigationComponent.goToAbout (world h HomePage.navigate w) = Resolved tt ->
    ((fst (h bool (IsVisible NavigationComponent.mobileMenuToggle)
             (world h HomePage.navigate w)) = Resolved true /\
      trace h NavigationComponent.goToAbout (world h HomePage.navigate w)
        = Browser.aboutCallsWithMenu) \/
     (fst (h bool (IsVisible NavigationComponent.mobileMenuToggle)
             (world h HomePage.navigate w)) = Resolved false /\
      trace h NavigationComponent.goToAbout (world h HomePage.navigate w)
        = Browser.aboutCallsWithoutMenu)) /\
    (result h Smoke.should_navigate_to_About_page w = Resolved tt <->
     regexpTest Smoke.aboutPattern
       (urlOf (world h NavigationComponent.goToAbout (world h HomePage.navigate w)))
     = true).
Proof.
  intros W h urlOf w Hurl Hnav Habout. split.
  - apply goToAbout_calls. exact Habout.
  - unfold Smoke.should_navigate_to_About_page.
    rewrite result_bind, Hnav, result_bind, Habout, result_await.
    apply Hurl.
Qed.

Lemma browse_reportsUrl (site : Browser.Site) :
  Browser.reportsUrl (Browser.browse site) (fun current => current).
Proof.
  intros re current. simpl.
  destruct (regexpTest re current); split; congruence.
Qed.

Lemma goToAbout_then_url_check_witness :
  trace (Browser.browse Browser.aboutSite) NavigationComponent.goToAbout Fixtures.siteUrl
    = Browser.aboutCallsWithoutMenu /\
  (result (Browser.browse Browser.aboutSite) Smoke.should_navigate_to_About_page []
     = Resolved tt <->
   regexpTest Smoke.aboutPattern Browser.aboutUrl = true).
Proof.
  destruct (goToAbout_then_url_check jsstring (Browser.browse Browser.aboutSite)
              (fun current => current) [] (browse_reportsUrl Browser.aboutSite)
              eq_refl eq_refl) as (Hcalls & Htest).
  split; [| exact Htest].
  destruct Hcalls as [(Hvisible & _) | (_ & Htrace)]; [discriminate Hvisible | exact Htrace].
Defined.

(** C6 as stated does not hold: on a site whose 'About' menu item leads
    to [info/], [goToAbout] completes and the URL does not match
    [/about/i]; the smoke test fails on its assertion. *)
Lemma goToAbout_url_need_not_match :
  result (Browser.browse Browser.infoSite) NavigationComponent.goToAbout Fixtures.siteUrl
    = Resolved tt /\
  world (Browser.browse Browser.infoSite) NavigationComponent.goToAbout Fixtures.siteUrl
    = Browser.infoUrl /\
  regexpTest Smoke.aboutPattern Browser.infoUrl = false /\
  result (Browser.browse Browser.infoSite) Smoke.should_navigate_to_About_page []
    = Rejected assertionError.
Proof. repeat split. Qed.

(** ** Failures: made up, swallowed, or passed on *)

Lemma rejections_app {E} (tr1 tr2 : list (event E)) :
  rejections (tr1 ++ tr2) = rejections tr1 ++ rejections tr2.
Proof. unfold rejections. apply flat_map_app. Qed.

Lemma transparent_ret {E A} (a : A) : transparent (E:=E) (Ret a).
Proof. intros W h w. reflexivity. Qed.

Lemma transparent_await {E X} (c : E X) : transparent (await c).
Proof.
  intros W h w. unfold result, trace. rewrite run_await. simpl.
  destruct (fst (h X c w)); reflexivity.
Qed.

Lemma transparent_bind {E A B} (m : prog E A) (f : A -> prog E B) :
  transparent m -> (forall a, transparent (f a)) -> transparent (bind m f).
Proof.
  intros Hm Hf W h w. specialize (Hm W h w).
  unfold result, trace in *. rewrite run_bind.
  destruct (run h m w) as [[[a | e] w1] tr1]; simpl in *.
  - specialize (Hf a W h w1). unfold result, trace in Hf.
    destruct (run h (f a) w1) as [[r w2] tr2]; simpl in *.
    rewrite rejections_app, Hm. exact Hf.
  - exact Hm.
Qed.

Lemma transparent_for_range {E St} (body : nat -> St -> prog E St) :
  (forall i acc, transparent (body i acc)) ->
  forall n start acc, transparent (for_range n start body acc).
Proof.
  intros Hbody n. induction n as [| n IH]; intros start acc; simpl.
  - apply transparent_ret.
  - apply transparent_bind; [apply Hbody | intros acc'; apply IH].
Qed.

(** Transparency of a program assembled from awaits, sequencing, loops
    and conditionals. *)
Ltac transparency :=
  repeat first
    [ apply transparent_ret
    | apply transparent_await
    | apply transparent_for_range; intros
    | apply transparent_bind; [| intros]
    | match goal with
      | |- transparent (if ?b then _ else _) => destruct b
      | |- transparent (match ?x with _ => _ end) => destruct x
      end ].

Create HintDb operations.
#[local] Hint Unfold
  BasePage.navigate BasePage.waitForPageLoad BasePage.getCurrentUrl BasePage.getPageTitle
  BasePage.verifyPageTitle BasePage.waitForElement BasePage.isElementVisible
  BasePage.getElementText BasePage.clickElement BasePage.scrollToElement
  BasePage.takeScreenshot BasePage.getAttribute BasePage.verifyElementText
  BasePage.verifyElementVisible BasePage.verifyElementAttribute BasePage.getElementCount
  BasePage.hoverElement BasePage.pressKey BasePage.waitForNavigation
  HomePage.navigate HomePage.waitForHomePageContent HomePage.verifyAllSectionsVisible
  HomePage.getMainHeading HomePage.hasRecentPostsSection HomePage.verifyPageLoaded
  HomePage.navigateToPost HomePage.getVisibleSections
  AboutPage.navigate AboutPage.waitForAboutContent AboutPage.getHeadingText
  AboutPage.getBioText AboutPage.isContentVisible AboutPage.verifyPageLoaded
  PostPage.navigateToPost PostPage.waitForPostContent PostPage.getPostTitle
  PostPage.getPostDate PostPage.getPostBody PostPage.getPostTags PostPage.hasTag
  PostPage.clickTag PostPage.verifyPageLoaded PostPage.getWordCount PostPage.contentContains
  NavigationComponent.isVisible NavigationComponent.goToHome NavigationComponent.goToPosts
  NavigationComponent.goToCategories NavigationComponent.goToTags
  NavigationComponent.goToAbout NavigationComponent.getNavLinkTexts
  NavigationComponent.toggleMobileMenu NavigationComponent.isMobileMenuExpanded
  ProfileComponent.isVisible ProfileComponent.getAuthorName ProfileComponent.getTagline
  ProfileComponent.isAvatarDisplayed ProfileComponent.getAvatarSrc
  ProfileComponent.clickAuthorName ProfileComponent.clickGithubLink
  ProfileComponent.clickLinkedinLink ProfileComponent.getGithubUrl
  ProfileComponent.getLinkedinUrl ProfileComponent.getAllSocialUrls
  BlogPostComponent.getAllPostTitles BlogPostComponent.getPostByIndex
  BlogPostComponent.clickPostByTitle BlogPostComponent.clickPostByIndex
  BlogPostComponent.isVisible BlogPostComponent.findPostContaining
  FooterComponent.isVisible FooterComponent.getCopyrightText FooterComponent.containsYear
  FooterComponent.hasRssLink FooterComponent.getRssFeedUrl FooterComponent.clickRssLink
  FooterComponent.getAllFooterLinks FooterComponent.scrollIntoView
  TestHelpers.scrollFullPage TestHelpers.getAllPageText TestHelpers.isElementInViewport
  TestHelpers.takeTimestampedScreenshot
  AccessibilityHelpers.runAccessibilityChecks AccessibilityHelpers.checkImagesHaveAlt
  AccessibilityHelpers.checkLinksAccessible AccessibilityHelpers.checkHeadingHierarchy
  AccessibilityHelpers.checkPageLanguage AccessibilityHelpers.checkFocusVisible
  : operations.

Lemma pageObjectOperation_transparent (A : Type) (op : prog pageE A) :
  Repo.pageObjectOperation A op -> transparent op.
Proof.
  intros Hop. destruct Hop; autounfold with operations; cbv zeta; transparency.
Qed.

Lemma accessibilityCheck_transparent (op : prog pageE (list AccessibilityHelpers.A11yViolation)) :
  Repo.accessibilityCheck op -> transparent op.
Proof.
  intros Hop. destruct Hop; autounfold with operations; cbv zeta; transparency.
Qed.

Lemma hasCritical_filter (violations : list AccessibilityHelpers.A11yViolation) :
  (0 <? length (filter (fun v => AccessibilityHelpers.Severity_eqb
                                   (AccessibilityHelpers.severity v)
                                   AccessibilityHelpers.critical) violations))%nat
  = Repo.hasCritical violations.
Proof.
  unfold Repo.hasCritical.
  induction violations as [| v vs IH]; simpl; [reflexivity |].
  destruct (AccessibilityHelpers.Severity_eqb (AccessibilityHelpers.severity v)
              AccessibilityHelpers.critical); simpl; [reflexivity | exact IH].
Qed.

Lemma assertNoCriticalViolations_own_error {W} (h : handler pageE W) (w : W)
  (violations : list AccessibilityHelpers.A11yViolation) :
  result h AccessibilityHelpers.runAccessibilityChecks w = Resolved violations ->
  result h AccessibilityHelpers.assertNoCriticalViolations w =
    (if Repo.hasCritical violations
     then Rejected
            (ErrorObject "Error"
               (AccessibilityHelpers.criticalMessage
                  (filter (fun v => AccessibilityHelpers.Severity_eqb
                                      (AccessibilityHelpers.severity v)
                                      AccessibilityHelpers.critical) violations)))
     else Resolved tt) /\
  rejections (trace h AccessibilityHelpers.assertNoCriticalViolations w) = [].
Proof.
  intros Hchecks.
  pose proof (accessibilityCheck_transparent _ Repo.check_all W h w) as Hclean.
  rewrite Hchecks in Hclean.
  unfold AccessibilityHelpers.assertNoCriticalViolations.
  unfold result, trace in *. rewrite run_bind.
  destruct (run h AccessibilityHelpers.runAccessibilityChecks w) as [[r w1] tr1].
  simpl in Hchecks, Hclean. subst r. cbv zeta.
  rewrite hasCritical_filter.
  destruct (Repo.hasCritical violations); simpl; rewrite app_nil_r; auto.
Qed.

Lemma getPostCount_swallows {W} (h : handler pageE W) (w : W) (e : thrown) (n : nat) :
  fst (h unit (WaitForVisible BlogPostComponent.postsContainer (Some 10000%Z)) w) = Rejected e ->
  fst (h nat (Count BlogPostComponent.postCards)
         (snd (h unit (WaitForVisible BlogPostComponent.postsContainer (Some 10000%Z)) w)))
    = Resolved n ->
  result h BlogPostComponent.getPostCount w = Resolved n /\
  rejections (trace h BlogPostComponent.getPostCount w) = [e].
Proof.
  unfold result, trace, BlogPostComponent.getPostCount. simpl.
  destruct (h unit (WaitForVisible BlogPostComponent.postsContainer (Some 10000%Z)) w)
    as [[u | e'] w1]; simpl; [discriminate |].
  intros He. injection He as ->.
  destruct (h nat (Count BlogPostComponent.postCards) w1) as [[n' | e''] w2]; simpl;
    [| discriminate].
  intros Hn. injection Hn as ->. split; reflexivity.
Qed.

(** C2, as amended.  Beyond [retry] and [verifyLinksNotBroken], errors
    are handled in two more places.  [assertNoCriticalViolations] makes
    an [Error] of its own from the violations to which the checks gave
    the severity [critical]: when the checks return, it throws that error
    exactly when there is such a violation, although none of its calls
    failed.  [getPostCount] swallows the failure of the wait for the
    posts container and still returns the count.  The other asynchronous
    operations of the page objects, of the components and of the
    helpers, and the accessibility checks themselves (which give every
    violation a severity), make up no error and swallow none: each
    rejects exactly when one of its calls rejects, with the error of
    that call. *)
Theorem error_handling_beyond_helpers :
  (forall (A : Type) (op : prog pageE A), Repo.pageObjectOperation A op -> transparent op) /\
  (forall op, Repo.accessibilityCheck op -> transparent op) /\
  (forall W (h : handler pageE W) (w : W) violations,
      result h AccessibilityHelpers.runAccessibilityChecks w = Resolved violations ->
      result h AccessibilityHelpers.assertNoCriticalViolations w =
        (if Repo.hasCritical violations
         then Rejected
                (ErrorObject "Error"
                   (AccessibilityHelpers.criticalMessage
                      (filter (fun v => AccessibilityHelpers.Severity_eqb
                                          (AccessibilityHelpers.severity v)
                                          AccessibilityHelpers.critical) violations)))
         else Resolved tt) /\
      rejections (trace h AccessibilityHelpers.assertNoCriticalViolations w) = []) /\
  (forall W (h : handler pageE W) (w : W) (e : thrown) (n : nat),
      fst (h unit (WaitForVisible BlogPostComponent.postsContainer (Some 10000%Z)) w) = Rejected e ->
      fst (h nat (Count BlogPostComponent.postCards)
             (snd (h unit (WaitForVisible BlogPostComponent.postsContainer (Some 10000%Z)) w)))
        = Resolved n ->
      result h BlogPostComponent.getPostCount w = Resolved n /\
      rejections (trace h BlogPostComponent.getPostCount w) = [e]).
Proof.
  split; [| split; [| split]].
  - exact pageObjectOperation_transparent.
  - exact accessibilityCheck_transparent.
  - intros W h w violations. apply assertNoCriticalViolations_own_error.
  - intros W h w e n. apply getPostCount_swallows.
Qed.

Lemma error_handling_beyond_helpers_witness :
  transparent ProfileComponent.getAuthorName /\
  transparent AccessibilityHelpers.checkImagesHaveAlt /\
  rejections (trace (StaticPage.static Fixtures.gallery)
                AccessibilityHelpers.assertNoCriticalViolations tt) = [] /\
  rejections (trace (StaticPage.static Blog.teaserPage)
                BlogPostComponent.getPostCount tt) = [StaticPage.timeoutError].
Proof.
  destruct error_handling_beyond_helpers as (Hops & Hchecks & Hassert & Hcount).
  split; [| split; [| split]].
  - exact (Hops _ _ Repo.op_getAuthorName).
  - exact (Hchecks _ Repo.check_images).
  - exact (proj2 (Hassert unit (StaticPage.static Fixtures.gallery) tt _ eq_refl)).
  - exact (proj2 (Hcount unit (StaticPage.static Blog.teaserPage) tt
                    StaticPage.timeoutError 2 eq_refl eq_refl)).
Defined.

(** C2 as stated does not hold.  On [Blog.teaserPage] the wait of
    [getPostCount] fails and the function returns all the same; on
    [Fixtures.gallery] no call of [assertNoCriticalViolations] fails and
    it throws an error of its own; and [checkImagesHaveAlt] gives its
    violations a severity. *)
Lemma helpers_are_not_the_only_error_handling :
  ~ Repo.onlyHelpersHandleErrors /\
  ~ transparent BlogPostComponent.getPostCount /\
  ~ transparent AccessibilityHelpers.assertNoCriticalViolations /\
  result (StaticPage.static Fixtures.gallery) AccessibilityHelpers.assertNoCriticalViolations tt
    = Rejected
        (ErrorObject "Error"
           (lit "Critical accessibility violations found:" ++ [10%N]
            ++ lit "img[src=" ++ dquote ++ lit "/a.png" ++ dquote
            ++ lit "]: Image missing alt attribute")) /\
  match result (StaticPage.static Fixtures.gallery)
          AccessibilityHelpers.checkImagesHaveAlt tt with
  | Resolved (v :: _) => AccessibilityHelpers.severity v = AccessibilityHelpers.critical
  | _ => False
  end.
Proof.
  assert (Hcount : ~ transparent BlogPostComponent.getPostCount).
  { intros H. specialize (H unit (StaticPage.static Blog.teaserPage) tt).
    discriminate H. }
  assert (Hassert : ~ transparent AccessibilityHelpers.assertNoCriticalViolations).
  { intros H. specialize (H unit (StaticPage.static Fixtures.gallery) tt).
    discriminate H. }
  split; [| split; [exact Hcount | split; [exact Hassert | split]]].
  - intros H. apply Hcount. apply H. apply Repo.other_getPostCount.
  - reflexivity.
  - reflexivity.
Qed.

(* ===================================================================== *)
(** * Further properties of the page objects, helpers and tests *)
(* ===================================================================== *)

(** ** Loops and traces in any environment *)

Lemma world_bind {E W A B} (h : handler E W) (m : prog E A) (f : A -> prog E B) (w : W) :
  world h (bind m f) w =
  match result h m w with
  | Resolved a => world h (f a) (world h m w)
  | Rejected _ => world h m w
  end.
Proof.
  unfold result, world. rewrite run_bind.
  destruct (run h m w) as [[[a | e] w1] tr1]; simpl; [| reflexivity].
  destruct (run h (f a) w1) as [[r w2] tr2]. reflexivity.
Qed.

Lemma trace_bind {E W A B} (h : handler E W) (m : prog E A) (f : A -> prog E B) (w : W) :
  trace h (bind m f) w =
  trace h m w ++
  match result h m w with
  | Resolved a => trace h (f a) (world h m w)
  | Rejected _ => []
  end.
Proof.
  unfold result, world, trace. rewrite run_bind.
  destruct (run h m w) as [[[a | e] w1] tr1]; simpl.
  - destruct (run h (f a) w1) as [[r w2] tr2]. reflexivity.
  - rewrite app_nil_r. reflexivity.
Qed.

Lemma trace_try_catch {E W A} (h : handler E W) (m : prog E A) (c : thrown -> prog E A)
  (w : W) :
  trace h (try_catch m c) w =
  trace h m w ++
  match result h m w with
  | Resolved _ => []
  | Rejected e => trace h (c e) (world h m w)
  end.
Proof.
  unfold result, world, trace. rewrite run_try_catch.
  destruct (run h m w) as [[[a | e] w1] tr1]; simpl.
  - rewrite app_nil_r. reflexivity.
  - destruct (run h (c e) w1) as [[r w2] tr2]. reflexivity.
Qed.

Lemma trace_await {E W X} (h : handler E W) (c : E X) (w : W) :
  trace h (await c) w = [Event c (fst (h X c w))].
Proof. unfold trace. rewrite run_await. reflexivity. Qed.

(** What holds of the accumulator before a loop and is kept by every
    round that completes holds of what the loop returns. *)
Lemma for_range_invariant {E W St} (h : handler E W) (P : St -> Prop)
  (body : nat -> St -> prog E St) :
  (forall i acc w acc', P acc -> result h (body i acc) w = Resolved acc' -> P acc') ->
  forall n i acc w acc',
    P acc -> result h (for_range n i body acc) w = Resolved acc' -> P acc'.
Proof.
  intros Hbody n. induction n as [| n IH]; intros i acc w acc' Hacc Hres; simpl in Hres.
  - unfold result in Hres. simpl in Hres. injection Hres as <-. exact Hacc.
  - rewrite result_bind in Hres.
    destruct (result h (body i acc) w) as [acc1 |] eqn:Hround; [| discriminate].
    apply (IH (S i) acc1 (world h (body i acc) w) acc'); [| exact Hres].
    apply (Hbody i acc w acc1 Hacc Hround).
Qed.

Lemma always_ret {E A} (Q : event E -> Prop) (a : A) : always Q (Ret a).
Proof. intros W h w. constructor. Qed.

Lemma always_await {E X} (Q : event E -> Prop) (c : E X) :
  (forall r, Q (Event c r)) -> always Q (await c).
Proof.
  intros Hc W h w. rewrite trace_await. constructor; [apply Hc | constructor].
Qed.

Lemma always_bind {E A B} (Q : event E -> Prop) (m : prog E A) (f : A -> prog E B) :
  always Q m -> (forall a, always Q (f a)) -> always Q (bind m f).
Proof.
  intros Hm Hf W h w. rewrite trace_bind. apply Forall_app. split; [apply Hm |].
  destruct (result h m w); [apply Hf | constructor].
Qed.

Lemma always_try_catch {E A} (Q : event E -> Prop) (m : prog E A) (c : thrown -> prog E A) :
  always Q m -> (forall e, always Q (c e)) -> always Q (try_catch m c).
Proof.
  intros Hm Hc W h w. rewrite trace_try_catch. apply Forall_app. split; [apply Hm |].
  destruct (result h m w); [constructor | apply Hc].
Qed.

Lemma always_for_range {E St} (Q : event E -> Prop) (body : nat -> St -> prog E St) :
  (forall i acc, always Q (body i acc)) ->
  forall n start acc, always Q (for_range n start body acc).
Proof.
  intros Hbody n. induction n as [| n IH]; intros start acc; simpl.
  - apply always_ret.
  - apply always_bind; [apply Hbody | intros acc'; apply IH].
Qed.

(** ** Lists of texts and of links *)

Lemma truthy_trim (t : jsstring) : truthy (trim t) = negb (whitespaceOnly t).
Proof.
  destruct (whitespaceOnly t) eqn:Hws; simpl.
  - apply trim_nil_iff in Hws. rewrite Hws. reflexivity.
  - destruct (trim t) eqn:Htrim; [| reflexivity].
    apply trim_nil_iff in Htrim. congruence.
Qed.

Lemma pushTrimmed_clean (acc : list jsstring) (text : option jsstring) :
  Forall Lists.cleanText acc -> Forall Lists.cleanText (pushTrimmed acc text).
Proof.
  intros Hacc. unfold pushTrimmed. destruct text as [t |]; simpl; [| exact Hacc].
  destruct (trim t) as [| c s] eqn:Htrim; simpl; [exact Hacc |].
  apply Forall_app. split; [exact Hacc |].
  constructor; [| constructor]. split; [discriminate |].
  rewrite <- Htrim. apply trim_trimmed.
Qed.

Lemma pushTrimmed_cleanTextOf (acc : list jsstring) (a : StaticPage.Element) :
  pushTrimmed acc (StaticPage.text a) = acc ++ Lists.cleanTextOf a.
Proof.
  unfold pushTrimmed, Lists.cleanTextOf.
  destruct (StaticPage.text a) as [t |]; simpl; [| rewrite app_nil_r; reflexivity].
  rewrite truthy_trim.
  destruct (whitespaceOnly t); simpl; [rewrite app_nil_r |]; reflexivity.
Qed.

Lemma textLists_shape (l : locator) (op : prog pageE (list jsstring)) :
  In (l, op) Lists.textLists ->
  op = (count <- await (Count l) ;;
        for_range count 0
          (fun i texts =>
             text <- await (TextContent (Nth l i)) ;; Ret (pushTrimmed texts text))
          []).
Proof.
  unfold Lists.textLists. simpl.
  intros [H | [H | [H | []]]]; injection H as <- <-; reflexivity.
Qed.

Lemma textList_clean {W} (h : handler pageE W) (l : locator) (w : W)
  (texts : list jsstring) :
  result h
    (count <- await (Count l) ;;
     for_range count 0
       (fun i texts =>
          text <- await (TextContent (Nth l i)) ;; Ret (pushTrimmed texts text))
       []) w = Resolved texts ->
  Forall Lists.cleanText texts.
Proof.
  intros Hres. rewrite result_bind in Hres.
  destruct (result h (await (Count l)) w) as [count |]; [| discriminate].
  revert Hres. apply for_range_invariant; [| constructor].
  intros i acc w' acc' Hacc Hround.
  rewrite result_bind, result_await in Hround.
  destruct (fst (h _ (TextContent (Nth l i)) w')) as [text |]; [| discriminate].
  unfold result in Hround. simpl in Hround. injection Hround as <-.
  apply pushTrimmed_clean. exact Hacc.
Qed.

(** X1. [getAllPostTitles], [getNavLinkTexts] and [getPostTags], in every
    environment, return only texts that are non-empty and have no white
    space at either end; on a page they do return, and what they return
    is the trimmed text of every matched element whose text is not blank,
    in document order. *)
Theorem text_lists_are_clean :
  forall (l : locator) (op : prog pageE (list jsstring)),
    In (l, op) Lists.textLists ->
    (forall W (h : handler pageE W) (w : W) (texts : list jsstring),
        result h op w = Resolved texts -> Forall Lists.cleanText texts) /\
    (forall p : StaticPage.Page,
        result (StaticPage.static p) op tt
        = Resolved (flat_map Lists.cleanTextOf (StaticPage.resolve p l))).
Proof.
  intros l op Hin. rewrite (textLists_shape l op Hin). split.
  - intros W h w texts Hres. exact (textList_clean h l w texts Hres).
  - intros p.
    change (result (StaticPage.static p) ?m tt) with (StaticPage.eval p m).
    rewrite eval_bind, eval_await. cbn [StaticPage.answer].
    rewrite (eval_for_range_nth p l _
               (fun acc a => Resolved (acc ++ Lists.cleanTextOf a))).
    + cbn [skipn]. rewrite fold_left_resolved_app. reflexivity.
    + intros i a acc Hnth.
      rewrite eval_bind, eval_await. cbn [StaticPage.answer]. unfold StaticPage.single.
      rewrite (resolve_nth p _ _ _ Hnth), eval_ret, pushTrimmed_cleanTextOf. reflexivity.
    + reflexivity.
Qed.

Lemma text_lists_are_clean_witness :
  result (StaticPage.static Blog.teaserPage) BlogPostComponent.getAllPostTitles tt
    = Resolved [lit "Hello World"] /\
  Forall Lists.cleanText [lit "Hello World"].
Proof.
  destruct (text_lists_are_clean BlogPostComponent.titleLocators
              BlogPostComponent.getAllPostTitles (or_introl eq_refl)) as (Hclean & Hpage).
  split; [exact (Hpage Blog.teaserPage) |].
  exact (Hclean unit (StaticPage.static Blog.teaserPage) tt _ (Hpage Blog.teaserPage)).
Defined.

Lemma pushTruthy_truthyHref (acc : list jsstring) (a : StaticPage.Element) :
  pushTruthy acc (StaticPage.getAttribute (StaticPage.attributes a) "href")
  = acc ++ Lists.truthyHref a.
Proof.
  unfold pushTruthy, Lists.truthyHref.
  destruct (StaticPage.getAttribute (StaticPage.attributes a) "href") as [href |];
    [| rewrite app_nil_r; reflexivity].
  destruct (truthy href); [| rewrite app_nil_r]; reflexivity.
Qed.

Lemma pushTruthy_nonempty (acc : list jsstring) (v : option jsstring) :
  Forall (fun s => s <> []) acc -> Forall (fun s => s <> []) (pushTruthy acc v).
Proof.
  intros Hacc. unfold pushTruthy. destruct v as [[| c s] |]; simpl; try exact Hacc.
  apply Forall_app. split; [exact Hacc |]. constructor; [discriminate | constructor].
Qed.

Lemma linkLists_shape (l : locator) (op : prog pageE (list jsstring)) :
  In (l, op) Lists.linkLists ->
  op = (count <- await (Count l) ;;
        for_range count 0
          (fun i urls =>
             href <- await (GetAttribute (Nth l i) "href") ;; Ret (pushTruthy urls href))
          []).
Proof.
  unfold Lists.linkLists. simpl.
  intros [H | [H | []]]; injection H as <- <-; reflexivity.
Qed.

(** X2. [getAllSocialUrls] and [getAllFooterLinks], in every environment,
    never return an empty string; on a page they return the [href] of
    every matched anchor that has a non-empty one, in document order:
    anchors without [href] or with an empty one are left out, and an
    anchor that lies in several matching containers counts once. *)
Theorem link_lists_skip_empty_hrefs :
  forall (l : locator) (op : prog pageE (list jsstring)),
    In (l, op) Lists.linkLists ->
    (forall W (h : handler pageE W) (w : W) (urls : list jsstring),
        result h op w = Resolved urls -> Forall (fun s => s <> []) urls) /\
    (forall p : StaticPage.Page,
        result (StaticPage.static p) op tt
        = Resolved (flat_map Lists.truthyHref (StaticPage.resolve p l))).
Proof.
  intros l op Hin. rewrite (linkLists_shape l op Hin). split.
  - intros W h w urls Hres. rewrite result_bind in Hres.
    destruct (result h (await (Count l)) w) as [count |]; [| discriminate].
    revert Hres. apply for_range_invariant; [| constructor].
    intros i acc w' acc' Hacc Hround.
    rewrite result_bind, result_await in Hround.
    destruct (fst (h _ (GetAttribute (Nth l i) "href") w')) as [href |]; [| discriminate].
    unfold result in Hround. simpl in Hround. injection Hround as <-.
    apply pushTruthy_nonempty. exact Hacc.
  - intros p.
    change (result (StaticPage.static p) ?m tt) with (StaticPage.eval p m).
    rewrite eval_bind, eval_await. cbn [StaticPage.answer].
    rewrite (eval_for_range_nth p l _
               (fun acc a => Resolved (acc ++ Lists.truthyHref a))).
    + cbn [skipn]. rewrite fold_left_resolved_app. reflexivity.
    + intros i a acc Hnth.
      rewrite eval_bind, eval_await. cbn [StaticPage.answer]. unfold StaticPage.single.
      rewrite (resolve_nth p _ _ _ Hnth), eval_ret, pushTruthy_truthyHref. reflexivity.
    + reflexivity.
Qed.

Lemma link_lists_skip_empty_hrefs_witness :
  result (StaticPage.static FooterExample.footerPage) FooterComponent.getAllFooterLinks tt
    = Resolved [lit "/feed.xml"; lit "https://github.com/Othrondir"] /\
  Forall (fun s : jsstring => s <> [])
    [lit "/feed.xml"; lit "https://github.com/Othrondir"] /\
  result (StaticPage.static FooterExample.nestedProfile) ProfileComponent.getAllSocialUrls tt
    = Resolved [lit "https://github.com/Othrondir"].
Proof.
  destruct (link_lists_skip_empty_hrefs FooterComponent.footerLinks
              FooterComponent.getAllFooterLinks (or_intror (or_introl eq_refl)))
    as (Hclean & Hpage).
  destruct (link_lists_skip_empty_hrefs
              (Within ProfileComponent.socialLinksContainer (lit "a"))
              ProfileComponent.getAllSocialUrls (or_introl eq_refl))
    as (_ & Hsocial).
  split; [exact (Hpage FooterExample.footerPage) |].
  split; [| exact (Hsocial FooterExample.nestedProfile)].
  exact (Hclean unit (StaticPage.static FooterExample.footerPage) tt _
           (Hpage FooterExample.footerPage)).
Defined.

(** ** The tests on post titles *)

Lemma cleanText_not_blank (t : jsstring) : Lists.cleanText t -> trim t <> [].
Proof.
  intros (Hne & Hfirst & _) Htrim. apply trim_nil_iff in Htrim.
  destruct t as [| c s]; [congruence |].
  simpl in Htrim. rewrite (Hfirst c s eq_refl) in Htrim. discriminate.
Qed.

Lemma forEach_passes {E W A} (h : handler E W) (check : A -> bool) (array : list A) (w : W) :
  Forall (fun x => check x = true) array ->
  run h (Expect.forEach array
           (fun x => if check x then Ret tt else Throw assertionError)) w
  = (Resolved tt, w, []).
Proof.
  induction 1 as [| x rest Hx _ IH]; simpl; [reflexivity |].
  rewrite run_bind, Hx. simpl. rewrite IH. reflexivity.
Qed.

Lemma positive_length (s : jsstring) : s <> [] -> (0 <? length s)%nat = true.
Proof. destruct s; [congruence | reflexivity]. Qed.

(** The callback of 'should display post titles': its expectations
    hold of whatever [getAllPostTitles] returns. *)
Lemma post_titles_callback {W} (h : handler pageE W) (w : W) :
  result h
    (titles <- BlogPostComponent.getAllPostTitles ;;
     Expect.forEach titles
       (fun title => expect_toBeGreaterThan (length (trim title)) 0)) w =
  outcome_map (fun _ => tt) (result h BlogPostComponent.getAllPostTitles w).
Proof.
  rewrite result_bind.
  destruct (result h BlogPostComponent.getAllPostTitles w) as [titles | e] eqn:Htitles;
    [| reflexivity].
  apply textList_clean in Htitles.
  unfold result, expect_toBeGreaterThan.
  rewrite (forEach_passes h (fun title => (0 <? length (trim title))%nat)); [reflexivity |].
  eapply Forall_impl; [| exact Htitles].
  intros t Ht. apply positive_length. apply cleanText_not_blank. exact Ht.
Qed.

(** X3. The expectations on the titles can never fail.  The test 'should
    display post titles', which runs after the [beforeEach] hook, settles
    as the navigation of the hook followed by [getAllPostTitles] does: it
    passes whenever the home page is reached and the titles can be read,
    even when there is none.  The smoke test 'should have clickable post
    titles', once the home page has been reached and the titles read,
    passes exactly when the list of titles is not empty. *)
Theorem title_expectations_never_fail :
  (forall W (h : handler pageE W) (w : W),
      result h HomepageTests.should_display_post_titles w =
      outcome_map (fun _ => tt)
        (result h (HomePage.navigate ;;; BlogPostComponent.getAllPostTitles) w)) /\
  (forall W (h : handler pageE W) (w : W) (titles : list jsstring),
      result h HomePage.navigate w = Resolved tt ->
      result h BlogPostComponent.getAllPostTitles (world h HomePage.navigate w)
        = Resolved titles ->
      (result h SmokeTests.should_have_clickable_post_titles w = Resolved tt
       <-> titles <> [])).
Proof.
  split.
  - intros W h w.
    unfold HomepageTests.should_display_post_titles, HomepageTests.beforeEach.
    rewrite !(result_bind h HomePage.navigate).
    destruct (result h HomePage.navigate w) as [[] | e]; [| reflexivity].
    apply post_titles_callback.
  - intros W h w titles Hnav Htitles.
    unfold SmokeTests.should_have_clickable_post_titles.
    rewrite result_bind, Hnav, result_bind, Htitles, result_bind.
    apply textList_clean in Htitles.
    assert (Hall : forall w',
               result h (Expect.forEach titles
                           (fun title => expect_toBeGreaterThan (length title) 0)) w'
               = Resolved tt).
    { intros w'. unfold result, expect_toBeGreaterThan.
      rewrite (forEach_passes h (fun title : jsstring => (0 <? length title)%nat));
        [reflexivity |].
      eapply Forall_impl; [| exact Htitles].
      intros s (Hne & _). apply positive_length. exact Hne. }
    pose proof (expect_toBeGreaterThan_result h
                  (world h BlogPostComponent.getAllPostTitles (world h HomePage.navigate w))
                  (length titles) 0) as Hexpect.
    destruct (result h (expect_toBeGreaterThan (length titles) 0)
                (world h BlogPostComponent.getAllPostTitles (world h HomePage.navigate w)))
      as [[] | e].
    + rewrite Hall. split; [| reflexivity].
      intros _ Hnil. pose proof (proj1 Hexpect eq_refl) as Hpos.
      rewrite Hnil in Hpos. simpl in Hpos. lia.
    + split; [discriminate |]. intros Hne. exfalso.
      assert (Hpos : 0 < length titles) by (destruct titles; [congruence | simpl; lia]).
      apply (proj2 Hexpect) in Hpos. discriminate.
Qed.

Lemma title_expectations_never_fail_witness :
  result (StaticPage.static Blog.teaserPage) SmokeTests.should_have_clickable_post_titles tt
    = Resolved tt <-> [lit "Hello World"] <> [].
Proof.
  exact (proj2 title_expectations_never_fail unit (StaticPage.static Blog.teaserPage) tt
           [lit "Hello World"] eq_refl eq_refl).
Defined.

(** ** accessibilityHelpers.ts on a page *)

Lemma checkImagesHaveAlt_eval (p : StaticPage.Page) :
  StaticPage.eval p AccessibilityHelpers.checkImagesHaveAlt =
  Resolved
    (flat_map
       (fun img =>
          AccessibilityHelpers.altViolations
            (StaticPage.getAttribute (StaticPage.attributes img) "alt")
            (StaticPage.getAttribute (StaticPage.attributes img) "src"))
       (StaticPage.query p (lit "img"))).
Proof.
  unfold AccessibilityHelpers.checkImagesHaveAlt.
  rewrite eval_bind, eval_await. cbn [StaticPage.answer].
  rewrite (eval_for_range_nth p AccessibilityHelpers.images _
             (fun acc img =>
                Resolved (acc ++ AccessibilityHelpers.altViolations
                                   (StaticPage.getAttribute (StaticPage.attributes img) "alt")
                                   (StaticPage.getAttribute (StaticPage.attributes img) "src")))).
  - cbn [skipn]. rewrite fold_left_resolved_app. reflexivity.
  - intros i img acc Hnth.
    rewrite eval_bind, eval_await. cbn [StaticPage.answer]. unfold StaticPage.single.
    rewrite (resolve_nth p _ _ _ Hnth).
    rewrite eval_bind, eval_await. cbn [StaticPage.answer]. unfold StaticPage.single.
    rewrite (resolve_nth p _ _ _ Hnth).
    rewrite eval_ret, altViolations_trim. reflexivity.
  - reflexivity.
Qed.

Lemma falsy_text (text : option jsstring) :
  AccessibilityHelpers.falsy (option_map trim text) =
  match text with Some t => whitespaceOnly t | None => true end.
Proof.
  destruct text as [t |]; simpl; [| reflexivity].
  rewrite truthy_trim. apply negb_involutive.
Qed.

Lemma checkLinksAccessible_eval (p : StaticPage.Page) :
  StaticPage.eval p AccessibilityHelpers.checkLinksAccessible =
  Resolved (flat_map A11ySpec.linkViolations (StaticPage.query p (lit "a"))).
Proof.
  unfold AccessibilityHelpers.checkLinksAccessible.
  rewrite eval_bind, eval_await. cbn [StaticPage.answer].
  rewrite (eval_for_range_nth p AccessibilityHelpers.anchors _
             (fun acc a => Resolved (acc ++ A11ySpec.linkViolations a))).
  - cbn [skipn]. rewrite fold_left_resolved_app. reflexivity.
  - intros i a acc Hnth. cbv zeta.
    do 3 (rewrite eval_bind, eval_await; cbn [StaticPage.answer];
          unfold StaticPage.single; rewrite (resolve_nth p _ _ _ Hnth)).
    rewrite eval_ret. unfold A11ySpec.linkViolations, A11ySpec.nameless.
    rewrite falsy_text. unfold AccessibilityHelpers.falsy.
    destruct (StaticPage.text a) as [t |];
      [destruct (whitespaceOnly t) |];
      destruct (StaticPage.getAttribute (StaticPage.attributes a) "aria-label")
        as [[| c label] |];
      simpl; rewrite ?app_nil_r; reflexivity.
  - reflexivity.
Qed.

(** X4. On every page [checkLinksAccessible] returns, anchor by anchor in
    document order, exactly one violation of severity [critical] for each
    anchor whose text is missing or blank and whose [aria-label] is
    missing or empty, and nothing for an anchor that has a text that is
    not blank or a non-empty label; an empty [aria-label] does not count
    as a name. *)
Theorem checkLinksAccessible_violations :
  forall p : StaticPage.Page,
    result (StaticPage.static p) AccessibilityHelpers.checkLinksAccessible tt =
      Resolved (flat_map A11ySpec.linkViolations (StaticPage.query p (lit "a"))) /\
    (forall a, A11ySpec.nameless a = true ->
               exists v, A11ySpec.linkViolations a = [v] /\
                         AccessibilityHelpers.severity v = AccessibilityHelpers.critical /\
                         AccessibilityHelpers.issue v = lit "Link has no accessible name") /\
    (forall a t, StaticPage.text a = Some t -> whitespaceOnly t = false ->
                 A11ySpec.linkViolations a = []) /\
    (forall a c label,
        StaticPage.getAttribute (StaticPage.attributes a) "aria-label" = Some (c :: label) ->
        A11ySpec.linkViolations a = []) /\
    (forall a,
        StaticPage.text a = None ->
        StaticPage.getAttribute (StaticPage.attributes a) "aria-label" = Some [] ->
        A11ySpec.nameless a = true).
Proof.
  intros p. split; [apply checkLinksAccessible_eval |].
  unfold A11ySpec.linkViolations, A11ySpec.nameless.
  split; [| split; [| split]].
  - intros a Ha. rewrite Ha. eexists. repeat split.
  - intros a t Ht Hws. rewrite Ht, Hws. reflexivity.
  - intros a c label Hlabel. rewrite Hlabel, andb_false_r. reflexivity.
  - intros a Ht Hlabel. rewrite Ht, Hlabel. reflexivity.
Qed.

Lemma checkLinksAccessible_violations_witness :
  result (StaticPage.static A11ySpec.iconPage) AccessibilityHelpers.checkLinksAccessible tt
    = Resolved
        [ {| AccessibilityHelpers.element :=
               lit "a[href=" ++ dquote ++ lit "/rss" ++ dquote ++ lit "]";
             AccessibilityHelpers.issue := lit "Link has no accessible name";
             AccessibilityHelpers.severity := AccessibilityHelpers.critical |} ] /\
  A11ySpec.linkViolations
    (Fixtures.node 2 [("href"%string, lit "/gh"); ("aria-label"%string, lit "GitHub")]
       (Some [])) = [].
Proof.
  destruct (checkLinksAccessible_violations A11ySpec.iconPage) as (Hrun & _ & _ & Hlabel & _).
  split; [exact Hrun |].
  apply (Hlabel _ 71%N (lit "itHub")). reflexivity.
Defined.

(** ** accessibilityHelpers.ts: the heading hierarchy *)

Lemma skippedLevels_acc (hs : list Heading) (lastLevel : nat)
  (acc : list AccessibilityHelpers.A11yViolation) :
  AccessibilityHelpers.skippedLevels hs lastLevel acc =
  acc ++ AccessibilityHelpers.skippedLevels hs lastLevel [].
Proof.
  revert lastLevel acc. induction hs as [| heading hs IH]; intros lastLevel acc; simpl.
  - rewrite app_nil_r. reflexivity.
  - destruct ((lastLevel + 1 <? level heading)%nat && negb (lastLevel =? 0)%nat).
    + match goal with
      | |- context [acc ++ [?v]] => rewrite (IH _ (acc ++ [v])), (IH _ [v])
      end.
      rewrite <- app_assoc. reflexivity.
    + apply IH.
Qed.

Lemma skippedLevels_moderate (hs : list Heading) (lastLevel : nat) :
  Forall (fun v => AccessibilityHelpers.severity v = AccessibilityHelpers.moderate)
    (AccessibilityHelpers.skippedLevels hs lastLevel []).
Proof.
  revert lastLevel. induction hs as [| heading hs IH]; intros lastLevel; simpl.
  - constructor.
  - destruct ((lastLevel + 1 <? level heading)%nat && negb (lastLevel =? 0)%nat).
    + rewrite skippedLevels_acc. simpl. constructor; [reflexivity | apply IH].
    + apply IH.
Qed.

(** One violation for every pair of consecutive headings that skips a
    level; [previous] stands for the heading read last. *)
Lemma skippedLevels_length (hs : list Heading) (previous : Heading) :
  length (AccessibilityHelpers.skippedLevels hs (level previous) []) =
  length (filter A11ySpec.isSkip (combine (previous :: hs) hs)).
Proof.
  revert previous. induction hs as [| heading hs IH]; intros previous; simpl.
  - reflexivity.
  - unfold A11ySpec.isSkip at 1. simpl.
    destruct ((level previous + 1 <? level heading)%nat && negb (level previous =? 0)%nat).
    + rewrite skippedLevels_acc. simpl. rewrite (IH heading). reflexivity.
    + apply IH.
Qed.

Lemma skippedLevels_from_start (hs : list Heading) :
  length (AccessibilityHelpers.skippedLevels hs 0 []) =
  length (filter A11ySpec.isSkip (A11ySpec.consecutive hs)).
Proof.
  pose proof (skippedLevels_length hs {| level := 0; headingText := [] |}) as H.
  simpl in H. rewrite H. unfold A11ySpec.consecutive.
  destruct hs as [| heading hs]; [reflexivity |].
  cbn [combine filter tl]. unfold A11ySpec.isSkip at 1. cbn [fst snd level].
  rewrite andb_false_r. reflexivity.
Qed.

Lemma checkHeadingHierarchy_result {W} (h : handler pageE W) (w : W) :
  result h AccessibilityHelpers.checkHeadingHierarchy w =
  match fst (h _ EvaluateHeadings w) with
  | Resolved hs =>
      Resolved
        (AccessibilityHelpers.skippedLevels hs 0 [] ++
         (if (1 <? A11ySpec.h1Count hs)%nat
          then [{| AccessibilityHelpers.element := lit "h1";
                   AccessibilityHelpers.issue :=
                     lit "Multiple h1 elements found (" ++ ofNat (A11ySpec.h1Count hs)
                     ++ lit ")";
                   AccessibilityHelpers.severity := AccessibilityHelpers.moderate |}]
          else []) ++
         (if (A11ySpec.h1Count hs =? 0)%nat
          then [{| AccessibilityHelpers.element := lit "h1";
                   AccessibilityHelpers.issue := lit "No h1 element found on page";
                   AccessibilityHelpers.severity := AccessibilityHelpers.serious |}]
          else []))
  | Rejected e => Rejected e
  end.
Proof.
  unfold AccessibilityHelpers.checkHeadingHierarchy.
  rewrite result_bind, result_await.
  destruct (fst (h _ EvaluateHeadings w)) as [hs | e]; [| reflexivity].
  unfold result. cbv zeta. fold (A11ySpec.h1Count hs). simpl.
  destruct (1 <? A11ySpec.h1Count hs)%nat; destruct (A11ySpec.h1Count hs =? 0)%nat;
    rewrite ?app_nil_r, <- ?app_assoc; reflexivity.
Qed.

Lemma filter_none {A} (f : A -> bool) (l : list A) :
  Forall (fun x => f x = false) l -> filter f l = [].
Proof.
  induction 1 as [| x l Hx _ IH]; simpl; [reflexivity |]. rewrite Hx. exact IH.
Qed.

Lemma moderate_not (s : AccessibilityHelpers.Severity)
  (vs : list AccessibilityHelpers.A11yViolation) :
  s <> AccessibilityHelpers.moderate ->
  Forall (fun v => AccessibilityHelpers.severity v = AccessibilityHelpers.moderate) vs ->
  filter (AccessibilityTests.isSeverity s) vs = [].
Proof.
  intros Hs Hvs. apply filter_none. eapply Forall_impl; [| exact Hvs].
  intros v Hv. unfold AccessibilityTests.isSeverity. rewrite Hv.
  destruct s; try reflexivity. congruence.
Qed.

(** The violations of the loop, pair by pair; [previous] stands for the
    heading read last. *)
Lemma skippedLevels_pairs (hs : list Heading) (previous : Heading) :
  AccessibilityHelpers.skippedLevels hs (level previous) [] =
  map A11ySpec.skipViolation (filter A11ySpec.isSkip (combine (previous :: hs) hs)).
Proof.
  revert previous. induction hs as [| heading hs IH]; intros previous; simpl.
  - reflexivity.
  - unfold A11ySpec.isSkip at 1. simpl.
    destruct ((level previous + 1 <? level heading)%nat && negb (level previous =? 0)%nat).
    + rewrite skippedLevels_acc. simpl. rewrite (IH heading). reflexivity.
    + apply IH.
Qed.

Lemma skippedLevels_report (hs : list Heading) :
  AccessibilityHelpers.skippedLevels hs 0 [] =
  map A11ySpec.skipViolation (filter A11ySpec.isSkip (A11ySpec.consecutive hs)).
Proof.
  pose proof (skippedLevels_pairs hs {| level := 0; headingText := [] |}) as H.
  simpl in H. rewrite H. unfold A11ySpec.consecutive.
  destruct hs as [| heading hs]; [reflexivity |].
  cbn [combine filter tl]. unfold A11ySpec.isSkip at 1. cbn [fst snd level].
  rewrite andb_false_r. reflexivity.
Qed.

(** X5. When the headings of the page can be read, [checkHeadingHierarchy]
    returns, in this order: for every pair of consecutive headings of
    which the second skips a level, in document order, a violation of
    severity [moderate] on the second heading that names both levels (the
    first heading of the page is never reported, whatever its level);
    then a [moderate] violation with their number when there are several
    headings of level 1; then a [serious] violation when there is none.
    So only the last one is [serious], none is [critical], and the result
    is empty exactly when there is one heading of level 1 and no skipped
    level. *)
Theorem checkHeadingHierarchy_report :
  forall W (h : handler pageE W) (w : W) (hs : list Heading),
    fst (h _ EvaluateHeadings w) = Resolved hs ->
    exists violations,
      result h AccessibilityHelpers.checkHeadingHierarchy w = Resolved violations /\
      violations =
        map (fun pair =>
               {| AccessibilityHelpers.element := lit "h" ++ ofNat (level (snd pair));
                  AccessibilityHelpers.issue :=
                    lit "Heading level skipped from h" ++ ofNat (level (fst pair))
                    ++ lit " to h" ++ ofNat (level (snd pair));
                  AccessibilityHelpers.severity := AccessibilityHelpers.moderate |})
          (filter A11ySpec.isSkip (A11ySpec.consecutive hs)) ++
        (if (1 <? A11ySpec.h1Count hs)%nat
         then [{| AccessibilityHelpers.element := lit "h1";
                  AccessibilityHelpers.issue :=
                    lit "Multiple h1 elements found (" ++ ofNat (A11ySpec.h1Count hs)
                    ++ lit ")";
                  AccessibilityHelpers.severity := AccessibilityHelpers.moderate |}]
         else []) ++
        (if (A11ySpec.h1Count hs =? 0)%nat
         then [{| AccessibilityHelpers.element := lit "h1";
                  AccessibilityHelpers.issue := lit "No h1 element found on page";
                  AccessibilityHelpers.severity := AccessibilityHelpers.serious |}]
         else []) /\
      length violations =
        length (filter A11ySpec.isSkip (A11ySpec.consecutive hs))
        + (if (1 <? A11ySpec.h1Count hs)%nat then 1 else 0)
        + (if (A11ySpec.h1Count hs =? 0)%nat then 1 else 0) /\
      length (filter (AccessibilityTests.isSeverity AccessibilityHelpers.serious) violations)
        = (if (A11ySpec.h1Count hs =? 0)%nat then 1 else 0) /\
      filter (AccessibilityTests.isSeverity AccessibilityHelpers.critical) violations = [] /\
      (violations = [] <->
       A11ySpec.h1Count hs = 1 /\ filter A11ySpec.isSkip (A11ySpec.consecutive hs) = []).
Proof.
  intros W h w hs Hhs. rewrite checkHeadingHierarchy_result, Hhs.
  eexists. split; [reflexivity |].
  pose proof (skippedLevels_moderate hs 0) as Hmod.
  pose proof (skippedLevels_from_start hs) as Hlen.
  split; [| split; [| split; [| split]]].
  - rewrite skippedLevels_report. reflexivity.
  - rewrite !length_app, Hlen.
    destruct (1 <? A11ySpec.h1Count hs)%nat; destruct (A11ySpec.h1Count hs =? 0)%nat;
      simpl; lia.
  - rewrite !filter_app, (moderate_not AccessibilityHelpers.serious _ ltac:(discriminate) Hmod).
    destruct (1 <? A11ySpec.h1Count hs)%nat; destruct (A11ySpec.h1Count hs =? 0)%nat;
      reflexivity.
  - rewrite !filter_app, (moderate_not AccessibilityHelpers.critical _ ltac:(discriminate) Hmod).
    destruct (1 <? A11ySpec.h1Count hs)%nat; destruct (A11ySpec.h1Count hs =? 0)%nat;
      reflexivity.
  - destruct (Nat.ltb_spec 1 (A11ySpec.h1Count hs)) as [Hmany | Hfew];
      destruct (Nat.eqb_spec (A11ySpec.h1Count hs) 0) as [Hzero | Hsome].
    + lia.
    + split; [| lia]. intros H. apply (f_equal (@length _)) in H.
      rewrite length_app in H. simpl in H. lia.
    + split; [| lia]. intros H. apply (f_equal (@length _)) in H.
      rewrite !length_app in H. simpl in H. lia.
    + rewrite !app_nil_r. split.
      * intros H. split; [lia |]. apply length_zero_iff_nil.
        rewrite <- Hlen, H. reflexivity.
      * intros (_ & Hnone). apply length_zero_iff_nil. rewrite Hlen, Hnone. reflexivity.
Qed.

Lemma checkHeadingHierarchy_report_witness :
  result (StaticPage.static A11ySpec.iconPage) AccessibilityHelpers.checkHeadingHierarchy tt
  = Resolved
      [ {| AccessibilityHelpers.element := lit "h4";
           AccessibilityHelpers.issue := lit "Heading level skipped from h2 to h4";
           AccessibilityHelpers.severity := AccessibilityHelpers.moderate |};
        {| AccessibilityHelpers.element := lit "h1";
           AccessibilityHelpers.issue := lit "No h1 element found on page";
           AccessibilityHelpers.severity := AccessibilityHelpers.serious |} ].
Proof.
  destruct (checkHeadingHierarchy_report unit (StaticPage.static A11ySpec.iconPage) tt
              (StaticPage.headings A11ySpec.iconPage) eq_refl)
    as (violations & Hres & Hlist & _).
  rewrite Hres, Hlist. reflexivity.
Defined.

(** The callback of 'heading hierarchy should be logical': among the
    violations of [checkHeadingHierarchy] at most one is [critical] or
    [serious]. *)
Lemma heading_callback {W} (h : handler pageE W) (w : W) :
  result h
    (violations <- AccessibilityHelpers.checkHeadingHierarchy ;;
     let seriousViolations :=
       filter (fun v => AccessibilityTests.isSeverity AccessibilityHelpers.critical v
                        || AccessibilityTests.isSeverity AccessibilityHelpers.serious v)
         violations in
     Expect.toBeLessThanOrEqual (length seriousViolations) 1) w =
  outcome_map (fun _ => tt) (result h AccessibilityHelpers.checkHeadingHierarchy w).
Proof.
  rewrite result_bind, checkHeadingHierarchy_result.
  destruct (fst (h _ EvaluateHeadings w)) as [hs | e]; [| reflexivity].
  cbv zeta. simpl outcome_map.
  pose proof (skippedLevels_moderate hs 0) as Hmod.
  rewrite !filter_app.
  rewrite (filter_none _ (AccessibilityHelpers.skippedLevels hs 0 [])).
  - destruct (1 <? A11ySpec.h1Count hs)%nat; destruct (A11ySpec.h1Count hs =? 0)%nat;
      reflexivity.
  - eapply Forall_impl; [| exact Hmod].
    intros v Hv. unfold AccessibilityTests.isSeverity. rewrite Hv. reflexivity.
Qed.

(** X6. The test 'heading hierarchy should be logical' cannot fail on its
    expectation: among the violations of [checkHeadingHierarchy] at most
    one is [critical] or [serious].  So the test, which runs after the
    [beforeEach] hook, settles as the navigation of the hook followed by
    the check does: it passes whenever the home page is reached and the
    headings can be read. *)
Theorem heading_test_never_fails :
  forall W (h : handler pageE W) (w : W),
    result h AccessibilityTests.heading_hierarchy_should_be_logical w =
    outcome_map (fun _ => tt)
      (result h (HomePage.navigate ;;; AccessibilityHelpers.checkHeadingHierarchy) w).
Proof.
  intros W h w.
  unfold AccessibilityTests.heading_hierarchy_should_be_logical,
    AccessibilityTests.beforeEach.
  rewrite !(result_bind h HomePage.navigate).
  destruct (result h HomePage.navigate w) as [[] | e]; [| reflexivity].
  apply heading_callback.
Qed.

(** ** accessibilityHelpers.ts: what makes [assertNoCriticalViolations] throw *)

Lemma hasCritical_app (a b : list AccessibilityHelpers.A11yViolation) :
  Repo.hasCritical (a ++ b) = Repo.hasCritical a || Repo.hasCritical b.
Proof. apply existsb_app. Qed.

Lemma hasCritical_flat_map {A} (f : A -> list AccessibilityHelpers.A11yViolation)
  (g : A -> bool) (l : list A) :
  (forall x, Repo.hasCritical (f x) = g x) ->
  Repo.hasCritical (flat_map f l) = existsb g l.
Proof.
  intros Hf. induction l as [| x l IH]; simpl; [reflexivity |].
  rewrite hasCritical_app, Hf, IH. reflexivity.
Qed.

Lemma hasCritical_altViolations (img : StaticPage.Element) :
  Repo.hasCritical
    (AccessibilityHelpers.altViolations
       (StaticPage.getAttribute (StaticPage.attributes img) "alt")
       (StaticPage.getAttribute (StaticPage.attributes img) "src"))
  = A11ySpec.missingAlt img.
Proof.
  unfold A11ySpec.missingAlt, AccessibilityHelpers.altViolations.
  destruct (StaticPage.getAttribute (StaticPage.attributes img) "alt") as [a |];
    [| reflexivity].
  destruct (whitespaceOnly a); reflexivity.
Qed.

Lemma hasCritical_linkViolations (a : StaticPage.Element) :
  Repo.hasCritical (A11ySpec.linkViolations a) = A11ySpec.nameless a.
Proof.
  unfold A11ySpec.linkViolations. destruct (A11ySpec.nameless a); reflexivity.
Qed.

Lemma hasCritical_headings {W} (h : handler pageE W) (w : W)
  (violations : list AccessibilityHelpers.A11yViolation) :
  result h AccessibilityHelpers.checkHeadingHierarchy w = Resolved violations ->
  Repo.hasCritical violations = false.
Proof.
  rewrite checkHeadingHierarchy_result.
  destruct (fst (h _ EvaluateHeadings w)) as [hs | e]; [| discriminate].
  intros H. injection H as <-. rewrite !hasCritical_app.
  assert (Hskipped : Repo.hasCritical (AccessibilityHelpers.skippedLevels hs 0 []) = false).
  { pose proof (skippedLevels_moderate hs 0) as Hmod.
    induction Hmod as [| v vs Hv _ IH]; simpl; [reflexivity |].
    rewrite Hv. exact IH. }
  rewrite Hskipped.
  destruct (1 <? A11ySpec.h1Count hs)%nat; destruct (A11ySpec.h1Count hs =? 0)%nat;
    reflexivity.
Qed.

Lemma runAccessibilityChecks_eval (p : StaticPage.Page) :
  exists others,
    StaticPage.eval p AccessibilityHelpers.runAccessibilityChecks =
    Resolved
      (flat_map
         (fun img =>
            AccessibilityHelpers.altViolations
              (StaticPage.getAttribute (StaticPage.attributes img) "alt")
              (StaticPage.getAttribute (StaticPage.attributes img) "src"))
         (StaticPage.query p (lit "img"))
       ++ flat_map A11ySpec.linkViolations (StaticPage.query p (lit "a"))
       ++ others) /\
    Repo.hasCritical others = false.
Proof.
  unfold AccessibilityHelpers.runAccessibilityChecks.
  rewrite eval_bind, checkImagesHaveAlt_eval, eval_bind, checkLinksAccessible_eval, eval_bind.
  pose proof (hasCritical_headings (StaticPage.static p) tt) as Hheadings.
  fold (StaticPage.eval p AccessibilityHelpers.checkHeadingHierarchy) in Hheadings.
  assert (Hresolves : exists hv,
             StaticPage.eval p AccessibilityHelpers.checkHeadingHierarchy = Resolved hv).
  { unfold StaticPage.eval. rewrite checkHeadingHierarchy_result. simpl. eexists. reflexivity. }
  destruct Hresolves as (hv & Hhv). rewrite Hhv in *.
  specialize (Hheadings hv eq_refl).
  rewrite eval_bind.
  unfold AccessibilityHelpers.checkPageLanguage at 1.
  rewrite eval_bind, eval_await. cbn [StaticPage.answer]. rewrite !eval_ret.
  exists (hv ++ (if negb (truthy (StaticPage.lang p))
                 then [{| AccessibilityHelpers.element := lit "html";
                          AccessibilityHelpers.issue := lit "Page language not specified";
                          AccessibilityHelpers.severity := AccessibilityHelpers.serious |}]
                 else [])).
  split.
  - simpl. rewrite <- !app_assoc. reflexivity.
  - rewrite hasCritical_app, Hheadings. destruct (negb (truthy (StaticPage.lang p))); reflexivity.
Qed.

(** X7. On every page [assertNoCriticalViolations] returns exactly when
    every image has an [alt] attribute and every anchor has an accessible
    name; otherwise it throws.  Blank [alt] texts, skipped or missing
    headings and a missing page language never make it throw. *)
Theorem assertNoCriticalViolations_passes_iff :
  forall p : StaticPage.Page,
    (result (StaticPage.static p) AccessibilityHelpers.assertNoCriticalViolations tt
     = Resolved tt
     <-> (forall img, In img (StaticPage.query p (lit "img")) ->
                      A11ySpec.missingAlt img = false) /\
         (forall a, In a (StaticPage.query p (lit "a")) -> A11ySpec.nameless a = false)) /\
    (result (StaticPage.static p) AccessibilityHelpers.assertNoCriticalViolations tt
     <> Resolved tt ->
     exists message,
       result (StaticPage.static p) AccessibilityHelpers.assertNoCriticalViolations tt
       = Rejected (ErrorObject "Error" message)).
Proof.
  intros p.
  destruct (runAccessibilityChecks_eval p) as (others & Hrun & Hothers).
  destruct (assertNoCriticalViolations_own_error (StaticPage.static p) tt _ Hrun)
    as (Hassert & _).
  rewrite Hassert.
  rewrite !hasCritical_app, Hothers, orb_false_r.
  rewrite (hasCritical_flat_map _ A11ySpec.missingAlt _ hasCritical_altViolations).
  rewrite (hasCritical_flat_map _ A11ySpec.nameless _ hasCritical_linkViolations).
  destruct (existsb A11ySpec.missingAlt (StaticPage.query p (lit "img"))) eqn:Himg;
    [| destruct (existsb A11ySpec.nameless (StaticPage.query p (lit "a"))) eqn:Hlink];
    simpl.
  - split; [| intros _; eexists; reflexivity].
    split; [discriminate |]. intros (Hall & _).
    apply existsb_exists in Himg. destruct Himg as (img & Hin & Hmissing).
    rewrite (Hall img Hin) in Hmissing. discriminate.
  - split; [| intros _; eexists; reflexivity].
    split; [discriminate |]. intros (_ & Hall).
    apply existsb_exists in Hlink. destruct Hlink as (a & Hin & Hnameless).
    rewrite (Hall a Hin) in Hnameless. discriminate.
  - split; [| congruence].
    split; [| reflexivity]. intros _. split.
    + intros img Hin. destruct (A11ySpec.missingAlt img) eqn:Hmissing; [| reflexivity].
      assert (Hex : existsb A11ySpec.missingAlt (StaticPage.query p (lit "img")) = true)
        by (apply existsb_exists; exists img; split; assumption).
      congruence.
    + intros a Hin. destruct (A11ySpec.nameless a) eqn:Hnameless; [| reflexivity].
      assert (Hex : existsb A11ySpec.nameless (StaticPage.query p (lit "a")) = true)
        by (apply existsb_exists; exists a; split; assumption).
      congruence.
Qed.

Lemma assertNoCriticalViolations_passes_iff_witness :
  result (StaticPage.static A11ySpec.namedPage) AccessibilityHelpers.assertNoCriticalViolations tt
    = Resolved tt /\
  exists message,
    result (StaticPage.static A11ySpec.iconPage) AccessibilityHelpers.assertNoCriticalViolations tt
    = Rejected (ErrorObject "Error" message).
Proof.
  split.
  - apply (proj1 (assertNoCriticalViolations_passes_iff A11ySpec.namedPage)).
    split.
    + intros img [<- | []]. reflexivity.
    + intros a [<- | [<- | []]]; reflexivity.
  - apply (proj2 (assertNoCriticalViolations_passes_iff A11ySpec.iconPage)).
    discriminate.
Defined.

(** ** accessibilityHelpers.ts: the focus check *)

(** A loop invariant that may mention the number of the round. *)
Lemma for_range_indexed_invariant {E W St} (h : handler E W) (P : nat -> St -> Prop)
  (body : nat -> St -> prog E St) :
  (forall i acc w acc', P i acc -> result h (body i acc) w = Resolved acc' -> P (S i) acc') ->
  forall n i acc w acc',
    P i acc -> result h (for_range n i body acc) w = Resolved acc' -> P (n + i) acc'.
Proof.
  intros Hbody n. induction n as [| n IH]; intros i acc w acc' Hacc Hres; simpl in Hres.
  - unfold result in Hres. simpl in Hres. injection Hres as <-. exact Hacc.
  - rewrite result_bind in Hres.
    destruct (result h (body i acc) w) as [acc1 |] eqn:Hround; [| discriminate].
    replace (S n + i) with (n + S i) by lia.
    apply (IH (S i) acc1 (world h (body i acc) w) acc'); [| exact Hres].
    apply (Hbody i acc w acc1 Hacc Hround).
Qed.

(** A loop whose rounds make at most [k] calls of a kind makes at most
    [n * k] of them. *)
Lemma for_range_call_count {E W St} (h : handler E W) (f : event E -> bool)
  (body : nat -> St -> prog E St) (k : nat) :
  (forall i acc w, length (filter f (trace h (body i acc) w)) <= k) ->
  forall n i acc w, length (filter f (trace h (for_range n i body acc) w)) <= n * k.
Proof.
  intros Hbody n. induction n as [| n IH]; intros i acc w; simpl.
  - unfold trace. simpl. lia.
  - rewrite trace_bind, filter_app, length_app.
    pose proof (Hbody i acc w) as Hround.
    destruct (result h (body i acc) w) as [acc1 |].
    + pose proof (IH (S i) acc1 (world h (body i acc) w)). lia.
    + simpl. lia.
Qed.

Lemma focusRound_calls {W} (h : handler pageE W) (i : nat)
  (violations : list AccessibilityHelpers.A11yViolation) (w : W) :
  let element := Nth AccessibilityHelpers.interactiveElements i in
  length (filter Calls.isFocus
            (trace h
               (await (Focus element) ;;;
                hasVisibleFocus <- await (EvaluateFocusVisible element) ;;
                if hasVisibleFocus : bool
                then Ret violations
                else
                  tagName <- await (EvaluateTagName element) ;;
                  Ret (violations ++
                       [{| AccessibilityHelpers.element := tagName;
                           AccessibilityHelpers.issue :=
                             lit "Element may not have visible focus indicator";
                           AccessibilityHelpers.severity := AccessibilityHelpers.serious |}]))
               w)) <= 1.
Proof.
  intros element. unfold trace, await. simpl.
  destruct (h unit (Focus element) w) as [[[] | e] w1]; simpl; [| lia].
  destruct (h bool (EvaluateFocusVisible element) w1) as [[[|] | e] w2]; simpl; try lia.
  destruct (h jsstring (EvaluateTagName element) w2) as [[tag | e] w3]; simpl; lia.
Qed.

(** X8. In every environment [checkFocusVisible] focuses at most ten
    elements, however many the page has.  When it returns, it reports at
    most as many violations as the smaller of ten and the number of
    interactive elements, every one of them serious and with the same
    issue text. *)
Theorem checkFocusVisible_bounded {W} (h : handler pageE W) (w : W) :
  length (filter Calls.isFocus (trace h AccessibilityHelpers.checkFocusVisible w)) <= 10 /\
  forall violations,
    result h AccessibilityHelpers.checkFocusVisible w = Resolved violations ->
    exists count,
      fst (h nat (Count AccessibilityHelpers.interactiveElements) w) = Resolved count /\
      length violations <= Nat.min count 10 /\
      Forall (fun v =>
                AccessibilityHelpers.severity v = AccessibilityHelpers.serious /\
                AccessibilityHelpers.issue v =
                lit "Element may not have visible focus indicator") violations.
Proof.
  unfold AccessibilityHelpers.checkFocusVisible. split.
  - rewrite trace_bind, trace_await, result_await. simpl.
    destruct (fst (h nat (Count AccessibilityHelpers.interactiveElements) w)) as [count | e];
      simpl; [| lia].
    match goal with
    | |- length (filter _ (trace _ (for_range ?n ?i ?body ?acc) ?w')) <= _ =>
        pose proof (for_range_call_count h Calls.isFocus body 1
                      (fun j acc0 w0 => focusRound_calls h j acc0 w0) n i acc w') as Hcount
    end.
    pose proof (Nat.le_min_r count 10). lia.
  - intros violations Hres. rewrite result_bind, result_await in Hres.
    destruct (fst (h nat (Count AccessibilityHelpers.interactiveElements) w)) as [count | e];
      [| discriminate].
    exists count. split; [reflexivity |].
    match type of Hres with
    | result _ (for_range ?n ?i ?body ?acc) ?w' = _ =>
        pose proof (for_range_indexed_invariant h
                      (fun j acc0 =>
                         length acc0 <= j /\
                         Forall (fun v =>
                                   AccessibilityHelpers.severity v = AccessibilityHelpers.serious /\
                                   AccessibilityHelpers.issue v =
                                   lit "Element may not have visible focus indicator") acc0)
                      body) as Hinv
    end.
    match type of Hinv with
    | ?premise -> _ => assert (Hround : premise)
    end.
    { clear. intros i acc w acc' [Hlen Hall] Hres.
      unfold result, await in Hres. simpl in Hres.
      destruct (h unit (Focus (Nth AccessibilityHelpers.interactiveElements i)) w)
        as [[[] | e] w1]; simpl in Hres; [| discriminate].
      destruct (h bool (EvaluateFocusVisible (Nth AccessibilityHelpers.interactiveElements i)) w1)
        as [[[|] | e] w2]; simpl in Hres; try discriminate.
      - injection Hres as <-. split; [lia | exact Hall].
      - destruct (h jsstring (EvaluateTagName (Nth AccessibilityHelpers.interactiveElements i)) w2)
          as [[tag | e] w3]; simpl in Hres; [| discriminate].
        injection Hres as <-. split.
        + rewrite length_app. simpl. lia.
        + apply Forall_app. split; [exact Hall |].
          constructor; [split; reflexivity | constructor]. }
    specialize (Hinv Hround _ 0 [] _ violations (conj (Nat.le_0_l 0) (Forall_nil _)) Hres).
    destruct Hinv as [Hlen Hall]. split; [lia | exact Hall].
Qed.

Lemma checkFocusVisible_bounded_witness :
  StaticPage.eval FocusExample.plainLinks AccessibilityHelpers.checkFocusVisible
  = Resolved (repeat {| AccessibilityHelpers.element := lit "a";
                        AccessibilityHelpers.issue :=
                          lit "Element may not have visible focus indicator";
                        AccessibilityHelpers.severity := AccessibilityHelpers.serious |} 10) /\
  exists count,
    fst (StaticPage.static FocusExample.plainLinks nat
           (Count AccessibilityHelpers.interactiveElements) tt) = Resolved count /\
    10 <= Nat.min count 10.
Proof.
  split; [reflexivity |].
  destruct (proj2 (checkFocusVisible_bounded (StaticPage.static FocusExample.plainLinks) tt)
              _ eq_refl) as [count [Hcount [Hlen _]]].
  exists count. split; [exact Hcount | exact Hlen].
Defined.

(** ** testHelpers.ts: what [verifyLinksNotBroken] requests and when it fails *)

Lemma headsFollowUrls_app (a b : list (event pageE)) (previous : option (event pageE)) :
  Calls.headsFollowUrls previous a ->
  (forall before, Calls.headsFollowUrls before b) ->
  Calls.headsFollowUrls previous (a ++ b).
Proof.
  revert previous. induction a as [| ev a IH]; intros previous Ha Hb; simpl.
  - apply Hb.
  - destruct Ha as [Hev Ha]. split; [exact Hev | apply IH; assumption].
Qed.

Lemma headsFollowUrls_for_range {W St} (h : handler pageE W)
  (body : nat -> St -> prog pageE St) :
  (forall i acc w before, Calls.headsFollowUrls before (trace h (body i acc) w)) ->
  forall n i acc w before, Calls.headsFollowUrls before (trace h (for_range n i body acc) w).
Proof.
  intros Hbody n. induction n as [| n IH]; intros i acc w before; simpl.
  - exact I.
  - rewrite trace_bind. apply headsFollowUrls_app; [apply Hbody |].
    intros before'. destruct (result h (body i acc) w); [apply IH | exact I].
Qed.

Lemma followed_condition (href : jsstring) :
  truthy href && negb (startsWith href (lit "#"))
  && negb (startsWith href (lit "javascript:")) = true ->
  Calls.followed href.
Proof.
  intros Hcond. apply andb_prop in Hcond. destruct Hcond as [Hcond Hjs].
  apply andb_prop in Hcond. destruct Hcond as [Htruthy Hhash].
  repeat split.
  - intros ->. discriminate.
  - destruct (startsWith href (lit "#")); [discriminate | reflexivity].
  - destruct (startsWith href (lit "javascript:")); [discriminate | reflexivity].
Qed.

(** X9. In every environment [verifyLinksNotBroken] hands only followed
    references to the URL constructor (never an empty one, a fragment or
    a javascript: reference), sends a HEAD request only to the address
    the constructor has just returned for such a reference, and lists
    only such references, with a status of at least 400. *)
Theorem verifyLinksNotBroken_requests_followed_only {W} (h : handler pageE W) (w : W) :
  Forall Calls.resolvesFollowedOnly (trace h TestHelpers.verifyLinksNotBroken w) /\
  Calls.headsFollowUrls None (trace h TestHelpers.verifyLinksNotBroken w) /\
  match result h TestHelpers.verifyLinksNotBroken w with
  | Resolved brokenLinks => Forall Failures.brokenEntryOfFollowed brokenLinks
  | Rejected _ => True
  end.
Proof.
  unfold TestHelpers.verifyLinksNotBroken. split; [| split].
  - revert W h w. apply always_bind; [apply always_await; intros r; exact I |].
    intros count. apply always_for_range. intros i brokenLinks.
    apply always_bind; [apply always_await; intros r; exact I |].
    intros [href |]; [| apply always_ret].
    destruct (truthy href && negb (startsWith href (lit "#"))
              && negb (startsWith href (lit "javascript:"))) eqn:Hcond;
      [| apply always_ret].
    apply followed_condition in Hcond.
    apply always_try_catch; [| intros e; apply always_ret].
    apply always_bind; [apply always_await; intros r; exact I |]. intros base.
    apply always_bind; [apply always_await; intros r; exact Hcond |]. intros absoluteUrl.
    apply always_bind; [apply always_await; intros r; exact I |]. intros status.
    destruct (400 <=? status)%Z; apply always_ret.
  - rewrite trace_bind, trace_await, result_await.
    change ([?x] ++ ?l) with (x :: l). split; [exact I |].
    destruct (fst (h nat (Count TestHelpers.links) w)) as [count | e]; [| exact I].
    apply headsFollowUrls_for_range. clear. intros i brokenLinks w before.
    unfold trace, await. simpl.
    destruct (h _ (GetAttribute (Nth TestHelpers.links i) "href") w) as [[[href |] | e] w1];
      simpl; try (split; exact I).
    destruct (truthy href && negb (startsWith href (lit "#"))
              && negb (startsWith href (lit "javascript:"))) eqn:Hcond;
      simpl; [| split; exact I].
    apply followed_condition in Hcond.
    destruct (h _ PageUrl w1) as [[base | e] w2]; simpl; [| repeat split].
    destruct (h _ (NewURL href base) w2) as [[absoluteUrl | e] w3]; simpl; [| repeat split].
    destruct (h _ (RequestHead absoluteUrl) w3) as [[status | e] w4]; simpl.
    + destruct (400 <=? status)%Z; simpl; repeat split; solve [reflexivity | apply Hcond].
    + repeat split; solve [reflexivity | apply Hcond].
  - rewrite result_bind, result_await.
    destruct (fst (h nat (Count TestHelpers.links) w)) as [count | e]; [| exact I].
    match goal with
    | |- match result _ (for_range ?n ?i ?body ?acc) ?w' with _ => _ end =>
        pose proof (for_range_invariant h (Forall Failures.brokenEntryOfFollowed) body) as Hinv;
        destruct (result h (for_range n i body acc) w') as [brokenLinks | e] eqn:Hres;
        [| exact I]
    end.
    apply (fun Hround => Hinv Hround _ _ _ _ _ (Forall_nil _) Hres).
    clear. intros i acc w acc' Hacc Hres.
    unfold result, await in Hres. simpl in Hres.
    destruct (h _ (GetAttribute (Nth TestHelpers.links i) "href") w) as [[[href |] | e] w1];
      simpl in Hres; try discriminate; try (injection Hres as <-; exact Hacc).
    destruct (truthy href && negb (startsWith href (lit "#"))
              && negb (startsWith href (lit "javascript:"))) eqn:Hcond;
      simpl in Hres; [| injection Hres as <-; exact Hacc].
    apply followed_condition in Hcond.
    destruct (h _ PageUrl w1) as [[base | e] w2]; simpl in Hres;
      [| injection Hres as <-; exact Hacc].
    destruct (h _ (NewURL href base) w2) as [[absoluteUrl | e] w3]; simpl in Hres;
      [| injection Hres as <-; exact Hacc].
    destruct (h _ (RequestHead absoluteUrl) w3) as [[status | e] w4]; simpl in Hres;
      [| injection Hres as <-; exact Hacc].
    destruct (400 <=? status)%Z eqn:Hstatus; simpl in Hres; injection Hres as <-;
      [| exact Hacc].
    apply Forall_app. split; [exact Hacc |].
    constructor; [| constructor].
    exists href, status. split; [reflexivity | split; [exact Hcond | lia]].
Qed.

Lemma failsOnlyBy_ret {E A} (f : event E -> bool) (a : A) :
  Failures.failsOnlyBy f (Ret a : prog E A).
Proof. intros W h w. reflexivity. Qed.

Lemma failsOnlyBy_await {E X} (f : event E -> bool) (c : E X) :
  (forall r, f (Event c r) = true) -> Failures.failsOnlyBy f (await c).
Proof.
  intros Hc W h w. rewrite result_await, trace_await. simpl. rewrite Hc.
  destruct (fst (h X c w)); reflexivity.
Qed.

Lemma failsOnlyBy_bind {E A B} (f : event E -> bool) (m : prog E A) (k : A -> prog E B) :
  Failures.failsOnlyBy f m -> (forall a, Failures.failsOnlyBy f (k a)) ->
  Failures.failsOnlyBy f (bind m k).
Proof.
  intros Hm Hk W h w. rewrite result_bind, trace_bind, filter_app, rejections_app.
  specialize (Hm W h w).
  destruct (result h m w) as [a | e].
  - rewrite Hm. simpl. apply Hk.
  - rewrite Hm. reflexivity.
Qed.

Lemma failsOnlyBy_for_range {E St} (f : event E -> bool) (body : nat -> St -> prog E St) :
  (forall i acc, Failures.failsOnlyBy f (body i acc)) ->
  forall n start acc, Failures.failsOnlyBy f (for_range n start body acc).
Proof.
  intros Hbody n. induction n as [| n IH]; intros start acc; simpl.
  - apply failsOnlyBy_ret.
  - apply failsOnlyBy_bind; [apply Hbody | intros acc'; apply IH].
Qed.

Lemma filter_nothing {A} (f : A -> bool) (l : list A) :
  Forall (fun x => f x = false) l -> filter f l = [].
Proof.
  induction 1 as [| x l Hx _ IH]; simpl; [reflexivity |]. rewrite Hx. exact IH.
Qed.

(** A block whose failures are all caught and answered with a value,
    and which makes no call of kind [f]. *)
Lemma failsOnlyBy_swallowed {E A} (f : event E -> bool) (m : prog E A) (a : A) :
  always (fun ev => f ev = false) m ->
  Failures.failsOnlyBy f (try_catch m (fun _ => Ret a)).
Proof.
  intros Hm W h w. rewrite result_try_catch, trace_try_catch.
  rewrite filter_app, (filter_nothing f _ (Hm W h w)). simpl.
  destruct (result h m w); reflexivity.
Qed.

(** X10. In every environment [verifyLinksNotBroken] rejects exactly when
    counting the links or reading an [href] rejects, with that error and
    without a further such call; a failure of [page.url()], of the URL
    constructor or of the HEAD request never makes it reject. *)
Theorem verifyLinksNotBroken_fails_only_by_reading :
  Failures.failsOnlyBy Calls.isLocatorRead TestHelpers.verifyLinksNotBroken.
Proof.
  unfold TestHelpers.verifyLinksNotBroken.
  apply failsOnlyBy_bind; [apply failsOnlyBy_await; reflexivity |].
  intros count. apply failsOnlyBy_for_range. intros i brokenLinks.
  apply failsOnlyBy_bind; [apply failsOnlyBy_await; reflexivity |].
  intros [href |]; [| apply failsOnlyBy_ret].
  destruct (truthy href && negb (startsWith href (lit "#"))
            && negb (startsWith href (lit "javascript:"))); [| apply failsOnlyBy_ret].
  apply failsOnlyBy_swallowed.
  apply always_bind; [apply always_await; reflexivity |]. intros base.
  apply always_bind; [apply always_await; reflexivity |]. intros absoluteUrl.
  apply always_bind; [apply always_await; reflexivity |]. intros status.
  destruct (400 <=? status)%Z; apply always_ret.
Qed.

(** ** PostPage.ts: the word count *)

Lemma splitWhitespaceFrom_count (s piece : jsstring) (inSeparator : bool) :
  (inSeparator = true -> piece = []) ->
  length (filter (fun word => (0 <? length word)%nat) (splitWhitespaceFrom s piece inSeparator))
  = (if truthy piece then 1 else 0) + Words.wordStarts s (negb (truthy piece)).
Proof.
  revert piece inSeparator.
  induction s as [| c s IH]; intros piece inSeparator Hpiece; simpl.
  - destruct piece; reflexivity.
  - destruct (isWhiteSpace c).
    + destruct inSeparator.
      * rewrite (Hpiece eq_refl). rewrite IH by reflexivity. reflexivity.
      * destruct piece; cbn [filter length Nat.ltb Nat.leb truthy negb];
          rewrite IH by reflexivity; reflexivity.
    + rewrite IH by discriminate.
      assert (Hgrown : truthy (piece ++ [c]) = true) by (destruct piece; reflexivity).
      rewrite Hgrown. destruct piece; reflexivity.
Qed.

Lemma wordStarts_trimStart (s : jsstring) :
  Words.wordStarts (trimStart s) true = Words.wordStarts s true.
Proof.
  induction s as [| c s IH]; simpl; [reflexivity |].
  destruct (isWhiteSpace c) eqn:Hc; [exact IH |]. simpl. rewrite Hc. reflexivity.
Qed.

Lemma wordStarts_blank_tail (s ws : jsstring) (afterSpace : bool) :
  whitespaceOnly ws = true ->
  Words.wordStarts (s ++ ws) afterSpace = Words.wordStarts s afterSpace.
Proof.
  intros Hws. revert afterSpace. induction s as [| c s IH]; intros afterSpace; simpl.
  - clear -Hws. revert afterSpace. induction ws as [| c ws IH]; intros afterSpace; simpl.
    + reflexivity.
    + simpl in Hws. apply andb_prop in Hws. destruct Hws as [Hc Hws].
      rewrite Hc. apply IH. exact Hws.
  - destruct (isWhiteSpace c); rewrite IH; reflexivity.
Qed.

Lemma trimEnd_tail (s : jsstring) :
  exists ws, s = trimEnd s ++ ws /\ whitespaceOnly ws = true.
Proof.
  destruct (trimStart_suffix (rev s)) as (ws & Hs & Hws).
  exists (rev ws). split.
  - unfold trimEnd. rewrite <- rev_app_distr, <- Hs, rev_involutive. reflexivity.
  - rewrite whitespaceOnly_rev. exact Hws.
Qed.

Lemma countWords_trim (s : jsstring) : Words.countWords (trim s) = Words.countWords s.
Proof.
  unfold Words.countWords, trim.
  destruct (trimEnd_tail (trimStart s)) as (ws & Hs & Hws).
  rewrite <- (wordStarts_trimStart s). rewrite Hs at 2.
  rewrite wordStarts_blank_tail by exact Hws. reflexivity.
Qed.

Lemma countWords_zero (s : jsstring) :
  Words.countWords s = 0 <-> whitespaceOnly s = true.
Proof.
  unfold Words.countWords. induction s as [| c s IH]; simpl.
  - tauto.
  - destruct (isWhiteSpace c); simpl; [exact IH |]. split; [lia | discriminate].
Qed.

(** X11. In every environment [getWordCount] settles as the reading of
    the post body does, and returns the number of words of that text: of
    its maximal runs without white space, 0 when the element has no text.
    White space around the text or repeated between words does not
    count, and the result is 0 exactly for a text that is missing or
    made of white space only. *)
Theorem getWordCount_counts_words {W} (h : handler pageE W) (w : W) :
  result h PostPage.getWordCount w
  = outcome_map Words.wordsOf (fst (h _ (TextContent PostPage.postBody) w)) /\
  forall text,
    Words.wordsOf text = 0 <->
    text = None \/ exists t, text = Some t /\ whitespaceOnly t = true.
Proof.
  split.
  - unfold PostPage.getWordCount, PostPage.getPostBody, result. simpl.
    destruct (h _ (TextContent PostPage.postBody) w) as [[text | e] w1]; simpl;
      [| reflexivity].
    f_equal. unfold splitWhitespace.
    rewrite splitWhitespaceFrom_count by discriminate. simpl.
    destruct text as [t |]; simpl; [| reflexivity].
    unfold trimOrEmpty. simpl. apply countWords_trim.
  - intros [t |]; simpl.
    + rewrite countWords_zero. split.
      * intros Hws. right. exists t. split; [reflexivity | exact Hws].
      * intros [Hnone | (t' & Ht & Hws)]; [discriminate |].
        injection Ht as <-. exact Hws.
    + split; [intros _; left; reflexivity | reflexivity].
Qed.

Lemma getWordCount_counts_words_witness :
  StaticPage.eval Words.articlePage PostPage.getWordCount = Resolved 3 /\
  (Words.wordsOf (Some [32; 9]%N) = 0 <->
   Some [32; 9]%N = None \/ exists t, Some [32; 9]%N = Some t /\ whitespaceOnly t = true).
Proof.
  split.
  - exact (proj1 (getWordCount_counts_words (StaticPage.static Words.articlePage) tt)).
  - exact (proj2 (getWordCount_counts_words (StaticPage.static Words.articlePage) tt)
             (Some [32; 9]%N)).
Defined.

(** ** accessibility.spec.ts: what the thresholds of the tests allow *)

Lemma critical_altViolations (imgs : list StaticPage.Element) :
  length (filter (AccessibilityTests.isSeverity AccessibilityHelpers.critical)
            (flat_map
               (fun img =>
                  AccessibilityHelpers.altViolations
                    (StaticPage.getAttribute (StaticPage.attributes img) "alt")
                    (StaticPage.getAttribute (StaticPage.attributes img) "src"))
               imgs))
  = length (filter A11ySpec.missingAlt imgs).
Proof.
  induction imgs as [| img imgs IH]; simpl; [reflexivity |].
  rewrite filter_app, length_app, IH. unfold A11ySpec.missingAlt.
  destruct (StaticPage.getAttribute (StaticPage.attributes img) "alt") as [alt |]; simpl.
  - destruct (whitespaceOnly alt); reflexivity.
  - reflexivity.
Qed.

Lemma count_linkViolations (anchors : list StaticPage.Element) :
  length (flat_map A11ySpec.linkViolations anchors)
  = length (filter A11ySpec.nameless anchors).
Proof.
  induction anchors as [| a anchors IH]; simpl; [reflexivity |].
  rewrite length_app, IH. unfold A11ySpec.linkViolations.
  destruct (A11ySpec.nameless a); reflexivity.
Qed.

Lemma toBeLessThanOrEqual_eval (p : StaticPage.Page) (actual expected : nat) :
  StaticPage.eval p (Expect.toBeLessThanOrEqual actual expected) =
  if (actual <=? expected)%nat then Resolved tt else Rejected assertionError.
Proof.
  unfold Expect.toBeLessThanOrEqual. destruct (actual <=? expected)%nat; reflexivity.
Qed.

(** X12. The three threshold tests of accessibility.spec.ts run after
    the [beforeEach] hook.  On every page, when the navigation of the
    hook fails the test fails with the error of the navigation; when it
    succeeds the test passes or fails with an assertion error, and:
    'images should have alt attributes' passes exactly when at most two
    images have no [alt] attribute; 'links should have accessible names'
    passes exactly when at most three anchors have no accessible name;
    'should have page language defined' passes exactly when the [lang]
    of the document is not empty. *)
Theorem accessibility_test_thresholds (p : StaticPage.Page) :
  (StaticPage.eval p AccessibilityTests.images_should_have_alt_attributes =
   match StaticPage.eval p HomePage.navigate with
   | Resolved _ =>
       if (length (filter A11ySpec.missingAlt (StaticPage.query p (lit "img"))) <=? 2)%nat
       then Resolved tt else Rejected assertionError
   | Rejected e => Rejected e
   end) /\
  (StaticPage.eval p AccessibilityTests.links_should_have_accessible_names =
   match StaticPage.eval p HomePage.navigate with
   | Resolved _ =>
       if (length (filter A11ySpec.nameless (StaticPage.query p (lit "a"))) <=? 3)%nat
       then Resolved tt else Rejected assertionError
   | Rejected e => Rejected e
   end) /\
  (StaticPage.eval p AccessibilityTests.should_have_page_language_defined =
   match StaticPage.eval p HomePage.navigate with
   | Resolved _ =>
       if truthy (StaticPage.lang p) then Resolved tt else Rejected assertionError
   | Rejected e => Rejected e
   end).
Proof.
  split; [| split].
  - unfold AccessibilityTests.images_should_have_alt_attributes,
      AccessibilityTests.beforeEach.
    rewrite eval_bind.
    destruct (StaticPage.eval p HomePage.navigate) as [[] | e]; [| reflexivity].
    rewrite eval_bind, checkImagesHaveAlt_eval, toBeLessThanOrEqual_eval.
    rewrite critical_altViolations. reflexivity.
  - unfold AccessibilityTests.links_should_have_accessible_names,
      AccessibilityTests.beforeEach.
    rewrite eval_bind.
    destruct (StaticPage.eval p HomePage.navigate) as [[] | e]; [| reflexivity].
    rewrite eval_bind, checkLinksAccessible_eval, toBeLessThanOrEqual_eval.
    rewrite count_linkViolations. reflexivity.
  - unfold AccessibilityTests.should_have_page_language_defined,
      AccessibilityTests.beforeEach, AccessibilityHelpers.checkPageLanguage.
    rewrite eval_bind.
    destruct (StaticPage.eval p HomePage.navigate) as [[] | e]; [| reflexivity].
    rewrite eval_bind, eval_bind, eval_await. cbn [StaticPage.answer].
    rewrite eval_ret. destruct (truthy (StaticPage.lang p)); reflexivity.
Qed.

(** ** The tests on the author's name and tagline *)

Lemma truthy_trimOrEmpty (text : option jsstring) :
  truthy (trimOrEmpty text) = true <-> exists t, text = Some t /\ whitespaceOnly t = false.
Proof.
  destruct text as [t |]; unfold trimOrEmpty; simpl.
  - rewrite truthy_trim. split.
    + intros Hws. exists t. split; [reflexivity |].
      destruct (whitespaceOnly t); [discriminate | reflexivity].
    + intros (t' & Ht & Hws). injection Ht as <-. rewrite Hws. reflexivity.
  - split; [discriminate | intros (t & Ht & _); discriminate].
Qed.

Lemma length_truthy (s : jsstring) : (0 <? length s)%nat = truthy s.
Proof. destruct s; reflexivity. Qed.

(** A reader followed by an expectation that its text is not empty
    passes exactly when the element is read and its text has a character
    that is not white space. *)
Lemma text_expectation {W} (h : handler pageE W) (w : W) (l : locator)
  (expectation : jsstring -> prog pageE unit) :
  (forall text w', result h (expectation text) w' =
                   if truthy text then Resolved tt else Rejected assertionError) ->
  (result h (value <- (text <- await (TextContent l) ;; Ret (trimOrEmpty text)) ;;
             expectation value) w = Resolved tt <->
   exists t, fst (h _ (TextContent l) w) = Resolved (Some t) /\ whitespaceOnly t = false).
Proof.
  intros Hexpect. rewrite result_bind, (reader_result l h w).
  destruct (fst (h _ (TextContent l) w)) as [text | e].
  - rewrite Hexpect.
    pose proof (truthy_trimOrEmpty text) as Htext.
    destruct (truthy (trimOrEmpty text)); split.
    + intros _. destruct (proj1 Htext eq_refl) as (t & -> & Hws).
      exists t. split; [reflexivity | exact Hws].
    + reflexivity.
    + discriminate.
    + intros (t & Ht & Hws). injection Ht as ->.
      assert (Hfalse : false = true)
        by (apply Htext; exists t; split; [reflexivity | exact Hws]).
      discriminate.
  - split; [discriminate | intros (t & Ht & _); discriminate].
Qed.

(** X13. In every environment the test 'should display author tagline',
    which runs after the [beforeEach] hook, passes exactly when the
    navigation of the hook succeeds and the tagline element is then read
    with a text that has a character that is not white space; the smoke
    test 'should display author information' passes exactly when its
    navigation succeeds and the same holds of the author's name.  A
    missing, empty or blank text fails the test. *)
Theorem author_tests_need_text {W} (h : handler pageE W) (w : W) :
  (result h HomepageTests.should_display_author_tagline w = Resolved tt <->
   result h HomePage.navigate w = Resolved tt /\
   exists t, fst (h _ (TextContent ProfileComponent.tagline) (world h HomePage.navigate w))
             = Resolved (Some t) /\
             whitespaceOnly t = false) /\
  (result h SmokeTests.should_display_author_information w = Resolved tt <->
   result h HomePage.navigate w = Resolved tt /\
   exists t, fst (h _ (TextContent ProfileComponent.authorName) (world h HomePage.navigate w))
             = Resolved (Some t) /\
             whitespaceOnly t = false).
Proof.
  split.
  - unfold HomepageTests.should_display_author_tagline, HomepageTests.beforeEach,
      ProfileComponent.getTagline.
    rewrite result_bind.
    destruct (result h HomePage.navigate w) as [[] | e].
    + rewrite (text_expectation h (world h HomePage.navigate w) ProfileComponent.tagline
                 (fun tagline => expect_toBeGreaterThan (length tagline) 0)).
      * tauto.
      * intros text w'. unfold expect_toBeGreaterThan. rewrite length_truthy.
        destruct (truthy text); reflexivity.
    + split; [discriminate | intros [Hnav _]; discriminate].
  - unfold SmokeTests.should_display_author_information, ProfileComponent.getAuthorName.
    rewrite result_bind.
    destruct (result h HomePage.navigate w) as [[] | e].
    + rewrite (text_expectation h (world h HomePage.navigate w) ProfileComponent.authorName
                 (fun authorName => Expect.toBeTruthy authorName)).
      * tauto.
      * intros text w'. unfold Expect.toBeTruthy.
        destruct (truthy text); reflexivity.
    + split; [discriminate | intros [Hnav _]; discriminate].
Qed.

Lemma author_tests_need_text_witness :
  result (StaticPage.static ProfileExample.homeWithProfile)
    HomepageTests.should_display_author_tagline tt = Resolved tt /\
  result (StaticPage.static ProfileExample.homeWithProfile)
    SmokeTests.should_display_author_information tt = Resolved tt.
Proof.
  split.
  - apply (proj1 (author_tests_need_text (StaticPage.static ProfileExample.homeWithProfile) tt)).
    split; [reflexivity |].
    exists (lit "QA Engineer"). split; reflexivity.
  - apply (proj2 (author_tests_need_text (StaticPage.static ProfileExample.homeWithProfile) tt)).
    split; [reflexivity |].
    exists ([32; 10]%N ++ lit "Alejandro" ++ [9; 160]%N). split; reflexivity.
Defined.

(** ** testHelpers.ts: the names of timestamped screenshots *)

Lemma lit_injective (a b : string) : lit a = lit b -> a = b.
Proof.
  unfold lit. intros H.
  rewrite <- (string_of_list_ascii_of_string a), <- (string_of_list_ascii_of_string b).
  f_equal.
  revert H. generalize (list_ascii_of_string a) (list_ascii_of_string b).
  intros la. induction la as [| x la IH]; intros [| y lb] H; simpl in H;
    try discriminate; [reflexivity |].
  injection H as Hxy Hrest. f_equal; [| apply IH; exact Hrest].
  rewrite <- (ascii_N_embedding x), <- (ascii_N_embedding y), Hxy. reflexivity.
Qed.

Lemma to_int_written (z : Z) :
  NilZero.int_of_string (NilZero.string_of_int (Z.to_int z)) = Some (Z.to_int z).
Proof.
  apply NilZero.isi.
  - rewrite <- (DecimalZ.of_to z), DecimalZ.to_of.
    destruct (Z.to_int z) as [d | d]; simpl.
    + unfold Decimal.unorm. destruct (Decimal.nzhead d); discriminate.
    + destruct (Decimal.nzhead d); discriminate.
  - rewrite <- (DecimalZ.of_to z), DecimalZ.to_of.
    destruct (Z.to_int z) as [d | d]; simpl.
    + discriminate.
    + destruct (Decimal.nzhead d); discriminate.
Qed.

Lemma ofZ_injective (a b : Z) : ofZ a = ofZ b -> a = b.
Proof.
  unfold ofZ. intros H. apply lit_injective in H.
  apply DecimalZ.to_int_inj.
  pose proof (to_int_written a) as Ha. rewrite H, to_int_written in Ha.
  injection Ha as Ha. symmetry. exact Ha.
Qed.

Lemma takeTimestampedScreenshot_run {W} (h : handler pageE W) (w : W) (name filename : jsstring) :
  result h (TestHelpers.takeTimestampedScreenshot name) w = Resolved filename ->
  exists timestamp buffer,
    fst (h _ DateNow w) = Resolved timestamp /\
    filename = name ++ lit "-" ++ ofZ timestamp ++ lit ".png" /\
    trace h (TestHelpers.takeTimestampedScreenshot name) w =
    [ Event DateNow (Resolved timestamp);
      Event (Screenshot (Screens.screenshotsDirectory ++ filename) true) (Resolved buffer) ].
Proof.
  unfold TestHelpers.takeTimestampedScreenshot, result, trace, await. simpl.
  destruct (h _ DateNow w) as [[timestamp | e] w1]; simpl; [| discriminate].
  destruct (h _ (Screenshot _ true) w1) as [[buffer | e] w2]; simpl; [| discriminate].
  intros Hres. injection Hres as <-.
  exists timestamp, buffer. split; [reflexivity |]. split; reflexivity.
Qed.

(** X14. When [takeTimestampedScreenshot] returns, it has read the clock
    and then written one full-page screenshot to the file of the returned
    name inside test-results/screenshots/, and nothing else.  Two calls
    with the same name, in whatever environments, return the same file
    name exactly when they read the same time: a later screenshot never
    overwrites an earlier one unless taken in the same millisecond. *)
Theorem timestamped_screenshot_names {W1 W2} (h1 : handler pageE W1) (w1 : W1)
  (h2 : handler pageE W2) (w2 : W2) (name f1 f2 : jsstring) :
  result h1 (TestHelpers.takeTimestampedScreenshot name) w1 = Resolved f1 ->
  result h2 (TestHelpers.takeTimestampedScreenshot name) w2 = Resolved f2 ->
  exists t1 t2 buffer,
    fst (h1 _ DateNow w1) = Resolved t1 /\
    fst (h2 _ DateNow w2) = Resolved t2 /\
    trace h1 (TestHelpers.takeTimestampedScreenshot name) w1 =
    [ Event DateNow (Resolved t1);
      Event (Screenshot (Screens.screenshotsDirectory ++ f1) true) (Resolved buffer) ] /\
    (f1 = f2 <-> t1 = t2).
Proof.
  intros H1 H2.
  destruct (takeTimestampedScreenshot_run h1 w1 name f1 H1) as (t1 & buffer & Ht1 & Hf1 & Htr).
  destruct (takeTimestampedScreenshot_run h2 w2 name f2 H2) as (t2 & _ & Ht2 & Hf2 & _).
  exists t1, t2, buffer. repeat split; try assumption.
  - intros Heq. rewrite Hf1, Hf2 in Heq.
    apply app_inv_head in Heq. apply app_inv_head in Heq. apply app_inv_tail in Heq.
    apply ofZ_injective. exact Heq.
  - intros ->. rewrite Hf1, Hf2. reflexivity.
Qed.

Lemma timestamped_screenshot_names_witness :
  exists t1 t2 buffer,
    fst (Screens.clock _ DateNow 1700000000000%Z) = Resolved t1 /\
    fst (Screens.clock _ DateNow 1700000000001%Z) = Resolved t2 /\
    trace Screens.clock (TestHelpers.takeTimestampedScreenshot (lit "home")) 1700000000000%Z =
    [ Event DateNow (Resolved t1);
      Event (Screenshot (Screens.screenshotsDirectory ++ lit "home-1700000000000.png") true)
        (Resolved buffer) ] /\
    (lit "home-1700000000000.png" = lit "home-1700000000001.png" <-> t1 = t2).
Proof.
  apply (timestamped_screenshot_names Screens.clock 1700000000000%Z
           Screens.clock 1700000000001%Z (lit "home")); reflexivity.
Defined.

(** ** BlogPostComponent.ts: the data of one post *)

(** X15. Whatever [getPostByIndex] returns, in every environment, has a
    title, a date and a description without white space at either end,
    and tags that are non-empty and without white space at either end. *)
Theorem getPostByIndex_fields_clean {W} (h : handler pageE W) (index : nat) (w : W)
  (data : BlogPostComponent.BlogPostData) :
  result h (BlogPostComponent.getPostByIndex index) w = Resolved data ->
  trimmed (BlogPostComponent.title data) /\
  trimmed (BlogPostComponent.date data) /\
  trimmed (BlogPostComponent.description data) /\
  Forall Lists.cleanText (BlogPostComponent.tags data).
Proof.
  unfold BlogPostComponent.getPostByIndex. intros Hres.
  rewrite result_bind, result_await in Hres.
  match type of Hres with
  | context [fst (h ?X ?c w)] => destruct (fst (h X c w)) as [title |]; [| discriminate]
  end.
  rewrite result_bind, result_await in Hres.
  match type of Hres with
  | context [fst (h ?X ?c ?w')] => destruct (fst (h X c w')) as [date |]; [| discriminate]
  end.
  rewrite result_bind, result_await in Hres.
  match type of Hres with
  | context [fst (h ?X ?c ?w')] => destruct (fst (h X c w')) as [description |]; [| discriminate]
  end.
  rewrite result_bind, result_await in Hres.
  match type of Hres with
  | context [fst (h ?X ?c ?w')] => destruct (fst (h X c w')) as [url |]; [| discriminate]
  end.
  rewrite result_bind, result_await in Hres.
  match type of Hres with
  | context [fst (h ?X ?c ?w')] => destruct (fst (h X c w')) as [tagCount |]; [| discriminate]
  end.
  rewrite result_bind in Hres.
  match type of Hres with
  | context [result h (for_range ?n ?i ?body ?acc) ?w'] =>
      destruct (result h (for_range n i body acc) w') as [tags |] eqn:Htags; [| discriminate]
  end.
  unfold result in Hres. simpl in Hres. injection Hres as <-. simpl.
  split; [apply trimOrEmpty_trimmed |].
  split; [apply trimOrEmpty_trimmed |].
  split; [apply trimOrEmpty_trimmed |].
  revert Htags. apply for_range_invariant; [| constructor].
  intros i acc w' acc' Hacc Hround.
  rewrite result_bind, result_await in Hround.
  match type of Hround with
  | context [fst (h ?X ?c w')] => destruct (fst (h X c w')) as [text |]; [| discriminate]
  end.
  unfold result in Hround. simpl in Hround. injection Hround as <-.
  apply pushTrimmed_clean. exact Hacc.
Qed.

Lemma getPostByIndex_fields_clean_witness :
  trimmed (lit "Hello World") /\ trimmed (lit "2024-02-02") /\ trimmed (lit "Second") /\
  Forall Lists.cleanText (@nil jsstring).
Proof.
  exact (getPostByIndex_fields_clean (StaticPage.static Blog.teaserPage) 1 tt
           {| BlogPostComponent.title := lit "Hello World";
              BlogPostComponent.date := lit "2024-02-02";
              BlogPostComponent.description := lit "Second";
              BlogPostComponent.tags := [];
              BlogPostComponent.url := Some (lit "/two/") |} eq_refl).
Defined.

(** ** HomePage.ts: the visible sections and the smoke test on them *)

Lemma getVisibleSections_eval (p : StaticPage.Page) :
  StaticPage.eval p HomePage.getVisibleSections =
  match StaticPage.answer p bool (IsVisible NavigationComponent.navContainer),
        StaticPage.answer p bool (IsVisible ProfileComponent.profileContainer),
        StaticPage.answer p bool (IsVisible BlogPostComponent.postsContainer),
        StaticPage.answer p bool (IsVisible FooterComponent.footerContainer) with
  | Resolved _, Resolved _, Resolved _, Resolved _ =>
      Resolved (map snd (filter (fun c => Sections.visibleOn p (fst c)) Sections.containers))
  | Rejected e, _, _, _ => Rejected e
  | Resolved _, Rejected e, _, _ => Rejected e
  | Resolved _, Resolved _, Rejected e, _ => Rejected e
  | Resolved _, Resolved _, Resolved _, Rejected e => Rejected e
  end.
Proof.
  unfold HomePage.getVisibleSections, NavigationComponent.isVisible,
    ProfileComponent.isVisible, BlogPostComponent.isVisible, FooterComponent.isVisible.
  unfold Sections.containers, Sections.visibleOn. cbn [filter map fst snd].
  rewrite eval_bind, eval_await.
  destruct (StaticPage.answer p bool (IsVisible NavigationComponent.navContainer))
    as [nav | e]; [| reflexivity].
  rewrite eval_bind, eval_await.
  destruct (StaticPage.answer p bool (IsVisible ProfileComponent.profileContainer))
    as [prof | e]; [| reflexivity].
  rewrite eval_bind, eval_await.
  destruct (StaticPage.answer p bool (IsVisible BlogPostComponent.postsContainer))
    as [posts | e]; [| reflexivity].
  rewrite eval_bind, eval_await.
  destruct (StaticPage.answer p bool (IsVisible FooterComponent.footerContainer))
    as [foot | e]; [| reflexivity].
  rewrite eval_ret. destruct nav, prof, posts, foot; reflexivity.
Qed.

(** X16. On every page [getVisibleSections] returns when the page answers
    all four visibility questions, and then lists the names of the
    containers reported visible, in the order navigation, profile,
    blog-posts, footer.  The smoke test 'should display main content
    sections' passes exactly when the navigation succeeds, the four
    questions are answered and at least one container is visible: it does
    not need all of them. *)
Theorem main_sections_test_needs_one (p : StaticPage.Page) :
  (forall sections,
      StaticPage.eval p HomePage.getVisibleSections = Resolved sections <->
      forallb (fun c => Sections.answered p (fst c)) Sections.containers = true /\
      sections = map snd (filter (fun c => Sections.visibleOn p (fst c)) Sections.containers)) /\
  (StaticPage.eval p SmokeTests.should_display_main_content_sections = Resolved tt <->
   StaticPage.eval p HomePage.navigate = Resolved tt /\
   forallb (fun c => Sections.answered p (fst c)) Sections.containers = true /\
   existsb (fun c => Sections.visibleOn p (fst c)) Sections.containers = true).
Proof.
  assert (Hsections : forall sections,
             StaticPage.eval p HomePage.getVisibleSections = Resolved sections <->
             forallb (fun c => Sections.answered p (fst c)) Sections.containers = true /\
             sections = map snd (filter (fun c => Sections.visibleOn p (fst c))
                                   Sections.containers)).
  { intros sections. rewrite getVisibleSections_eval.
    unfold Sections.answered. cbn [forallb fst Sections.containers].
    destruct (StaticPage.answer p bool (IsVisible NavigationComponent.navContainer));
      [| cbn beta iota; split; [discriminate | intros [H _]; discriminate]].
    destruct (StaticPage.answer p bool (IsVisible ProfileComponent.profileContainer));
      [| cbn beta iota; split; [discriminate | intros [H _]; discriminate]].
    destruct (StaticPage.answer p bool (IsVisible BlogPostComponent.postsContainer));
      [| cbn beta iota; split; [discriminate | intros [H _]; discriminate]].
    destruct (StaticPage.answer p bool (IsVisible FooterComponent.footerContainer));
      [| cbn beta iota; split; [discriminate | intros [H _]; discriminate]].
    cbn beta iota. split.
    - intros H. injection H as <-. split; reflexivity.
    - intros [_ ->]. reflexivity. }
  split; [exact Hsections |].
  unfold SmokeTests.should_display_main_content_sections.
  rewrite eval_bind.
  destruct (StaticPage.eval p HomePage.navigate) as [[] | e];
    [| split; [discriminate | intros [H _]; discriminate]].
  rewrite eval_bind.
  destruct (StaticPage.eval p HomePage.getVisibleSections) as [sections | e] eqn:Heval.
  - destruct (proj1 (Hsections sections) eq_refl) as [Hanswered ->].
    unfold StaticPage.eval. rewrite expect_toBeGreaterThan_result.
    rewrite Hanswered, length_map.
    assert (Hcount : forall l : list (locator * jsstring),
               0 < length (filter (fun c => Sections.visibleOn p (fst c)) l) <->
               existsb (fun c => Sections.visibleOn p (fst c)) l = true).
    { intros l. induction l as [| c l IH]; simpl.
      - split; [lia | discriminate].
      - destruct (Sections.visibleOn p (fst c)); simpl; [| exact IH].
        split; [reflexivity | lia]. }
    rewrite Hcount. tauto.
  - split; [discriminate |].
    intros [_ [Hanswered _]].
    assert (Hnone : Rejected e =
                    Resolved (map snd (filter (fun c => Sections.visibleOn p (fst c))
                                         Sections.containers)))
      by (apply Hsections; split; [exact Hanswered | reflexivity]).
    discriminate.
Qed.

Lemma main_sections_test_needs_one_witness :
  StaticPage.eval ProfileExample.homeWithProfile HomePage.getVisibleSections
  = Resolved [lit "blog-posts"; lit "footer"] /\
  StaticPage.eval ProfileExample.homeWithProfile
    SmokeTests.should_display_main_content_sections = Resolved tt.
Proof.
  split.
  - apply (proj1 (main_sections_test_needs_one ProfileExample.homeWithProfile)).
    split; reflexivity.
  - apply (proj2 (main_sections_test_needs_one ProfileExample.homeWithProfile)).
    split; [reflexivity |]. split; reflexivity.
Defined.

(** ** NavigationComponent.ts: clicks on the mobile menu and on the links *)

Ltac guarded_trace :=
  repeat match goal with
         | |- _ /\ _ => split
         | |- True => exact I
         | |- _ -> _ =>
             let H := fresh "H" in
             intros H; simpl in H;
             first [ contradiction | discriminate H | split; reflexivity ]
         end.

Lemma toggleMobileMenu_guarded {W} (h : handler pageE W) (w : W) :
  Navigation.togglesGuarded None (trace h NavigationComponent.toggleMobileMenu w).
Proof.
  unfold NavigationComponent.toggleMobileMenu, trace, await. simpl.
  destruct (h _ (IsVisible NavigationComponent.mobileMenuToggle) w) as [[[|] | e] w1];
    simpl; guarded_trace.
  destruct (h _ (Click NavigationComponent.mobileMenuToggle) w1) as [[[] | e] w2];
    simpl; guarded_trace.
Qed.

Lemma destination_calls {W} (h : handler pageE W) (w : W) (op : prog pageE unit) :
  In op Navigation.destinations ->
  Navigation.togglesGuarded None (trace h op w) /\
  (result h op w = Resolved tt ->
   exists l earlier,
     rev (trace h op w) =
     Event (WaitForLoadState NetworkIdle) (Resolved tt) ::
     Event (Click l) (Resolved tt) :: earlier /\
     l <> NavigationComponent.mobileMenuToggle).
Proof.
  intros Hop. simpl in Hop.
  destruct Hop as [<- | [<- | [<- | [<- | [<- | []]]]]].
  - unfold NavigationComponent.goToHome, result, trace, await. simpl.
    destruct (h _ (IsVisible (First (Css (lit ".site-logo, a.site-logo")))) w)
      as [[[|] | e] w1]; simpl.
    + destruct (h _ (Click (First (Css (lit ".site-logo, a.site-logo")))) w1)
        as [[[] | e] w2]; simpl.
      * destruct (h _ (WaitForLoadState NetworkIdle) w2) as [[[] | e] w3]; simpl;
          (split; [guarded_trace |]); intros Hres; try discriminate Hres.
        eexists; eexists. split; [reflexivity | discriminate].
      * split; [guarded_trace | intros Hres; discriminate Hres].
    + destruct (h _ (IsVisible NavigationComponent.mobileMenuToggle) w1)
        as [[[|] | e] w2]; simpl.
      * destruct (h _ (Click NavigationComponent.mobileMenuToggle) w2)
          as [[[] | e] w3]; simpl;
          [| split; [guarded_trace | intros Hres; discriminate Hres]].
        destruct (h _ (WaitForTimeout 300) w3) as [[[] | e] w4]; simpl;
          [| split; [guarded_trace | intros Hres; discriminate Hres]].
        destruct (h _ (Click NavigationComponent.homeLink) w4) as [[[] | e] w5]; simpl;
          [| split; [guarded_trace | intros Hres; discriminate Hres]].
        destruct (h _ (WaitForLoadState NetworkIdle) w5) as [[[] | e] w6]; simpl;
          (split; [guarded_trace |]); intros Hres; try discriminate Hres.
        eexists; eexists. split; [reflexivity | discriminate].
      * destruct (h _ (Click NavigationComponent.homeLink) w2) as [[[] | e] w3]; simpl;
          [| split; [guarded_trace | intros Hres; discriminate Hres]].
        destruct (h _ (WaitForLoadState NetworkIdle) w3) as [[[] | e] w4]; simpl;
          (split; [guarded_trace |]); intros Hres; try discriminate Hres.
        eexists; eexists. split; [reflexivity | discriminate].
      * split; [guarded_trace | intros Hres; discriminate Hres].
    + split; [guarded_trace | intros Hres; discriminate Hres].
  - unfold NavigationComponent.goToAbout, result, trace, await. simpl.
    destruct (h _ (IsVisible NavigationComponent.mobileMenuToggle) w)
      as [[[|] | e] w1]; simpl.
    + destruct (h _ (Click NavigationComponent.mobileMenuToggle) w1)
        as [[[] | e] w2]; simpl;
        [| split; [guarded_trace | intros Hres; discriminate Hres]].
      destruct (h _ (WaitForTimeout 300) w2) as [[[] | e] w3]; simpl;
        [| split; [guarded_trace | intros Hres; discriminate Hres]].
      destruct (h _ (Click NavigationComponent.aboutLink) w3) as [[[] | e] w4]; simpl;
        [| split; [guarded_trace | intros Hres; discriminate Hres]].
      destruct (h _ (WaitForLoadState NetworkIdle) w4) as [[[] | e] w5]; simpl;
        (split; [guarded_trace |]); intros Hres; try discriminate Hres.
      eexists; eexists. split; [reflexivity | discriminate].
    + destruct (h _ (Click NavigationComponent.aboutLink) w1) as [[[] | e] w2]; simpl;
        [| split; [guarded_trace | intros Hres; discriminate Hres]].
      destruct (h _ (WaitForLoadState NetworkIdle) w2) as [[[] | e] w3]; simpl;
        (split; [guarded_trace |]); intros Hres; try discriminate Hres.
      eexists; eexists. split; [reflexivity | discriminate].
    + split; [guarded_trace | intros Hres; discriminate Hres].
  - unfold NavigationComponent.goToPosts, result, trace, await. simpl.
    destruct (h _ (Click NavigationComponent.postsLink) w) as [[[] | e] w1]; simpl;
      [| split; [guarded_trace | intros Hres; discriminate Hres]].
    destruct (h _ (WaitForLoadState NetworkIdle) w1) as [[[] | e] w2]; simpl;
      (split; [guarded_trace |]); intros Hres; try discriminate Hres.
    eexists; eexists. split; [reflexivity | discriminate].
  - unfold NavigationComponent.goToCategories, result, trace, await. simpl.
    destruct (h _ (Click NavigationComponent.categoriesLink) w) as [[[] | e] w1]; simpl;
      [| split; [guarded_trace | intros Hres; discriminate Hres]].
    destruct (h _ (WaitForLoadState NetworkIdle) w1) as [[[] | e] w2]; simpl;
      (split; [guarded_trace |]); intros Hres; try discriminate Hres.
    eexists; eexists. split; [reflexivity | discriminate].
  - unfold NavigationComponent.goToTags, result, trace, await. simpl.
    destruct (h _ (Click NavigationComponent.tagsLink) w) as [[[] | e] w1]; simpl;
      [| split; [guarded_trace | intros Hres; discriminate Hres]].
    destruct (h _ (WaitForLoadState NetworkIdle) w1) as [[[] | e] w2]; simpl;
      (split; [guarded_trace |]); intros Hres; try discriminate Hres.
    eexists; eexists. split; [reflexivity | discriminate].
Qed.

(** X17. In every environment the operations of the navigation component
    click the toggle of the mobile menu only right after it was reported
    visible.  When one of [goToHome], [goToAbout], [goToPosts],
    [goToCategories] and [goToTags] returns, its last two calls are a
    click on an element other than the toggle and the wait for the
    network to be idle. *)
Theorem navigation_clicks {W} (h : handler pageE W) (w : W) (op : prog pageE unit) :
  (In op (NavigationComponent.toggleMobileMenu :: Navigation.destinations) ->
   Navigation.togglesGuarded None (trace h op w)) /\
  (In op Navigation.destinations -> result h op w = Resolved tt ->
   exists l earlier,
     rev (trace h op w) =
     Event (WaitForLoadState NetworkIdle) (Resolved tt) ::
     Event (Click l) (Resolved tt) :: earlier /\
     l <> NavigationComponent.mobileMenuToggle).
Proof.
  split.
  - intros [<- | Hop].
    + apply toggleMobileMenu_guarded.
    + apply (destination_calls h w op Hop).
  - intros Hop. apply (destination_calls h w op Hop).
Qed.

Lemma navigation_clicks_witness :
  Navigation.togglesGuarded None
    (trace (Browser.browse Browser.aboutSite) NavigationComponent.goToAbout Fixtures.siteUrl) /\
  exists l earlier,
    rev (trace (Browser.browse Browser.aboutSite) NavigationComponent.goToAbout
           Fixtures.siteUrl) =
    Event (WaitForLoadState NetworkIdle) (Resolved tt) ::
    Event (Click l) (Resolved tt) :: earlier /\
    l <> NavigationComponent.mobileMenuToggle.
Proof.
  split.
  - apply (proj1 (navigation_clicks (Browser.browse Browser.aboutSite) Fixtures.siteUrl
                    NavigationComponent.goToAbout)).
    simpl. right. right. left. reflexivity.
  - apply (proj2 (navigation_clicks (Browser.browse Browser.aboutSite) Fixtures.siteUrl
                    NavigationComponent.goToAbout)).
    + simpl. right. left. reflexivity.
    + reflexivity.
Defined.
